(** * NDN3 network-building tools: a shallow embedding of [ffnetwork.py]

    The development follows the source file top to bottom:
    - the Python values and exceptions the constructors handle;
    - dense tensors with numpy's row-major storage, and [FFNetwork.time_embed];
    - [FFNetwork.__init__] and [FFNetwork._define_network], run against the
      caller's configuration dictionary, which they update in place;
    - [FFNetwork.build_graph] and [FFNetwork.define_regularization_loss];
    - [SideNetwork.__init__] and [SamplerNetwork.build_graph].

    Integers are Python integers (unbounded), modelled by [Z]; sizes and
    indices that the code uses as lengths are [nat].  Tensor entries belong to
    an arbitrary scalar type with the few laws of exact arithmetic on 0 and 1
    that the proofs use. *)

From Stdlib Require Import ZArith List Lia String Bool Arith.
From stdpp Require Import base option gmap strings list.

Open Scope string_scope.
Open Scope list_scope.
Open Scope nat_scope.

(** ** Exceptions and results *)

(** The exceptions that [ffnetwork.py] raises itself carry the message of the
    [raise] statement; the others are raised by the interpreter or by the
    tensor runtime. *)
Inductive Exn : Type :=
  | TypeError (msg : string)
  | ValueError (msg : string)
  | KeyError (key : string)
  | IndexError
  | AttributeError (attr : string)
  | AssertionError (msg : string).

Definition Res (A : Type) : Type := Exn + A.

Definition res_bind {A B} (r : Res A) (k : A -> Res B) : Res B :=
  match r with
  | inl e => inl e
  | inr a => k a
  end.

Definition is_TypeError {A} (r : Res A) : bool :=
  match r with inl (TypeError _) => true | _ => false end.

Definition is_ValueError {A} (r : Res A) : bool :=
  match r with inl (ValueError _) => true | _ => false end.

(** ** Lists built by index *)

Definition tabulate {A} (n : nat) (f : nat -> A) : list A := map f (seq 0 n).

(** Row-major offsets.  [ravel3 L K b l k] is the offset of entry [b, l, k] in
    a tensor whose two trailing extents are [L] and [K]. *)
Definition ravel2 (F b f : nat) : nat := b * F + f.
Definition ravel3 (L K b l k : nat) : nat := (b * L + l) * K + k.

(** ** Tensors *)

Section Tensors.

(** The scalar type of tensor entries, with its zero, one, sum and product. *)
Context {R : Type} (zero one : R) (add mul : R -> R -> R).

(** A dense tensor: its shape and its entries in row-major order. *)
Record Tensor : Type := mkTensor { shape : list nat; data : list R }.

Definition numel (sh : list nat) : nat := fold_right Nat.mul 1 sh.

Definition well_shaped (t : Tensor) : Prop :=
  length (data t) = numel (shape t).

(** Entry at a row-major offset. *)
Definition flat (t : Tensor) (i : nat) : R := nth i (data t) zero.

(** [t[b, f]] for a rank-2 tensor. *)
Definition get2 (t : Tensor) (b f : nat) : R :=
  match shape t with
  | [_; F] => flat t (ravel2 F b f)
  | _ => zero
  end.

(** [np.zeros(shape)] *)
Definition np_zeros (sh : list nat) : Tensor :=
  mkTensor sh (tabulate (numel sh) (fun _ => zero)).

(** [np.eye(n, k=k)]: ones on the [k]-th diagonal, entry [i, j] is one
    exactly when [j - i = k]. *)
Definition np_eye (n : nat) (k : Z) : Tensor :=
  mkTensor [n; n]
    (tabulate (n * n)
       (fun i => if (Z.of_nat (i mod n) - Z.of_nat (i / n) =? k)%Z
                 then one else zero)).

(** [m[:, lag, :] = e] for [m] of rank 3 and [e] of rank 2. *)
Definition assign_lag_slice (m : Tensor) (lag : nat) (e : Tensor) : Tensor :=
  match shape m with
  | [_; L; K] =>
      mkTensor (shape m)
        (tabulate (length (data m))
           (fun i => if (i / K) mod L =? lag
                     then flat e (ravel2 K (i / (L * K)) (i mod K))
                     else flat m i))
  | _ => m
  end.

(** The shift stack of [time_embed]: [np.zeros] followed by the loop over
    [range(num_lags)]. *)
Definition shift_stack (batch_sz num_lags : nat) : Tensor :=
  fold_left
    (fun m lag => assign_lag_slice m lag (np_eye batch_sz (- Z.of_nat lag)))
    (seq 0 num_lags)
    (np_zeros [batch_sz; num_lags; batch_sz]).

(** Sum of [g 0 .. g (n-1)], accumulated from zero. *)
Definition sum_upto (n : nat) (g : nat -> R) : R :=
  fold_left add (map g (seq 0 n)) zero.

(** [tf.tensordot(a, x, axes=[2, 0])] for [a] of rank 3 and [x] of rank 2. *)
Definition tf_tensordot_2_0 (a x : Tensor) : Res Tensor :=
  match shape a, shape x with
  | [B; L; K], [K'; F] =>
      if K =? K' then
        inr (mkTensor [B; L; F]
               (tabulate (B * L * F)
                  (fun i => sum_upto K (fun k =>
                     mul (flat a (ravel2 K (i / F) k))
                         (flat x (ravel2 F k (i mod F)))))))
      else inl (ValueError "Dimensions must be equal")
  | _, _ => inl (ValueError "Shape must be rank 3 and rank 2")
  end.

(** [tf.transpose(t, [0, 2, 1])] *)
Definition tf_transpose_0_2_1 (t : Tensor) : Res Tensor :=
  match shape t with
  | [B; L; F] =>
      inr (mkTensor [B; F; L]
             (tabulate (B * F * L)
                (fun i => flat t (ravel3 L F (i / (F * L)) (i mod L)
                                           ((i / L) mod F)))))
  | _ => inl (ValueError "Dimension must be 3")
  end.

(** [tf.reshape(t, (rows, -1))]: the entries keep their order and the second
    extent is inferred from their number. *)
Definition tf_reshape_rows (t : Tensor) (rows : nat) : Res Tensor :=
  if (rows =? 0) || negb (length (data t) mod rows =? 0)
  then inl (ValueError "Cannot reshape")
  else inr (mkTensor [rows; length (data t) / rows] (data t)).

(** [FFNetwork.time_embed] *)
Definition time_embed (inputs : Tensor) (batch_sz num_lags : nat)
  : Res Tensor :=
  let m := shift_stack batch_sz num_lags in
  let tmat := m in
  res_bind (tf_tensordot_2_0 tmat inputs) (fun expanded_inputs =>
  res_bind (tf_transpose_0_2_1 expanded_inputs) (fun expanded_inputs_tr =>
  tf_reshape_rows expanded_inputs_tr batch_sz)).

End Tensors.

Arguments Tensor R : clear implicits.
Arguments mkTensor {R} shape data.

(** ** Python values *)

Set Warnings "-register-all".

(** The values found in a configuration dictionary.  [VObj] stands for any
    other object (a regularization dictionary, a tuple, ...), which the code
    passes on without looking inside. *)
Inductive PyVal : Type :=
  | VNone
  | VBool (b : bool)
  | VInt (z : Z)
  | VStr (s : string)
  | VList (l : list PyVal)
  | VObj (id : nat).

Definition is_list (v : PyVal) : bool :=
  match v with VList _ => true | _ => false end.

Definition is_None (v : PyVal) : bool :=
  match v with VNone => true | _ => false end.

(** [len(v)] *)
Definition py_len (v : PyVal) : Res nat :=
  match v with
  | VList l => inr (length l)
  | VStr s => inr (String.length s)
  | _ => inl (TypeError "object has no len()")
  end.

(** [v[i]] for a non-negative index. *)
Definition py_getitem (v : PyVal) (i : nat) : Res PyVal :=
  match v with
  | VList l => match l !! i with Some x => inr x | None => inl IndexError end
  | VStr s => if i <? String.length s then inr (VStr (substring i 1 s))
              else inl IndexError
  | _ => inl (TypeError "object is not subscriptable")
  end.

(** [v == 'literal'] *)
Definition py_eq_str (v : PyVal) (s : string) : bool :=
  match v with VStr t => String.eqb t s | _ => false end.

(** Truth value of [v] in a condition. *)
Definition py_truthy (v : PyVal) : bool :=
  match v with
  | VNone => false
  | VBool b => b
  | VInt z => negb (z =? 0)%Z
  | VStr s => negb (String.eqb s "")
  | VList l => negb (length l =? 0)
  | VObj _ => true
  end.

(** An integer operand: Python's [bool] is a subtype of [int]. *)
Definition py_int (v : PyVal) : Res Z :=
  match v with
  | VInt z => inr z
  | VBool b => inr (Z.b2z b)
  | _ => inl (TypeError "unsupported operand type(s)")
  end.

Fixpoint py_ints (l : list PyVal) : Res (list Z) :=
  match l with
  | [] => inr []
  | v :: l' =>
      res_bind (py_int v) (fun z =>
      res_bind (py_ints l') (fun zs => inr (z :: zs)))
  end.

Definition list_sum (l : list Z) : Z := fold_right Z.add 0%Z l.
Definition list_prod (l : list Z) : Z := fold_right Z.mul 1%Z l.

(** ** The caller's objects *)

(** [FFNetwork.__init__] receives references to two objects of its caller: the
    [input_dims] argument and the [params_dict] dictionary.  It writes to both
    in place, so the model threads their contents through the constructor and
    returns them with its result.  The two are taken to be distinct objects. *)
Record Caller : Type := mkCaller {
  arg_input_dims : PyVal;
  arg_params : gmap string PyVal
}.

(** Computations of the constructor: they may raise, and they may update the
    caller's objects; what was written before an exception stays written. *)
Definition Init (A : Type) : Type := Caller -> Res A * Caller.

Definition ret {A} (a : A) : Init A := fun c => (inr a, c).
Definition raise {A} (e : Exn) : Init A := fun c => (inl e, c).
Definition bind {A B} (m : Init A) (k : A -> Init B) : Init B :=
  fun c => match m c with
           | (inl e, c') => (inl e, c')
           | (inr a, c') => k a c'
           end.
Definition lift {A} (r : Res A) : Init A := fun c => (r, c).

#[global] Instance Init_ret : MRet Init := @ret.
#[global] Instance Init_bind : MBind Init := fun A B k m => bind m k.

(** [key in params_dict] *)
Definition has_key (key : string) : Init bool :=
  fun c => (inr (bool_decide (is_Some (arg_params c !! key))), c).

(** [params_dict[key]] *)
Definition dict_get (p : gmap string PyVal) (key : string) : Res PyVal :=
  match p !! key with
  | Some v => inr v
  | None => inl (KeyError key)
  end.

Definition read_key (key : string) : Init PyVal :=
  fun c => (dict_get (arg_params c) key, c).

(** [params_dict[key] = v] *)
Definition write_key (key : string) (v : PyVal) : Init unit :=
  fun c => (inr tt, mkCaller (arg_input_dims c) (<[key := v]> (arg_params c))).

(** [while len(input_dims) < 3: input_dims.append(1)], on the list's content;
    [3 - len] iterations are enough to leave the loop. *)
Fixpoint append_ones (iterations : nat) (l : list PyVal) : list PyVal :=
  match iterations with
  | 0 => l
  | S k => if length l <? 3 then append_ones k (l ++ [VInt 1]) else l
  end.

Definition pad_in_place (l : list PyVal) : list PyVal :=
  append_ones (3 - length l) l.

(** The normalisation of one optional per-layer field (lines 136 to 175 of the
    source): an absent key takes its default, a value that is not a list is
    replaced by [num_layers] copies of itself, and a list of the wrong length
    is refused.  All writes go to the caller's dictionary. *)
Definition broadcast_option (key : string) (default : PyVal) (msg : string)
    (num_layers : nat) : Init unit :=
  present ← has_key key;
  (if present : bool then mret tt else write_key key default);;
  v ← read_key key;
  match v with
  | VList l =>
      if negb (length l =? num_layers) then raise (ValueError msg) else mret tt
  | _ => write_key key (VList (replicate num_layers v))
  end.

(** An absent key takes a default; a present one is left as it is. *)
Definition default_option (key : string) (default : PyVal) : Init unit :=
  present ← has_key key;
  if present : bool then mret tt else write_key key default.

(** ** Layer kernels *)

(** A constructor call into [layer.py] or [tlayer.py]: the class, the scope
    (its prefix and the layer index that ['..._%i' % nn] formats into it) and
    the other keyword arguments in the order in which the call lists them. *)
Record LayerCall : Type := mkCall {
  call_class : string;
  call_scope : string * nat;
  call_kwargs : list (string * PyVal)
}.

(** What network construction uses of a layer: its constructor, which may
    raise, and the [output_dims] that the constructor derives. *)
Class LayerFactory (Layer : Type) : Type := {
  new_layer : LayerCall -> Res Layer;
  output_dims : Layer -> PyVal
}.

(** Where a keyword argument of a constructor call comes from. *)
Inductive Arg : Type :=
  | Given (v : PyVal)            (* a value computed by [_define_network] *)
  | PerLayer (key : string)      (* [network_params[key][nn]] *)
  | Whole (key : string).        (* [network_params[key]] *)

Definition eval_arg (network_params : gmap string PyVal) (nn : nat) (a : Arg)
  : Res PyVal :=
  match a with
  | Given v => inr v
  | PerLayer key =>
      res_bind (dict_get network_params key) (fun v => py_getitem v nn)
  | Whole key => dict_get network_params key
  end.

(** Keyword arguments are evaluated from left to right; the first one that
    raises ends the call. *)
Fixpoint eval_kwargs (network_params : gmap string PyVal) (nn : nat)
    (args : list (string * Arg)) : Res (list (string * PyVal)) :=
  match args with
  | [] => inr []
  | (name, a) :: rest =>
      res_bind (eval_arg network_params nn a) (fun v =>
      res_bind (eval_kwargs network_params nn rest) (fun kw =>
      inr ((name, v) :: kw)))
  end.

(** The hyperparameters that most constructor calls end with. *)
Definition hyper_init : list (string * Arg) :=
  [ ("activation_func", PerLayer "activation_funcs");
    ("normalize_weights", PerLayer "normalize_weights");
    ("weights_initializer", PerLayer "weights_initializers");
    ("biases_initializer", PerLayer "biases_initializers");
    ("reg_initializer", PerLayer "reg_initializers");
    ("num_inh", PerLayer "num_inh");
    ("pos_constraint", PerLayer "pos_constraints");
    ("log_activations", Whole "log_activations") ].

Definition hyper_noinit : list (string * Arg) :=
  [ ("activation_func", PerLayer "activation_funcs");
    ("normalize_weights", PerLayer "normalize_weights");
    ("reg_initializer", PerLayer "reg_initializers");
    ("num_inh", PerLayer "num_inh");
    ("pos_constraint", PerLayer "pos_constraints");
    ("log_activations", Whole "log_activations") ].

(** ** Convolutional filter sizes *)

(** [input_dims[2] > 1] *)
Definition spatial_2d (input_dims : PyVal) : Res bool :=
  res_bind (py_getitem input_dims 2) (fun h =>
  res_bind (py_int h) (fun h => inr (1 <? h)%Z)).

(** The range of numpy's [int64]. *)
Definition int64 (z : Z) : Prop := (- 2 ^ 63 <= z < 2 ^ 63)%Z.

(** The ['conv'] and ['biconv'] branches: the leading extent is the channel
    count times the product of the extents after the third.  [np.prod] and the
    product with the channel count are computed on [int64]; they are written
    here as products of integers, which is what numpy returns as long as the
    extents and the result are in the range of [int64].  The properties of
    these branches are stated under that assumption. *)
Definition conv_filter_size_lagged (input_dims width : PyVal) : Res PyVal :=
  if is_None width then inr input_dims
  else
    res_bind (py_len input_dims) (fun n =>
    res_bind (if 3 <? n
              then
                res_bind (py_getitem input_dims 0) (fun c =>
                res_bind (match input_dims with
                          | VList l => py_ints (drop 3 l)
                          | _ => inl (TypeError "object is not subscriptable")
                          end) (fun lags =>
                res_bind (py_int c) (fun c =>
                inr (VInt (c * list_prod lags)))))
              else py_getitem input_dims 0) (fun dim0size =>
    res_bind (spatial_2d input_dims) (fun two_d =>
    inr (VList [dim0size; width; if two_d : bool then width else VInt 1])))).

(** The ['convsep'] and ['convLNL'] branches: the leading extent is the
    channel count as it is. *)
Definition conv_filter_size_plain (input_dims width : PyVal) : Res PyVal :=
  if is_None width then inr input_dims
  else
    res_bind (py_getitem input_dims 0) (fun c =>
    res_bind (spatial_2d input_dims) (fun two_d =>
    inr (VList [c; width; if two_d : bool then width else VInt 1]))).

(** The ['conv_xy'] branch: a square filter whatever the input. *)
Definition conv_filter_size_xy (input_dims width : PyVal) : Res PyVal :=
  if negb (is_None width) then
    res_bind (py_getitem input_dims 0) (fun c => inr (VList [c; width; width]))
  else inr input_dims.

(** The kinds whose branch ends with [self.time_expand[nn] = 0]. *)
Definition is_temporal (kind : PyVal) : bool :=
  py_eq_str kind "temporal" || py_eq_str kind "sp_temporal".

(** ** Networks *)

Section Construction.

Context {Layer : Type} `{LayerFactory Layer}.

Record FFNetwork : Type := mkFFNetwork {
  scope : string;
  input_dims : list PyVal;
  num_layers : nat;
  layer_types : PyVal;
  input_masks : list PyVal;
  layers : list Layer;
  time_expand : list Z;
  time_spread : Z;
  log : bool
}.

(** The variables of the loop of [_define_network].  The first element of
    [layer_sizes] is the very list object that [self.input_dims] refers to;
    [self_input_dims] follows what is written to it. *)
Record Defining : Type := mkDefining {
  layer_sizes : list PyVal;
  self_input_dims : list PyVal;
  self_layers : list Layer;
  self_time_expand : list Z
}.

Definition list_get {A} (l : list A) (i : nat) : Res A :=
  match l !! i with Some x => inr x | None => inl IndexError end.

(** A constructor call of the loop body, followed by
    [self.layers.append(...)]. *)
Definition append_layer (network_params : gmap string PyVal) (nn : nat)
    (class scope_prefix : string) (args : list (string * Arg))
    (d : Defining) : Res Defining :=
  res_bind (eval_kwargs network_params nn args) (fun kw =>
  res_bind (new_layer (mkCall class (scope_prefix, nn) kw)) (fun layer =>
  inr (mkDefining (layer_sizes d) (self_input_dims d)
         (self_layers d ++ [layer]) (self_time_expand d)))).

(** [self.time_expand[nn] = 0] *)
Definition cancel_time_expand (nn : nat) (d : Defining) : Defining :=
  mkDefining (layer_sizes d) (self_input_dims d) (self_layers d)
    (<[nn := 0%Z]> (self_time_expand d)).

(** The chain of [if]/[elif] on [self.layer_types[nn]]. *)
Definition dispatch_layer (network_params : gmap string PyVal)
    (self_layer_types : PyVal) (nn : nat) (d : Defining) : Res Defining :=
  res_bind (py_getitem self_layer_types nn) (fun kind =>
  res_bind (list_get (layer_sizes d) nn) (fun size_in =>
  res_bind (list_get (layer_sizes d) (nn + 1)) (fun size_out =>
  let kind_is k := py_eq_str kind k in
  let io_dims := [("input_dims", Given size_in);
                  ("output_dims", Given size_out)] in
  let in_filters := [("input_dims", Given size_in);
                     ("num_filters", Given size_out)] in
  let widths := eval_arg network_params nn (PerLayer "conv_filter_widths") in
  let conv_args filter :=
    in_filters ++ [("filter_dims", Given filter);
                   ("shift_spacing", PerLayer "shift_spacing")]
      ++ hyper_init in
  if kind_is "normal" then
    append_layer network_params nn "Layer" "layer"
      (io_dims ++ hyper_init) d
  else if kind_is "sep" then
    append_layer network_params nn "SepLayer" "sep_layer"
      (io_dims ++ hyper_init) d
  else if kind_is "readout" then
    append_layer network_params nn "ReadoutLayer" "readout_layer"
      (io_dims ++ hyper_init) d
  else if kind_is "add" then
    append_layer network_params nn "AddLayer" "add_layer"
      (io_dims ++ hyper_noinit) d
  else if kind_is "mult" then
    append_layer network_params nn "MultLayer" "mult_layer"
      (io_dims ++ hyper_noinit) d
  else if kind_is "filter" then
    append_layer network_params nn "FilterLayer" "add_layer"
      ([("input_dims", Given size_in)] ++ hyper_noinit) d
  else if kind_is "spkNL" then
    append_layer network_params nn "SpkNL_Layer" "spkNL_layer"
      [("input_dims", Given size_in);
       ("log_activations", Whole "log_activations")] d
  else if kind_is "spike_history" then
    append_layer network_params nn "SpikeHistoryLayer" "spike_history_layer"
      (io_dims ++ hyper_noinit) d
  else if kind_is "conv" then
    res_bind widths (fun width =>
    res_bind (conv_filter_size_lagged size_in width) (fun conv_filter_size =>
    append_layer network_params nn "ConvLayer" "conv_layer"
      (conv_args conv_filter_size) d))
  else if kind_is "temporal" then
    res_bind (list_get (self_time_expand d) nn) (fun num_lags =>
    res_bind
      (append_layer network_params nn "TLayer" "temporal_layer"
         ([("num_lags", Given (VInt num_lags))] ++ in_filters
            ++ [("dilation", PerLayer "dilation")] ++ hyper_init) d)
      (fun d' => inr (cancel_time_expand nn d')))
  else if kind_is "sp_temporal" then
    res_bind (list_get (self_time_expand d) nn) (fun num_lags =>
    res_bind
      (append_layer network_params nn "TLayerSpecific" "sp_temporal_layer"
         ([("num_lags", Given (VInt num_lags))] ++ in_filters
            ++ [("dilation", PerLayer "dilation")] ++ hyper_init) d)
      (fun d' => inr (cancel_time_expand nn d')))
  else if kind_is "conv_readout" then
    append_layer network_params nn "ConvReadoutLayer" "conv_readout_layer"
      (in_filters ++ [("xy_out", PerLayer "xy_out")] ++ hyper_init) d
  else if kind_is "conv_xy" then
    res_bind widths (fun width =>
    res_bind (conv_filter_size_xy size_in width) (fun conv_filter_size =>
    append_layer network_params nn "ConvXYLayer" "conv_layer"
      (in_filters ++ [("filter_dims", Given conv_filter_size);
                      ("xy_out", PerLayer "xy_out");
                      ("shift_spacing", PerLayer "shift_spacing")]
         ++ hyper_init) d))
  else if kind_is "convsep" then
    res_bind widths (fun width =>
    res_bind (conv_filter_size_plain size_in width) (fun conv_filter_size =>
    append_layer network_params nn "ConvSepLayer" "sepconv_layer"
      (conv_args conv_filter_size) d))
  else if kind_is "hadi_readout" then
    append_layer network_params nn "HadiReadoutLayer" "hadi_readout_layer"
      (in_filters ++ [("xy_out", PerLayer "xy_out")] ++ hyper_init) d
  else if kind_is "biconv" then
    res_bind widths (fun width =>
    res_bind (conv_filter_size_lagged size_in width) (fun conv_filter_size =>
    append_layer network_params nn "BiConvLayer" "biconv_layer"
      (conv_args conv_filter_size) d))
  else if kind_is "convLNL" then
    res_bind widths (fun width =>
    res_bind (conv_filter_size_plain size_in width) (fun conv_filter_size =>
    append_layer network_params nn "ConvLayerLNL" "conv_layer"
      (conv_args conv_filter_size) d))
  else if kind_is "grid_shift" then
    append_layer network_params nn "GridShifterLayer" "grid_shift_layer"
      [("input_dims", Given size_in); ("n_neurons", Given size_out);
       ("biases_initializer", PerLayer "biases_initializers");
       ("reg_initializer", PerLayer "reg_initializers")] d
  else if kind_is "grid_sample" then
    append_layer network_params nn "GridSampleLayer" "grid_sample_layer"
      [("input_dims", Given size_in); ("n_neurons", Given size_out)] d
  else inl (TypeError "Layer type %i not defined.")))).

(** [l[i] = x]; Python raises when [i] is out of range. *)
Definition list_set {A} (l : list A) (i : nat) (x : A) : Res (list A) :=
  if i <? length l then inr (<[i := x]> l) else inl IndexError.

(** One iteration of the loop of [_define_network]. *)
Definition define_layer (network_params : gmap string PyVal)
    (self_layer_types : PyVal) (nn : nat) (d : Defining) : Res Defining :=
  (* if nn > 0: layer_sizes[nn] = deepcopy(self.layers[nn-1].output_dims) *)
  res_bind
    (if 0 <? nn then
       res_bind (list_get (self_layers d) (nn - 1)) (fun previous =>
       res_bind (list_set (layer_sizes d) nn (output_dims previous))
         (fun sizes =>
       inr (mkDefining sizes (self_input_dims d) (self_layers d)
              (self_time_expand d))))
     else inr d) (fun d =>
  (* if self.time_expand[nn] > 0: ... layer_sizes[nn] += [lags] *)
  res_bind (list_get (self_time_expand d) nn) (fun lags =>
  res_bind
    (if (0 <? lags)%Z then
       res_bind (list_get (layer_sizes d) nn) (fun size =>
       let content :=
         match size with
         | VList l => l
         | v => [v; VInt 1; VInt 1]
         end in
       let extended := content ++ [VInt lags] in
       res_bind (list_set (layer_sizes d) nn (VList extended)) (fun sizes =>
       inr (mkDefining sizes
              (* layer_sizes[0] is self.input_dims, extended in place *)
              (if nn =? 0 then extended else self_input_dims d)
              (self_layers d) (self_time_expand d))))
     else inr d) (fun d =>
  dispatch_layer network_params self_layer_types nn d))).

(** [for nn in indices: s = body nn s], ended by the first exception. *)
Fixpoint for_range {S} (body : nat -> S -> Res S) (indices : list nat) (s : S)
  : Res S :=
  match indices with
  | [] => inr s
  | nn :: rest => res_bind (body nn s) (for_range body rest)
  end.

(** [FFNetwork._define_network]: the state after the loop, and
    [self.time_spread], which is summed before the loop. *)
Definition FFNetwork_define_network (network_params : gmap string PyVal)
    (self_input_dims : list PyVal) (self_num_layers : nat)
    (self_layer_types : PyVal) : Res (Defining * Z) :=
  res_bind (dict_get network_params "layer_sizes") (fun sizes =>
  res_bind (match sizes with
            | VList l => inr l
            | _ => inl (TypeError "can only concatenate list to list")
            end) (fun sizes =>
  let layer_sizes := VList self_input_dims :: sizes in
  res_bind (dict_get network_params "time_expand") (fun lags =>
  res_bind (match lags with
            | VList l => inr l
            | _ => inl (AttributeError "copy")
            end) (fun lags =>
  let lags :=
    if length lags <? self_num_layers
    then lags ++ replicate (self_num_layers - length lags) (VInt 0)
    else lags in
  res_bind (py_ints lags) (fun self_time_expand =>
  let self_time_spread := list_sum self_time_expand in
  res_bind
    (for_range (define_layer network_params self_layer_types)
       (seq 0 self_num_layers)
       (mkDefining layer_sizes self_input_dims [] self_time_expand))
    (fun d => inr (d, self_time_spread))))))).

(** Which object the local variable [input_dims] of [__init__] refers to
    after lines 114 to 117: the argument, or the entry of the dictionary. *)
Inductive DimsRef : Type := ArgObject | DictEntry.

Definition resolve_input_dims : Init DimsRef :=
  fun c =>
    if is_None (arg_input_dims c) then
      match dict_get (arg_params c) "input_dims" with
      | inl e => (inl e, c)
      | inr v =>
          if is_None v
          then (inl (TypeError "Must specify input dimensions."), c)
          else (inr DictEntry, c)
      end
    else (inr ArgObject, c).

(** Lines 119 to 123: a value that is not a list is wrapped in a new list; a
    list is padded in place, whoever owns it.  The result is the content of
    [input_dims] afterwards. *)
Definition format_input_dims (r : DimsRef) : Init (list PyVal) :=
  fun c =>
    let v := match r with
             | ArgObject => arg_input_dims c
             | DictEntry => default VNone (arg_params c !! "input_dims")
             end in
    match v with
    | VList l =>
        let l' := pad_in_place l in
        (inr l',
         match r with
         | ArgObject => mkCaller (VList l') (arg_params c)
         | DictEntry =>
             mkCaller (arg_input_dims c)
               (<["input_dims" := VList l']> (arg_params c))
         end)
    | _ => (inr [VInt 1; v; VInt 1], c)
    end.

(** [FFNetwork.__init__] from line 126 on; [dims] is the content of the
    copy [input_dims[:]] that line 124 stores in [self.input_dims]. *)
Definition FFNetwork_init_rest (scope : string) (dims : list PyVal)
  : Init FFNetwork :=
  present ← has_key "layer_sizes";
  (if present : bool then mret tt
   else raise (TypeError "Must specify layer_sizes."));;
  sizes ← read_key "layer_sizes";
  self_num_layers ← lift (py_len sizes);
  self_layer_types ← read_key "layer_types";
  let self_input_masks := replicate self_num_layers VNone in
  broadcast_option "activation_funcs" (VStr "relu")
    "Invalid number of activation_funcs" self_num_layers;;
  broadcast_option "weights_initializers" (VStr "trunc_normal")
    "Invalid number of weights_initializer" self_num_layers;;
  broadcast_option "biases_initializers" (VStr "zeros")
    "Invalid number of biases_initializer" self_num_layers;;
  default_option "reg_initializers"
    (VList (replicate self_num_layers VNone));;
  broadcast_option "num_inh" (VInt 0)
    "Invalid number of num_inh" self_num_layers;;
  broadcast_option "pos_constraints" (VBool false)
    "Invalid number of pos_con" self_num_layers;;
  default_option "time_expand"
    (VList (replicate self_num_layers (VInt 0)));;
  default_option "log_activations" (VBool false);;
  network_params ← (fun c => (inr (arg_params c), c));
  '(d, self_time_spread) ←
    lift (FFNetwork_define_network network_params dims
            self_num_layers self_layer_types);
  log_activations ← read_key "log_activations";
  mret (mkFFNetwork scope (self_input_dims d) self_num_layers
          self_layer_types self_input_masks (self_layers d)
          (self_time_expand d) self_time_spread
          (py_truthy log_activations)).

(** [FFNetwork.__init__] from line 114 on, once [scope] and [params_dict]
    are known to be given. *)
Definition FFNetwork_init_body (scope : string) : Init FFNetwork :=
  r ← resolve_input_dims;
  dims ← format_input_dims r;
  FFNetwork_init_rest scope dims.

(** [FFNetwork.__init__(scope, input_dims, params_dict)]: the new network or
    the exception raised, and the contents of the caller's [input_dims] and
    [params_dict] objects when the call ends. *)
Definition FFNetwork_init (scope : option string) (input_dims : PyVal)
    (params_dict : option (gmap string PyVal))
  : Res FFNetwork * (PyVal * option (gmap string PyVal)) :=
  match scope with
  | None =>
      (inl (TypeError "Must specify network scope"),
       (input_dims, params_dict))
  | Some scope =>
      match params_dict with
      | None =>
          (inl (TypeError "Must specify parameters dictionary."),
           (input_dims, params_dict))
      | Some p =>
          let '(r, c) := FFNetwork_init_body scope (mkCaller input_dims p) in
          (r, (arg_input_dims c, Some (arg_params c)))
      end
  end.

(** The entry that the first layer's lag count adds to [self.input_dims]. *)
Definition lag_suffix (lags : list Z) : list PyVal :=
  match lags with
  | first :: _ => if (0 <? first)%Z then [VInt first] else []
  | [] => []
  end.

(** The invariant of the loop of [_define_network], before iteration [k]:
    [declared] is [self.time_expand] as it enters the loop and [dims] is
    [self.input_dims] as [__init__] stored it. *)
Definition defining_inv (types : PyVal) (declared : list Z)
    (dims : list PyVal) (k : nat) (d : Defining) : Prop :=
  length (self_layers d) = k /\
  length (self_time_expand d) = length declared /\
  (forall i kind, i < k -> py_getitem types i = inr kind ->
      self_time_expand d !! i
      = if is_temporal kind then Some 0%Z else declared !! i) /\
  (forall i, k <= i -> self_time_expand d !! i = declared !! i) /\
  (k = 0 -> layer_sizes d !! 0 = Some (VList dims) /\
            self_input_dims d = dims) /\
  (0 < k -> self_input_dims d = dims ++ lag_suffix declared).

End Construction.

Arguments FFNetwork Layer : clear implicits.
Arguments Defining Layer : clear implicits.

(** ** A reference layer library *)

(** [kwargs[name]] of a constructor call. *)
Fixpoint kwarg (name : string) (kw : list (string * PyVal)) : option PyVal :=
  match kw with
  | [] => None
  | (n, v) :: rest => if String.eqb n name then Some v else kwarg name rest
  end.

Definition conv_classes : list string :=
  ["ConvLayer"; "ConvSepLayer"; "BiConvLayer"; "ConvLayerLNL"; "ConvXYLayer"].

(** Modelled from the spec: the layer classes of [layer.py] and [tlayer.py],
    which are not among the sources.  A layer is represented by the call that
    constructed it, and construction never fails.  For their [output_dims] the
    spec says that a non-convolutional kind has "the declared size, normalized
    to the same rank as input", and that a convolutional kind keeps the
    spatial extent of its input; a layer constructed without a declared size
    keeps its input dimensions.  The examples below run the constructor
    against this library; the theorems hold for every library. *)
Definition reference_output_dims (c : LayerCall) : PyVal :=
  let declared :=
    match kwarg "output_dims" (call_kwargs c) with
    | Some v => Some v
    | None =>
        match kwarg "num_filters" (call_kwargs c) with
        | Some v => Some v
        | None => kwarg "n_neurons" (call_kwargs c)
        end
    end in
  let input := default VNone (kwarg "input_dims" (call_kwargs c)) in
  match declared with
  | None => input
  | Some (VList l) => VList l
  | Some n =>
      if bool_decide (call_class c ∈ conv_classes) then
        match input with
        | VList (_ :: nx :: ny :: _) => VList [n; nx; ny]
        | _ => VList [n; VInt 1; VInt 1]
        end
      else VList [n; VInt 1; VInt 1]
  end.

#[global] Instance reference_layers : LayerFactory LayerCall := {|
  new_layer c := inr c;
  output_dims := reference_output_dims
|}.

(** Lists of [VInt] and of [VStr]. *)
Definition ints (l : list Z) : PyVal := VList (map VInt l).
Definition strs (l : list string) : PyVal := VList (map VStr l).

(** ** Building the graph *)

Section Graph.

Context {R : Type} (zero one : R) (add mul : R -> R -> R).
Context {Layer : Type}.

(** What a [build_graph] method receives as [inputs]: a tensor, or a Python
    list whose elements are tensors or [None]. *)
Inductive Inputs : Type :=
  | OneTensor (t : Tensor R)
  | TensorList (l : list (option (Tensor R))).

(** The arguments of a call [layer.build_graph(inputs, params_dict,
    batch_size=..., use_dropout=...)]. *)
Record BuildCall : Type := mkBuild {
  build_inputs : Inputs;
  build_params_dict : PyVal;
  build_batch_size : option nat;
  build_use_dropout : bool
}.

(** What [layer.define_regularization_loss()] returns: a scalar node of the
    graph, or the zero that stands for "no penalty". *)
Inductive RegLoss : Type :=
  | RegNode (v : R)
  | RegZero.

(** What graph building uses of a layer and of the tensor runtime:
    [build_graph], whose result is stored as [layer.outputs]; the layer's
    regularization penalty; the test [isinstance(layer, GridSampleLayer)];
    and the conversion of a Python list to a tensor that the runtime applies
    to the operands of its operations. *)
Class LayerGraph : Type := {
  layer_build_graph : Layer -> BuildCall -> Res (Tensor R);
  layer_define_regularization_loss : Layer -> RegLoss;
  is_GridSampleLayer : Layer -> bool;
  tf_convert_to_tensor : list (option (Tensor R)) -> Res (Tensor R)
}.

Context `{LayerGraph}.

(** [self.time_embed(inputs=inputs, batch_sz=batch_size, num_lags=lags)] as
    [build_graph] calls it: [np.zeros] refuses a missing batch size. *)
Definition embed_inputs (inputs : Inputs) (batch_size : option nat)
    (lags : Z) : Res (Tensor R) :=
  match batch_size with
  | None =>
      inl (TypeError "'NoneType' object cannot be interpreted as an integer")
  | Some batch_sz =>
      res_bind (match inputs with
                | OneTensor t => inr t
                | TensorList l => tf_convert_to_tensor l
                end) (fun t =>
      time_embed zero one add mul t batch_sz (Z.to_nat lags))
  end.

(** The call that the loop body makes for one layer, given the running
    [inputs]. *)
Definition layer_call (lags : Z) (inputs : Inputs) (params_dict : PyVal)
    (batch_size : option nat) (use_dropout : bool) : Res BuildCall :=
  if (0 <? lags)%Z then
    res_bind (embed_inputs inputs batch_size lags) (fun embedded =>
    inr (mkBuild (OneTensor embedded) params_dict None use_dropout))
  else inr (mkBuild inputs params_dict batch_size use_dropout).

(** The state of the loop of [build_graph]: the running [inputs], and for
    each layer built so far the call it received and its [outputs]. *)
Definition Built : Type := Inputs * list (BuildCall * Tensor R).

(** One iteration of the loop of [FFNetwork.build_graph]. *)
Definition build_layer (self : FFNetwork Layer) (params_dict : PyVal)
    (batch_size : option nat) (use_dropout : bool) (layer : nat)
    (s : Built) : Res Built :=
  let '(inputs, built) := s in
  res_bind (list_get (time_expand self) layer) (fun lags =>
  res_bind (list_get (layers self) layer) (fun l =>
  res_bind (layer_call lags inputs params_dict batch_size use_dropout)
    (fun call =>
  res_bind (layer_build_graph l call) (fun outputs =>
  inr (OneTensor outputs, built ++ [(call, outputs)]))))).

(** [FFNetwork.build_graph]: for every layer, the call it received and the
    [outputs] it stored. *)
Definition FFNetwork_build_graph (self : FFNetwork Layer) (inputs : Inputs)
    (params_dict : PyVal) (batch_size : option nat) (use_dropout : bool)
  : Res (list (BuildCall * Tensor R)) :=
  res_bind
    (for_range (build_layer self params_dict batch_size use_dropout)
       (seq 0 (num_layers self)) (inputs, []))
    (fun s => inr (snd s)).

(** The running input of layer [i]: the network's input for the first
    layer, the [outputs] of the layer before for the others. *)
Definition running_input (inputs : Inputs)
    (built : list (BuildCall * Tensor R)) (i : nat) : option Inputs :=
  match i with
  | 0 => Some inputs
  | S j => (fun b => OneTensor (snd b)) <$> built !! j
  end.

(** The invariant of the loop of [build_graph], before iteration [k]: every
    layer built so far received the call that [layer_call] makes from its
    lag count and from the running input, and [cur] is the running input of
    the next layer. *)
Definition building_inv (self : FFNetwork Layer) (inputs : Inputs)
    (params_dict : PyVal) (batch_size : option nat) (use_dropout : bool)
    (k : nat) (s : Built) : Prop :=
  length (snd s) = k /\
  running_input inputs (snd s) k = Some (fst s) /\
  forall i call outputs,
    snd s !! i = Some (call, outputs) ->
    exists lags l x,
      time_expand self !! i = Some lags /\
      layers self !! i = Some l /\
      running_input inputs (snd s) i = Some x /\
      layer_call lags x params_dict batch_size use_dropout
      = inr call /\
      layer_build_graph l call = inr outputs.

(** [tf.add_n(reg_ops)]: the list must not be empty, the zero of a layer
    without penalty is converted to the zero constant, and the values are
    added in the order of the list. *)
Definition reg_value (r : RegLoss) : R :=
  match r with RegNode v => v | RegZero => zero end.


Definition tf_add_n (reg_ops : list RegLoss) : Res R :=
  match reg_ops with
  | [] => inl (ValueError "inputs must be a list of at least one Tensor")
  | r :: rest => inr (fold_left add (map reg_value rest) (reg_value r))
  end.

(** [FFNetwork.define_regularization_loss] *)
Definition FFNetwork_define_regularization_loss (self : FFNetwork Layer)
  : Res R :=
  res_bind
    (for_range
       (fun layer reg_ops =>
          res_bind (list_get (layers self) layer) (fun l =>
          inr (reg_ops ++ [layer_define_regularization_loss l])))
       (seq 0 (num_layers self)) [])
    tf_add_n.

(** ** [SamplerNetwork] *)

(** A sampler network: the network it inherits, the array [self.locations]
    that [__init__] draws unless an upstream location network is named, and
    the attribute [self.locations_var], which [__init__] does not create
    ([None] here means that the object has no such attribute). *)
Record SamplerNetwork : Type := mkSampler {
  sampler_base : FFNetwork Layer;
  locations : option (Tensor R);
  locations_var : option (Tensor R)
}.

(** [self._define_sampler_variables()]: a variable initialised from the
    array, when there is one. *)
Definition define_sampler_variables (self : SamplerNetwork)
  : SamplerNetwork :=
  match locations self with
  | Some array => mkSampler (sampler_base self) (locations self) (Some array)
  | None => self
  end.

(** Reading [self.locations_var]. *)
Definition get_locations_var (self : SamplerNetwork) : Res (Tensor R) :=
  match locations_var self with
  | Some v => inr v
  | None => inl (AttributeError "locations_var")
  end.

(** The "resolve inputs" part of [SamplerNetwork.build_graph]: the image,
    the locations, and the object after the assignment that the
    two-element branch may make. *)
Definition resolve_inputs (self : SamplerNetwork) (inputs : Inputs)
  : Res (option (Tensor R) * Tensor R * SamplerNetwork) :=
  let array := locations self in
  match inputs with
  | OneTensor image =>
      res_bind (get_locations_var self) (fun locations =>
      inr (Some image, locations, self))
  | TensorList [image; locations] =>
      match locations with
      | None =>
          res_bind (get_locations_var self) (fun locations =>
          inr (image, locations, self))
      | Some locations =>
          inr (image, locations,
               mkSampler (sampler_base self) array
                 (Some locations))
      end
  | TensorList [image] =>
      res_bind (get_locations_var self) (fun locations =>
      inr (image, locations, self))
  | TensorList _ =>
      inl (TypeError "Incorrect input shape in SamplerNetwork.")
  end.

(** One iteration of the loop of [SamplerNetwork.build_graph]: a grid
    sampling layer receives the pair of the image and the locations. *)
Definition sampler_build_layer (self : SamplerNetwork)
    (image : option (Tensor R)) (locations : Tensor R) (params_dict : PyVal)
    (batch_size : option nat) (use_dropout : bool) (layer : nat)
    (s : Built) : Res Built :=
  let '(inputs, built) := s in
  res_bind (list_get (layers (sampler_base self)) layer) (fun l =>
  let inputs :=
    if is_GridSampleLayer l then TensorList [image; Some locations]
    else inputs in
  build_layer (sampler_base self) params_dict batch_size use_dropout layer
    (inputs, built)).

(** [SamplerNetwork.build_graph]: the calls and outputs of the layers, or the
    exception raised, and the object as the call leaves it. *)
Definition SamplerNetwork_build_graph (self : SamplerNetwork)
    (inputs : Inputs) (params_dict : PyVal) (batch_size : option nat)
    (use_dropout : bool)
  : Res (list (BuildCall * Tensor R)) * SamplerNetwork :=
  let self := define_sampler_variables self in
  match resolve_inputs self inputs with
  | inl e => (inl e, self)
  | inr (image, locations, self) =>
      (res_bind
         (for_range
            (sampler_build_layer self image locations params_dict batch_size
               use_dropout)
            (seq 0 (num_layers (sampler_base self))) (inputs, []))
         (fun s => inr (snd s)),
       self)
  end.

End Graph.

Arguments Inputs R : clear implicits.
Arguments BuildCall R : clear implicits.
Arguments RegLoss R : clear implicits.
Arguments LayerGraph R Layer : clear implicits.
Arguments SamplerNetwork R Layer : clear implicits.
Arguments Built R : clear implicits.

(** ** [SideNetwork] *)

Section Side.

Context {Layer : Type} `{LayerFactory Layer}.

Definition _conv_types : list string :=
  ["conv"; "convsep"; "gabor"; "biconv"; "convLNL"].

(** [kind in _conv_types] *)
Definition in_conv_types (kind : PyVal) : bool :=
  existsb (py_eq_str kind) _conv_types.

(** The variables of the first loop of [SideNetwork.__init__]. *)
Record Scan : Type := mkScan {
  all_convolutional : bool;
  isbinocular : bool;
  nonconv_inputs : list Z
}.

(** One iteration of that loop. *)
Definition scan_layer (layer_types : PyVal) (input_layer_sizes : list Z)
    (input_dims : PyVal) (nn : nat) (s : Scan) : Res Scan :=
  res_bind (py_getitem layer_types nn) (fun kind =>
  if in_conv_types kind then
    res_bind (list_get input_layer_sizes nn) (fun size =>
    res_bind (res_bind (py_getitem input_dims 1) py_int) (fun nx =>
    res_bind (res_bind (py_getitem input_dims 2) py_int) (fun ny =>
    res_bind (list_set (nonconv_inputs s) nn (size * nx * ny)%Z)
      (fun units =>
    if py_eq_str kind "biconv" then
      (* then twice as many outputs as filters *)
      res_bind (list_set units nn (size * nx * ny * 2)%Z) (fun units =>
      inr (mkScan (all_convolutional s) true units))
    else inr (mkScan (all_convolutional s) (isbinocular s) units)))))
  else
    res_bind (list_get input_layer_sizes nn) (fun size =>
    res_bind (list_set (nonconv_inputs s) nn size) (fun units =>
    inr (mkScan false (isbinocular s) units)))).

(** [int(x / 2)]: true division followed by truncation towards zero. *)
Definition int_half (x : Z) : Z := Z.quot x 2.

(** The doubling of the leading entries of [input_layer_sizes] in binocular
    mode. *)
Definition double_sizes (layer_types : PyVal) (input_layer_sizes : list Z)
  : Res (list Z) :=
  res_bind (py_getitem layer_types 0) (fun kind0 =>
  if py_eq_str kind0 "biconv" then
    res_bind (list_get input_layer_sizes 0) (fun s0 =>
    list_set input_layer_sizes 0 (s0 * 2)%Z)
  else
    res_bind (py_getitem layer_types 1) (fun kind1 =>
    if py_eq_str kind1 "biconv" then
      res_bind (list_get input_layer_sizes 0) (fun s0 =>
      res_bind (list_set input_layer_sizes 0 (s0 * 2)%Z) (fun sizes =>
      res_bind (list_get sizes 1) (fun s1 =>
      list_set sizes 1 (s1 * 2)%Z)))
    else inr input_layer_sizes)).

(** What [SideNetwork.__init__] derives from the upstream network before it
    calls the constructor of [FFNetwork]: the [input_dims] it passes on,
    [nx_ny], and the list that becomes [self.num_units].  The entries of the
    upstream [layer_sizes] are integers; both copies that the constructor
    takes ([layer_sizes[:]] and [input_dims[1:]]) are new lists, so the
    upstream dictionary is only read. *)
Record Derived : Type := mkDerived {
  derived_input_dims : list PyVal;
  nx_ny : list PyVal;
  units : list Z
}.

Definition derive_input_dims (input_network_params : gmap string PyVal)
  : Res Derived :=
  res_bind (dict_get input_network_params "layer_sizes") (fun sizes =>
  res_bind (match sizes with
            | VList l => py_ints l
            | _ => inl (TypeError "object is not subscriptable")
            end) (fun input_layer_sizes =>
  let zeros := replicate (length input_layer_sizes) 0%Z in
  res_bind (dict_get input_network_params "layer_types") (fun layer_types =>
  res_bind (py_getitem layer_types 0) (fun kind0 =>
  res_bind
    (if in_conv_types kind0 then
       res_bind (dict_get input_network_params "input_dims") (fun dims =>
       for_range (scan_layer layer_types input_layer_sizes dims)
         (seq 0 (length input_layer_sizes)) (mkScan true false zeros))
     else inr (mkScan false false input_layer_sizes)) (fun s =>
  if all_convolutional s then
    res_bind (dict_get input_network_params "input_dims") (fun dims =>
    res_bind (match dims with
              | VList l => inr (drop 1 l)
              | _ => inl (TypeError "object is not subscriptable")
              end) (fun nx_ny =>
    res_bind
      (if isbinocular s then
         res_bind (res_bind (list_get nx_ny 0) py_int) (fun nx =>
         res_bind (list_set nx_ny 0 (VInt (int_half nx))) (fun nx_ny =>
         res_bind (double_sizes layer_types input_layer_sizes)
           (fun sizes => inr (nx_ny, sizes))))
       else inr (nx_ny, input_layer_sizes)) (fun '(nx_ny, sizes) =>
    res_bind (list_get nx_ny 0) (fun nx =>
    res_bind (list_get nx_ny 1) (fun ny =>
    inr (mkDerived [VInt (list_sum sizes); nx; ny] nx_ny sizes))))))
  else
    inr (mkDerived [VInt (list_sum (nonconv_inputs s)); VInt 1; VInt 1]
           [VInt 1; VInt 1] (nonconv_inputs s))))))).

Record SideNetwork : Type := mkSide {
  side_base : FFNetwork Layer;
  num_space : Z;
  num_units : list Z
}.

(** [SideNetwork.__init__]: the new network or the exception raised, and
    the content of the caller's [params_dict] when the call ends.  The call
    [self.layers[0].reg.scaffold_setup(self.num_units)] that ends the
    constructor acts on the first layer only; what remains of it here is
    that the first layer must exist. *)
Definition SideNetwork_init (scope : option string)
    (input_network_params : gmap string PyVal)
    (params_dict : option (gmap string PyVal))
  : Res SideNetwork * option (gmap string PyVal) :=
  match derive_input_dims input_network_params with
  | inl e => (inl e, params_dict)
  | inr d =>
      let '(r, (_, params_dict)) :=
        FFNetwork_init scope (VList (derived_input_dims d)) params_dict in
      (res_bind r (fun base =>
       res_bind (res_bind (list_get (nx_ny d) 0) py_int) (fun nx =>
       res_bind (res_bind (list_get (nx_ny d) 1) py_int) (fun ny =>
       res_bind (list_get (layers base) 0) (fun _ =>
       inr (mkSide base (nx * ny)%Z (units d)))))),
       params_dict)
  end.

End Side.

Arguments SideNetwork Layer : clear implicits.

(** Modelled from the spec: the graph-building side of the layer classes of
    [layer.py], which are not among the sources, over integer entries.  The
    spec describes a layer's [build] only as producing an output from its
    input; here a layer hands its input tensor on, a grid sampling layer
    hands on the image of its [[image, locations]] pair, no layer has a
    regularization penalty, and the runtime converts no Python list.  The
    examples below build graphs with this library; the theorems hold for
    every library. *)
Definition reference_build (c : LayerCall) (call : BuildCall Z)
  : Res (Tensor Z) :=
  match build_inputs call with
  | OneTensor t => inr t
  | TensorList [Some image; Some _] =>
      if String.eqb (call_class c) "GridSampleLayer" then inr image
      else inl (TypeError "Expected a tensor")
  | TensorList _ => inl (TypeError "Expected a tensor")
  end.

#[global] Instance reference_graph : LayerGraph Z LayerCall := {|
  layer_build_graph := reference_build;
  layer_define_regularization_loss _ := RegZero;
  is_GridSampleLayer c := String.eqb (call_class c) "GridSampleLayer";
  tf_convert_to_tensor _ := inl (TypeError "Expected a tensor")
|}.

(** ** The vocabulary of the statements *)

(** The keys of the caller's dictionary that [__init__] normalises. *)
Definition option_keys : list string :=
  ["activation_funcs"; "weights_initializers"; "biases_initializers";
   "reg_initializers"; "num_inh"; "pos_constraints"; "time_expand";
   "log_activations"].

(** A computation that leaves the caller's [input_dims] object alone and
    writes to the dictionary only under the keys in [keys]. *)
Definition writes_only (keys : list string) {A} (m : Init A) : Prop :=
  forall c,
    arg_input_dims (snd (m c)) = arg_input_dims c /\
    forall k, k ∉ keys -> arg_params (snd (m c)) !! k = arg_params c !! k.

(** The content of [input_dims] after lines 119 to 123, and what has become
    of the object it was given as. *)
Definition formatted (v : PyVal) : list PyVal :=
  match v with
  | VList l => pad_in_place l
  | _ => [VInt 1; v; VInt 1]
  end.

Definition padded_object (v : PyVal) : PyVal :=
  match v with
  | VList l => VList (pad_in_place l)
  | _ => v
  end.

(** The keys whose lists [__init__] checks against the number of layers. *)
Definition checked_keys : list string :=
  ["activation_funcs"; "weights_initializers"; "biases_initializers";
   "num_inh"; "pos_constraints"].




(** ** Example inputs *)

(** A batch of three samples with two features. *)
Definition example_batch : Tensor Z :=
  mkTensor [3; 2] [1; 2; 3; 4; 5; 6]%Z.

(** A network of two dense layers without time expansion. *)
Definition example_dense_params : gmap string PyVal :=
  <["layer_sizes" := ints [5; 3]%Z]>
  (<["layer_types" := strs ["normal"; "normal"]]>
  (<["normalize_weights" := ints [0; 0]%Z]> ∅)).

(** A dense layer followed by a temporal layer with four lags. *)
Definition example_temporal_params : gmap string PyVal :=
  <["layer_sizes" := ints [5; 3]%Z]>
  (<["layer_types" := strs ["normal"; "temporal"]]>
  (<["normalize_weights" := ints [0; 0]%Z]>
  (<["dilation" := ints [1; 1]%Z]>
  (<["time_expand" := ints [0; 4]%Z]> ∅)))).


(** One layer, but two entries of [time_expand]. *)
Definition example_long_time_expand : gmap string PyVal :=
  <["layer_sizes" := ints [5]%Z]>
  (<["layer_types" := strs ["normal"]]>
  (<["normalize_weights" := ints [0]%Z]>
  (<["time_expand" := ints [0; 0]%Z]> ∅))).

(** The network of [example_dense_params] as the constructor leaves it. *)
Definition example_dense_network : FFNetwork LayerCall :=
  Eval vm_compute in
    match fst (FFNetwork_init (Some "net") (VInt 2)
                 (Some example_dense_params)) with
    | inr net => net
    | inl _ => mkFFNetwork "" [] 0 VNone [] [] [] 0 false
    end.

(** The network of [example_temporal_params] as the constructor leaves it. *)
Definition example_temporal_network : FFNetwork LayerCall :=
  Eval vm_compute in
    match fst (FFNetwork_init (Some "net") (VInt 2)
                 (Some example_temporal_params)) with
    | inr net => net
    | inl _ => mkFFNetwork "" [] 0 VNone [] [] [] 0 false
    end.

(** One dense layer, with every optional field left out. *)
Definition example_single_params : gmap string PyVal :=
  <["layer_sizes" := ints [3]%Z]>
  (<["layer_types" := strs ["normal"]]>
  (<["normalize_weights" := ints [0]%Z]> ∅)).

(** The network that [example_single_params] and the input dimensions [[5]]
    give. *)
Definition example_single_network : FFNetwork LayerCall :=
  Eval vm_compute in
    match fst (FFNetwork_init (Some "net") (ints [5]%Z)
                 (Some example_single_params)) with
    | inr net => net
    | inl _ => mkFFNetwork "" [] 0 VNone [] [] [] 0 false
    end.

(** A sampler network with one grid sampling layer and four locations. *)
Definition example_sampler_params : gmap string PyVal :=
  <["input_dims" := ints [1; 2; 1]%Z]>
  (<["layer_sizes" := ints [4]%Z]>
  (<["layer_types" := strs ["grid_sample"]]> ∅)).

Definition example_locations : Tensor Z :=
  mkTensor [1; 8] [0; 0; 0; 0; 0; 0; 0; 0]%Z.

Definition example_sampler_base : FFNetwork LayerCall :=
  Eval vm_compute in
    match fst (FFNetwork_init (Some "sampler") VNone
                 (Some example_sampler_params)) with
    | inr net => net
    | inl _ => mkFFNetwork "" [] 0 VNone [] [] [] 0 false
    end.

Definition example_sampler : SamplerNetwork Z LayerCall :=
  mkSampler example_sampler_base (Some example_locations) None.

(** The keyword argument [name] with which the first layer of the constructed
    network was made. *)
Definition first_layer_kwarg (r : Res (FFNetwork LayerCall)) (name : string)
  : option PyVal :=
  match r with
  | inr net => layers net !! 0 ≫= (fun l => kwarg name (call_kwargs l))
  | inl _ => None
  end.

(** Two upstream layers over a 4 x 2 input: a convolutional layer with eight
    filters and a biconvolutional layer with four. *)
Definition example_upstream_params : gmap string PyVal :=
  <["layer_sizes" := ints [8; 4]%Z]>
  (<["layer_types" := strs ["conv"; "biconv"]]>
  (<["input_dims" := ints [1; 4; 2]%Z]> ∅)).

(** ** The variables to fit *)

Section FitVariables.

Context {R : Type} {Layer Var : Type}.

(** What [build_fit_variable_list] uses of a layer: its attributes
    [weights_var] and [biases_var]; reading an attribute may raise. *)
Class LayerVariables : Type := {
  weights_var : Layer -> Res Var;
  biases_var : Layer -> Res Var
}.

Context `{LayerVariables}.

(** An element of the list that [SamplerNetwork.build_fit_variable_list]
    returns: a variable of a layer, or the network's [locations_var]. *)
Inductive FitVar : Type :=
  | LayerVar (v : Var)
  | LocationsVar (t : Tensor R).

(** [fit_parameter_list[layer][key]], read as a condition. *)
Definition fit_flag (fit_parameter_list : list (gmap string PyVal))
    (layer : nat) (key : string) : Res bool :=
  res_bind (list_get fit_parameter_list layer) (fun entry =>
  res_bind (dict_get entry key) (fun v => inr (py_truthy v))).

(** [var_list.append(self.layers[layer].<attribute>)] *)
Definition append_var (self : FFNetwork Layer) (layer : nat)
    (attribute : Layer -> Res Var) (var_list : list Var) : Res (list Var) :=
  res_bind (list_get (layers self) layer) (fun l =>
  res_bind (attribute l) (fun v => inr (var_list ++ [v]))).

(** One iteration of the loop of [FFNetwork.build_fit_variable_list]. *)
Definition fit_layer (self : FFNetwork Layer)
    (fit_parameter_list : list (gmap string PyVal)) (layer : nat)
    (var_list : list Var) : Res (list Var) :=
  res_bind (fit_flag fit_parameter_list layer "weights") (fun fit_weights =>
  res_bind (if fit_weights : bool
            then append_var self layer weights_var var_list
            else inr var_list) (fun var_list =>
  res_bind (fit_flag fit_parameter_list layer "biases") (fun fit_biases =>
  if fit_biases : bool
  then append_var self layer biases_var var_list
  else inr var_list))).

(** [FFNetwork.build_fit_variable_list] *)
Definition FFNetwork_build_fit_variable_list (self : FFNetwork Layer)
    (fit_parameter_list : list (gmap string PyVal)) : Res (list Var) :=
  for_range (fit_layer self fit_parameter_list) (seq 0 (num_layers self)) [].

(** [SamplerNetwork.build_fit_variable_list]: the list it returns and the
    lines it prints. *)
Definition SamplerNetwork_build_fit_variable_list
    (self : SamplerNetwork R Layer)
    (fit_parameter_list : list (gmap string PyVal))
  : Res (list FitVar * list string) :=
  res_bind
    (FFNetwork_build_fit_variable_list (sampler_base self) fit_parameter_list)
    (fun var_list =>
  let var_list := map LayerVar var_list in
  res_bind (fit_flag fit_parameter_list 0 "locations") (fun fit_locations =>
  if fit_locations : bool then
    res_bind (get_locations_var self) (fun locations_var =>
    inr (var_list ++ [LocationsVar locations_var],
         ["adding locations to var_list"]))
  else inr (var_list, []))).

End FitVariables.

Arguments LayerVariables Layer Var : clear implicits.
Arguments FitVar R Var : clear implicits.

(** ** Copying parameters between networks *)

Section Copying.

Context {Layer : Type}.

(** [layer.copy_layer_params(origin_layer)] updates the layer in place: the
    exception it may raise, and the layer as the call leaves it. *)
Class LayerParams : Type := {
  copy_layer_params : Layer -> Layer -> Res unit * Layer
}.

Context `{LayerParams}.

(** [for nn in indices: body nn] on an object that the body updates in
    place: what was written before an exception stays written. *)
Fixpoint for_range_in_place {St} (body : nat -> St -> Res unit * St)
    (indices : list nat) (s : St) : Res unit * St :=
  match indices with
  | [] => (inr tt, s)
  | nn :: rest =>
      match body nn s with
      | (inl e, s') => (inl e, s')
      | (inr _, s') => for_range_in_place body rest s'
      end
  end.

Definition with_input_masks (self : FFNetwork Layer) (masks : list PyVal)
  : FFNetwork Layer :=
  mkFFNetwork (scope self) (input_dims self) (num_layers self)
    (layer_types self) masks (layers self) (time_expand self)
    (time_spread self) (log self).

Definition with_layers (self : FFNetwork Layer) (ls : list Layer)
  : FFNetwork Layer :=
  mkFFNetwork (scope self) (input_dims self) (num_layers self)
    (layer_types self) (input_masks self) ls (time_expand self)
    (time_spread self) (log self).

(** [self.layers[layer].copy_layer_params(origin_network.layers[layer])] *)
Definition copy_layer (origin_network : FFNetwork Layer) (layer : nat)
    (self : FFNetwork Layer) : Res unit * FFNetwork Layer :=
  match layers self !! layer with
  | None => (inl IndexError, self)
  | Some l =>
      match layers origin_network !! layer with
      | None => (inl IndexError, self)
      | Some origin_layer =>
          let '(r, l') := copy_layer_params l origin_layer in
          (r, with_layers self (<[layer := l']> (layers self)))
      end
  end.

(** [FFNetwork.copy_ffnetwork_params]: the exception it may raise, and
    [self] as the call leaves it.  The origin network is only read. *)
Definition FFNetwork_copy_ffnetwork_params (self origin_network
    : FFNetwork Layer) : Res unit * FFNetwork Layer :=
  let self := with_input_masks self (input_masks origin_network) in
  for_range_in_place (copy_layer origin_network) (seq 0 (num_layers self))
    self.

End Copying.

Arguments LayerParams Layer : clear implicits.

(** ** Constructing a [SamplerNetwork] *)

(** [2 * v].  An object that the model does not look into is taken not to
    support the product. *)
Definition py_double (v : PyVal) : Res PyVal :=
  match v with
  | VInt z => inr (VInt (2 * z))
  | VBool b => inr (VInt (2 * Z.b2z b))
  | VStr s => inr (VStr (s ++ s))
  | VList l => inr (VList (l ++ l))
  | VNone | VObj _ => inl (TypeError "unsupported operand type(s)")
  end.

(** An extent of the shape of a new numpy array. *)
Definition np_extent (v : PyVal) : Res nat :=
  match v with
  | VInt z =>
      if (z <? 0)%Z
      then inl (ValueError "negative dimensions are not allowed")
      else inr (Z.to_nat z)
  | VBool b => inr (Nat.b2n b)
  | _ => inl (TypeError "object cannot be interpreted as an integer")
  end.

Section SamplerConstruction.

Context {R : Type} (zero : R) {Layer : Type} `{LayerFactory Layer}.

(** The draw [np.random.normal(size=shape, scale=0.1)]: the array that the
    generator returns for a shape. *)
Variable np_random_normal : list nat -> Tensor R.

(** Lines 833 to 841: the initial locations for [location_dims = (1,
    twice)]. *)
Definition init_locations (location_initializer twice : PyVal)
  : Res (Tensor R) :=
  if py_eq_str location_initializer "trunc_normal" then
    res_bind (np_extent twice) (fun n => inr (np_random_normal [1; n]))
  else if py_eq_str location_initializer "normal" then
    res_bind (np_extent twice) (fun n => inr (np_random_normal [1; n]))
  else if py_eq_str location_initializer "zeros" then
    res_bind (np_extent twice) (fun n => inr (np_zeros zero [1; n]))
  else inl (ValueError "Invalid location_initializer %s").

(** [SamplerNetwork.__init__] after the constructor of [FFNetwork] has
    returned: [self.locations]. *)
Definition sampler_locations (params_dict : gmap string PyVal)
  : Res (option (Tensor R)) :=
  if negb (bool_decide (is_Some (params_dict !! "locationnet_n")))
     || is_None (default VNone (params_dict !! "locationnet_n"))
  then
    if bool_decide (is_Some (params_dict !! "num_locations")) then
      res_bind (dict_get params_dict "num_locations") (fun num_locations =>
      res_bind (py_double num_locations) (fun twice =>
      let location_initializer :=
        default (VStr "normal") (params_dict !! "location_initializer") in
      res_bind (init_locations location_initializer twice) (fun array =>
      inr (Some array))))
    else inl (AssertionError "Must specify num_locations")
  else inr None.

(** [SamplerNetwork.__init__(scope, input_dims, params_dict)]: the new
    network or the exception raised, and the contents of the caller's
    objects when the call ends.  The constructor of [FFNetwork] is called
    with [input_dims=None]; the attribute [locations_var] is not created
    here. *)
Definition SamplerNetwork_init (scope : option string) (input_dims : PyVal)
    (params_dict : option (gmap string PyVal))
  : Res (SamplerNetwork R Layer) * (PyVal * option (gmap string PyVal)) :=
  let '(r, (_, params_dict)) := FFNetwork_init scope VNone params_dict in
  (res_bind r (fun base =>
   match params_dict with
   | Some p =>
       res_bind (sampler_locations p) (fun array =>
       inr (mkSampler base array None))
   | None => inl (TypeError "Must specify parameters dictionary.")
   end),
   (input_dims, params_dict)).

End SamplerConstruction.

(** ** Reshaping, slicing and concatenating tensors *)

Section Reshaping.

Context {R : Type} (zero : R).

(** [tf.reshape(t, dims)]: the entries keep their order; one extent may be
    [-1], and is then inferred from the number of entries. *)
Definition tf_reshape (t : Tensor R) (dims : list Z) : Res (Tensor R) :=
  let n := Z.of_nat (length (data t)) in
  let known := list_prod (List.filter (fun d => negb (d =? -1)%Z) dims) in
  if existsb (fun d => (d <? -1)%Z) dims
  then inl (ValueError "Dimension must be >= -1")
  else
    match length (List.filter (fun d => (d =? -1)%Z) dims) with
    | 0 =>
        if (n =? known)%Z
        then inr (mkTensor (map Z.to_nat dims) (data t))
        else inl (ValueError "Cannot reshape")
    | 1 =>
        if (known =? 0)%Z || negb (n mod known =? 0)%Z
        then inl (ValueError "Cannot reshape")
        else inr (mkTensor
                    (map (fun d => if (d =? -1)%Z then Z.to_nat (n / known)
                                   else Z.to_nat d) dims)
                    (data t))
    | _ => inl (ValueError "Only one input size may be -1")
    end.

(** [tf.slice(t, [0, 0, begin, 0], [-1, -1, size, -1])] for [t] of rank 4:
    the positions [begin .. begin + size - 1] of the third axis, all the
    remaining ones when [size] is [-1]. *)
Definition tf_slice_axis2 (t : Tensor R) (begin size : Z) : Res (Tensor R) :=
  match shape t with
  | [B; C; K; F] =>
      let size := if (size =? -1)%Z then (Z.of_nat K - begin)%Z else size in
      if (begin <? 0)%Z || (size <? 0)%Z || (Z.of_nat K <? begin + size)%Z
      then inl (ValueError "Slice out of bounds")
      else
        let s0 := Z.to_nat begin in
        let n := Z.to_nat size in
        inr (mkTensor [B; C; n; F]
               (tabulate (B * C * n * F)
                  (fun i => flat zero t
                     ((i / (n * F) * K + (s0 + (i / F) mod n)) * F
                      + i mod F))))
  | _ => inl (ValueError "Shape must be rank 4")
  end.

(** [tf.concat([a, b], axis)]: the two tensors must agree on every other
    extent.  Seen as matrices whose rows gather the axes from [axis] on, the
    result puts each row of [b] after the same row of [a]. *)
Definition tf_concat (axis : nat) (a b : Tensor R) : Res (Tensor R) :=
  let sa := shape a in
  let sb := shape b in
  if (length sa =? length sb) && (axis <? length sa)
     && bool_decide (take axis sa = take axis sb)
     && bool_decide (drop (S axis) sa = drop (S axis) sb)
  then
    let outer := numel (take axis sa) in
    let ia := numel (drop axis sa) in
    let ib := numel (drop axis sb) in
    inr (mkTensor
           (take axis sa ++ [nth axis sa 0 + nth axis sb 0]
              ++ drop (S axis) sa)
           (tabulate (outer * (ia + ib))
              (fun i =>
                 let row := i / (ia + ib) in
                 let j := i mod (ia + ib) in
                 if j <? ia then flat zero a (row * ia + j)
                 else flat zero b (row * ib + (j - ia)))))
  else inl (ValueError "Dimensions of inputs should match").

End Reshaping.

(** ** Building the graph of a [SideNetwork] *)

(** [SideNetwork.build_graph] reads [inputs_raw] after a loop that may not
    have assigned it. *)
Inductive BuildExn : Type :=
  | Raised (e : Exn)
  | UnboundLocalError (name : string).

Section SideGraph.

Context {R : Type} (zero : R).
Context {Layer : Type} `{LayerFactory Layer} `{LayerGraph R Layer}.

(** [np.prod(output_dims[1:3])] *)
Definition native_space (output_dims : PyVal) : Res Z :=
  match output_dims with
  | VList l =>
      res_bind (py_ints (take 2 (drop 1 l))) (fun extents =>
      inr (list_prod extents))
  | _ => inl (TypeError "cannot perform reduce")
  end.

(** [input_network.layers[input_nn].outputs]: the tensor that the upstream
    layer stored when its graph was built.  [input_outputs] lists these
    tensors for the layers built so far. *)
Definition layer_outputs (input_network : FFNetwork Layer)
    (input_outputs : list (Tensor R)) (input_nn : nat) : Res (Tensor R) :=
  res_bind (list_get (layers input_network) input_nn) (fun _ =>
  match input_outputs !! input_nn with
  | Some outputs => inr outputs
  | None => inl (AttributeError "outputs")
  end).

(** The body of the first loop of [SideNetwork.build_graph] up to
    [new_slice]. *)
Definition new_slice (self : SideNetwork Layer)
    (input_network : FFNetwork Layer) (input_outputs : list (Tensor R))
    (input_nn : nat) : Res (Tensor R) :=
  res_bind
    (if (num_space self =? 1)%Z then inr true
     else
       res_bind (list_get (layers input_network) input_nn) (fun l =>
       res_bind (native_space (output_dims l)) (fun native =>
       inr (num_space self =? native)%Z))) (fun as_it_is =>
  if as_it_is : bool then
    res_bind (layer_outputs input_network input_outputs input_nn)
      (fun outputs =>
    res_bind (list_get (num_units self) input_nn) (fun units =>
    tf_reshape outputs [-1; num_space self; units]%Z))
  else
    (* spatial positions converted to different filters (binocular) *)
    res_bind (list_get (layers input_network) input_nn) (fun l =>
    res_bind (native_space (output_dims l)) (fun native_space =>
    res_bind (res_bind (py_getitem (output_dims l) 0) py_int)
      (fun native_filters =>
    res_bind (layer_outputs input_network input_outputs input_nn)
      (fun outputs =>
    res_bind (tf_reshape outputs [-1; 1; native_space; native_filters]%Z)
      (fun tmp =>
    res_bind (tf_slice_axis2 zero tmp 0 (num_space self)) (fun left_post =>
    res_bind (tf_slice_axis2 zero tmp (num_space self) (num_space self))
      (fun right_post =>
    res_bind (tf_concat zero 3 left_post right_post) (fun both =>
    res_bind (list_get (num_units self) input_nn) (fun units =>
    tf_reshape both [-1; num_space self; units]%Z)))))))))).

(** The first loop: iteration 0 assigns [inputs_raw], the following ones
    concatenate on the last axis. *)
Definition assemble_inputs (self : SideNetwork Layer)
    (input_network : FFNetwork Layer) (input_outputs : list (Tensor R))
  : Res (option (Tensor R)) :=
  match length (num_units self) with
  | 0 => inr None
  | S more =>
      res_bind (new_slice self input_network input_outputs 0) (fun first =>
      res_bind
        (for_range
           (fun input_nn inputs_raw =>
              res_bind (new_slice self input_network input_outputs input_nn)
                (fun slice => tf_concat zero 2 inputs_raw slice))
           (seq 1 more) first) (fun inputs_raw =>
      inr (Some inputs_raw)))
  end.

(** One iteration of the second loop: the layer is built on the running
    input as it is. *)
Definition side_build_layer (self : SideNetwork Layer) (params_dict : PyVal)
    (batch_size : option nat) (use_dropout : bool) (layer : nat)
    (s : Built R) : Res (Built R) :=
  let '(inputs, built) := s in
  res_bind (list_get (layers (side_base self)) layer) (fun l =>
  let call := mkBuild inputs params_dict batch_size use_dropout in
  res_bind (layer_build_graph l call) (fun outputs =>
  inr (OneTensor outputs, built ++ [(call, outputs)]))).

(** [SideNetwork.build_graph]: the tensor assembled for the first layer,
    and for every layer the call it received and the [outputs] it stored. *)
Definition SideNetwork_build_graph (self : SideNetwork Layer)
    (input_network : FFNetwork Layer) (input_outputs : list (Tensor R))
    (params_dict : PyVal) (batch_size : option nat) (use_dropout : bool)
  : BuildExn + (Tensor R * list (BuildCall R * Tensor R)) :=
  match assemble_inputs self input_network input_outputs with
  | inl e => inl (Raised e)
  | inr None => inl (UnboundLocalError "inputs_raw")
  | inr (Some inputs_raw) =>
      match
        res_bind
          (tf_reshape inputs_raw
             [-1; list_sum (num_units self) * num_space self]%Z)
          (fun inputs =>
        res_bind
          (for_range (side_build_layer self params_dict batch_size use_dropout)
             (seq 0 (num_layers (side_base self))) (OneTensor inputs, []))
          (fun s => inr (inputs, snd s)))
      with
      | inl e => inl (Raised e)
      | inr result => inr result
      end
  end.

End SideGraph.

(** ** The vocabulary of the further statements *)

(** What the normalisation of lines 136 to 175 leaves under a key whose
    entry was [entry]: a list is kept, anything else (the default, for an
    absent key) is repeated once per layer. *)
Definition broadcast_value (n : nat) (dflt : PyVal) (entry : option PyVal)
  : PyVal :=
  match default dflt entry with
  | VList l => VList l
  | v => VList (replicate n v)
  end.

Definition broadcast_key (key : string) (dflt : PyVal) (n : nat)
    (p : gmap string PyVal) : gmap string PyVal :=
  <[key := broadcast_value n dflt (p !! key)]> p.

Definition default_key (key : string) (dflt : PyVal)
    (p : gmap string PyVal) : gmap string PyVal :=
  <[key := default dflt (p !! key)]> p.

(** The caller's dictionary after lines 136 to 181, for [n] layers. *)
Definition normalised (n : nat) (p : gmap string PyVal)
  : gmap string PyVal :=
  default_key "log_activations" (VBool false)
  (default_key "time_expand" (VList (replicate n (VInt 0)))
  (broadcast_key "pos_constraints" (VBool false) n
  (broadcast_key "num_inh" (VInt 0) n
  (default_key "reg_initializers" (VList (replicate n VNone))
  (broadcast_key "biases_initializers" (VStr "zeros") n
  (broadcast_key "weights_initializers" (VStr "trunc_normal") n
  (broadcast_key "activation_funcs" (VStr "relu") n p))))))).

(** No checked list has a wrong length. *)
Definition lengths_ok (n : nat) (p : gmap string PyVal) : Prop :=
  forall key l, In key checked_keys -> p !! key = Some (VList l) ->
    length l = n.

(** The layer kinds that [_define_network] knows. *)
Definition layer_kinds : list string :=
  ["normal"; "sep"; "readout"; "add"; "mult"; "filter"; "spkNL";
   "spike_history"; "conv"; "temporal"; "sp_temporal"; "conv_readout";
   "conv_xy"; "convsep"; "hadi_readout"; "biconv"; "convLNL"; "grid_shift";
   "grid_sample"].

(** The input dimensions of a layer whose lag count is [lags], over the
    dimensions [size] that reach it (lines 209 to 212). *)
Definition with_lags (size : PyVal) (lags : Z) : PyVal :=
  if (0 <? lags)%Z then
    VList (match size with
           | VList l => l
           | v => [v; VInt 1; VInt 1]
           end ++ [VInt lags])
  else size.

(** Sum of a list of extents. *)
Definition total (units : list nat) : nat := fold_right Nat.add 0 units.

(** The lag counts with which the loop of [_define_network] starts, for [n]
    layers and the caller's [time_expand] entry: the entry, or [n] zeros when
    it is absent (line 178), followed by zeros up to [n] entries (lines 198
    and 199). *)
Definition declared_lags (n : nat) (entry : option PyVal) : Res (list Z) :=
  match default (VList (replicate n (VInt 0))) entry with
  | VList l => py_ints (l ++ replicate (n - length l) (VInt 0))
  | _ => inl (AttributeError "copy")
  end.

(** The input dimensions with which layer [i] is constructed: those of the
    network for the first layer, the [output_dims] of the layer before for
    the others, with the layer's lag count when that is positive. *)
Definition layer_input {Layer : Type} `{LayerFactory Layer}
    (dims : list PyVal) (ls : list Layer) (declared : list Z) (i : nat)
  : option PyVal :=
  match declared !! i with
  | None => None
  | Some lags =>
      match i with
      | 0 => Some (with_lags (VList dims) lags)
      | S j =>
          match ls !! j with
          | Some previous => Some (with_lags (output_dims previous) lags)
          | None => None
          end
      end
  end.

(** The kinds whose branch reads [conv_filter_widths], each with the
    derivation of [conv_filter_size] that its branch spells out. *)
Definition conv_branch (kind : string)
    (derive : PyVal -> PyVal -> Res PyVal) : Prop :=
  ((kind = "conv" \/ kind = "biconv") /\ derive = conv_filter_size_lagged) \/
  ((kind = "convsep" \/ kind = "convLNL") /\
   derive = conv_filter_size_plain) \/
  (kind = "conv_xy" /\ derive = conv_filter_size_xy).

(** The invariant of the loop of [_define_network] that follows the calls:
    before iteration [k], every layer built so far is of a known kind and was
    constructed, under the scope of its index, from [layer_input]; a layer of
    a kind that reads [conv_filter_widths] (the entry [widths] of the
    dictionary) was given as [filter_dims] what its branch derives from its
    input dimensions and its width. *)
Definition calls_inv {Layer : Type} `{LayerFactory Layer}
    (widths : option PyVal) (types : PyVal)
    (declared : list Z) (dims : list PyVal) (k : nat) (d : Defining Layer)
  : Prop :=
  defining_inv types declared dims k d /\
  forall i, i < k ->
    exists kind call layer,
      py_getitem types i = inr (VStr kind) /\
      In kind layer_kinds /\
      self_layers d !! i = Some layer /\
      new_layer call = inr layer /\
      snd (call_scope call) = i /\
      kwarg "input_dims" (call_kwargs call)
      = layer_input dims (self_layers d) declared i /\
      forall derive, conv_branch kind derive ->
        exists ws width size_in filter,
          widths = Some ws /\
          py_getitem ws i = inr width /\
          kwarg "input_dims" (call_kwargs call) = Some size_in /\
          derive size_in width = inr filter /\
          kwarg "filter_dims" (call_kwargs call) = Some filter.

(** ** Further example inputs *)

(** One layer of an undefined kind. *)
Definition example_unknown_kind : gmap string PyVal :=
  <["layer_sizes" := ints [3]%Z]>
  (<["layer_types" := strs ["dense"]]>
  (<["normalize_weights" := ints [0]%Z]> ∅)).

(** An upstream network of two convolutional layers, with two and one
    filters, over two spatial positions, and the outputs that its layers
    stored for one sample. *)
Definition example_side_upstream : FFNetwork LayerCall :=
  mkFFNetwork "upstream" (map VInt [1; 2; 1]%Z) 2 (strs ["conv"; "conv"])
    [VNone; VNone]
    [mkCall "ConvLayer" ("conv_layer", 0)
       [("input_dims", ints [1; 2; 1]%Z); ("num_filters", VInt 2)];
     mkCall "ConvLayer" ("conv_layer", 1)
       [("input_dims", ints [2; 2; 1]%Z); ("num_filters", VInt 1)]]
    [0; 0]%Z 0%Z false.

Definition example_side_outputs : list (Tensor Z) :=
  [mkTensor [1; 4] [1; 2; 3; 4]%Z; mkTensor [1; 2] [5; 6]%Z].

(** A side network over that upstream network, with one dense layer and a
    lag count that [build_graph] does not look at. *)
Definition example_side : SideNetwork LayerCall :=
  mkSide
    (mkFFNetwork "side" (map VInt [3; 2; 1]%Z) 1 (strs ["normal"]) [VNone]
       [mkCall "Layer" ("layer", 0)
          [("input_dims", ints [3; 2; 1]%Z); ("output_dims", VInt 4)]]
       [3]%Z 3%Z false)
    2%Z [2; 1]%Z.

(** An upstream layer with four spatial positions and one filter, its
    output for one sample, and a side network with two positions that reads
    it as two filters. *)
Definition example_binocular_upstream : FFNetwork LayerCall :=
  mkFFNetwork "upstream" (map VInt [1; 4; 1]%Z) 1 (strs ["biconv"]) [VNone]
    [mkCall "BiConvLayer" ("biconv_layer", 0)
       [("input_dims", ints [1; 4; 1]%Z); ("num_filters", VInt 1)]]
    [0]%Z 0%Z false.

Definition example_binocular_outputs : list (Tensor Z) :=
  [mkTensor [1; 4] [1; 2; 3; 4]%Z].

Definition example_binocular_side : SideNetwork LayerCall :=
  mkSide
    (mkFFNetwork "side" (map VInt [2; 2; 1]%Z) 1 (strs ["normal"]) [VNone]
       [mkCall "Layer" ("layer", 0)
          [("input_dims", ints [2; 2; 1]%Z); ("output_dims", VInt 4)]]
       [0]%Z 0%Z false)
    2%Z [2]%Z.

(** The dictionary of a sampler network that starts from zero locations. *)
Definition example_sampler_zeros : gmap string PyVal :=
  <["num_locations" := VInt 4]>
  (<["location_initializer" := VStr "zeros"]> example_sampler_params).

(** The variables that [build_fit_variable_list] takes from a layer whose
    weights are [w] and whose biases are [b], for the flags of its entry of
    [fit_parameter_list]. *)
Definition selected {Var : Type} (w b : Var) (flags : PyVal * PyVal)
  : list Var :=
  (if py_truthy (fst flags) then [w] else [])
  ++ (if py_truthy (snd flags) then [b] else []).

(** Modelled from the spec: the variables of the layer classes of
    [layer.py], which are not among the sources.  The spec speaks of the
    "weight/bias handles" of a layer; here a handle is the scope of the layer
    and the name of the variable. *)
#[global] Instance reference_variables
  : LayerVariables LayerCall (string * nat * string) := {|
  weights_var c := inr (call_scope c, "weights");
  biases_var c := inr (call_scope c, "biases")
|}.

(** Fit the weights of the first layer, and both variables of the second. *)
Definition example_fit_list : list (gmap string PyVal) :=
  [ <["weights" := VBool true]> (<["biases" := VBool false]> ∅);
    <["weights" := VBool true]> (<["biases" := VBool true]> ∅) ].

(** Modelled from the spec: [copy_params] of the layer classes of
    [layer.py], which are not among the sources.  The spec says that it
    copies the numeric parameters of the other layer; here a layer takes over
    the keyword arguments of the other one and keeps its class and scope. *)
#[global] Instance reference_params : LayerParams LayerCall := {|
  copy_layer_params l origin :=
    (inr tt, mkCall (call_class l) (call_scope l) (call_kwargs origin))
|}.

(** Fit the weights of the first layer and the locations. *)
Definition example_sampler_fit_list : list (gmap string PyVal) :=
  [ <["weights" := VBool true]>
      (<["biases" := VBool false]> (<["locations" := VBool true]> ∅));
    <["weights" := VBool false]> (<["biases" := VBool false]> ∅) ].

(** A network of one layer that is fed two lags of its two inputs. *)
Definition example_lagged_network : FFNetwork LayerCall :=
  mkFFNetwork "net" [VInt 1; VInt 2; VInt 1; VInt 2] 1 (strs ["normal"])
    [VNone] [mkCall "Layer" ("layer", 0) []] [2%Z] 2%Z false.

(** One dense layer, with the input dimensions left in the dictionary as
    the list [[5]]. *)
Definition example_entry_params : gmap string PyVal :=
  <["input_dims" := ints [5]%Z]> example_single_params.

(** One dense layer that is fed two lags of the network's input. *)
Definition example_first_lag_params : gmap string PyVal :=
  <["layer_sizes" := ints [3]%Z]>
  (<["layer_types" := strs ["normal"]]>
  (<["normalize_weights" := ints [0]%Z]>
  (<["time_expand" := ints [2]%Z]> ∅))).

(** One layer of kind [kind] with four filters of width 3, fed [lags] lags of
    the network's input. *)
Definition example_filter_params (kind : string) (lags : Z)
  : gmap string PyVal :=
  <["layer_sizes" := ints [4]%Z]>
  (<["layer_types" := strs [kind]]>
  (<["normalize_weights" := ints [0]%Z]>
  (<["conv_filter_widths" := ints [3]%Z]>
  (<["shift_spacing" := ints [1]%Z]>
  (<["xy_out" := VList [VNone]]>
  (<["time_expand" := ints [lags]]> ∅)))))).

(** * Properties *)

(** ** Lists built by index *)

Lemma length_tabulate {A} n (f : nat -> A) : length (tabulate n f) = n.
Proof. unfold tabulate. now rewrite length_map, length_seq. Qed.

Lemma nth_tabulate {A} n (f : nat -> A) d i :
  i < n -> nth i (tabulate n f) d = f i.
Proof.
  intros Hi. unfold tabulate.
  rewrite (nth_indep _ d (f 0)) by now rewrite length_map, length_seq.
  rewrite (map_nth f (seq 0 n) 0 i), seq_nth by assumption. reflexivity.
Qed.

Lemma ravel2_div F b f : f < F -> ravel2 F b f / F = b.
Proof.
  intros Hf. unfold ravel2. symmetry.
  apply (Nat.div_unique _ F b f); lia.
Qed.

Lemma ravel2_mod F b f : f < F -> ravel2 F b f mod F = f.
Proof.
  intros Hf. unfold ravel2. symmetry.
  apply (Nat.mod_unique _ F b f); lia.
Qed.

Lemma ravel2_lt B F b f : b < B -> f < F -> ravel2 F b f < B * F.
Proof. intros Hb Hf. unfold ravel2. nia. Qed.

Lemma ravel3_lt B L K b l k :
  b < B -> l < L -> k < K -> ravel3 L K b l k < B * L * K.
Proof.
  intros Hb Hl Hk. unfold ravel3.
  pose proof (ravel2_lt B L b l Hb Hl) as Hbl. unfold ravel2 in Hbl.
  pose proof (ravel2_lt (B * L) K (b * L + l) k Hbl Hk) as H.
  exact H.
Qed.

Lemma ravel3_fst L K b l k :
  l < L -> k < K -> ravel3 L K b l k / (L * K) = b.
Proof.
  intros Hl Hk. unfold ravel3. symmetry.
  assert (Hlt : l * K + k < L * K).
  { assert (S l * K <= L * K) by (apply Nat.mul_le_mono_r; lia). lia. }
  apply (Nat.div_unique _ (L * K) b (l * K + k)); [exact Hlt | ring].
Qed.

Lemma ravel3_snd L K b l k :
  l < L -> k < K -> (ravel3 L K b l k / K) mod L = l.
Proof.
  intros Hl Hk. unfold ravel3.
  change ((b * L + l) * K + k) with (ravel2 K (b * L + l) k).
  rewrite ravel2_div by assumption.
  change (b * L + l) with (ravel2 L b l). now apply ravel2_mod.
Qed.

Lemma ravel3_trd L K b l k : k < K -> ravel3 L K b l k mod K = k.
Proof.
  intros Hk. unfold ravel3.
  change ((b * L + l) * K + k) with (ravel2 K (b * L + l) k).
  now apply ravel2_mod.
Qed.

(** ** The gather performed by [time_embed] *)

Section TimeEmbedFacts.

Context {R : Type} (zero one : R) (add mul : R -> R -> R).

(** The laws of exact arithmetic that the contraction against a 0/1 tensor
    relies on. *)
Hypothesis add_zero_l : forall x, add zero x = x.
Hypothesis add_zero_r : forall x, add x zero = x.
Hypothesis mul_zero_l : forall x, mul zero x = zero.
Hypothesis mul_one_l : forall x, mul one x = x.

Local Abbreviation flatR := (flat zero).
Local Abbreviation get2R := (get2 zero).
Local Abbreviation eyeR := (np_eye zero one).
Local Abbreviation sumR := (sum_upto zero add).
Local Abbreviation stackR := (shift_stack zero one).
Local Abbreviation embedR := (time_embed zero one add mul).













End TimeEmbedFacts.


(** ** Loops *)

Lemma for_range_app {St} (body : nat -> St -> Res St) l1 l2 s :
  for_range body (l1 ++ l2) s
  = res_bind (for_range body l1 s) (for_range body l2).
Proof.
  revert s. induction l1 as [|i l1 IH]; intros s; cbn; [reflexivity|].
  destruct (body i s); cbn; [reflexivity|apply IH].
Qed.

(** An invariant indexed by the loop counter holds after [range(k, k + n)]. *)
Lemma for_range_seq_inv {St} (Inv : nat -> St -> Prop) body n : forall k s s',
  (forall i s1 s2,
      k <= i < k + n -> Inv i s1 -> body i s1 = inr s2 -> Inv (S i) s2) ->
  Inv k s ->
  for_range body (seq k n) s = inr s' ->
  Inv (k + n) s'.
Proof.
  induction n as [|n IH]; intros k s s' Hstep Hk Hrun; cbn in Hrun.
  - injection Hrun as <-. now rewrite Nat.add_0_r.
  - destruct (body k s) as [e|s1] eqn:Hbody; cbn in Hrun; [discriminate|].
    replace (k + S n) with (S k + n) by lia.
    apply (IH (S k) s1 s'); [|apply (Hstep k s s1); [lia|assumption..]|assumption].
    intros i a b Hi. apply Hstep. lia.
Qed.

(** ** Facts about the Python helpers *)

Lemma py_eq_str_true v s : py_eq_str v s = true -> v = VStr s.
Proof.
  destruct v; cbn; try discriminate.
  intros E. apply String.eqb_eq in E. now subst.
Qed.

Lemma res_bind_inr {A B} (r : Res A) (k : A -> Res B) b :
  res_bind r k = inr b -> exists a, r = inr a /\ k a = inr b.
Proof. destruct r as [e|a]; cbn; [discriminate|]. eauto. Qed.

Lemma fst_inr_pair {A B C} (r : (A + B) * C) b :
  fst r = inr b -> r = (inr b, snd r).
Proof. destruct r as [x c]. cbn. now intros ->. Qed.

Lemma list_get_inr {A} (l : list A) i x : list_get l i = inr x -> l !! i = Some x.
Proof. unfold list_get. destruct (l !! i); [|discriminate]. now intros [= ->]. Qed.

Lemma list_set_inr {A} (l : list A) i x l' :
  list_set l i x = inr l' -> i < length l /\ l' = <[i := x]> l.
Proof.
  unfold list_set. destruct (Nat.ltb_spec i (length l)); [|discriminate].
  intros [= <-]. auto.
Qed.

Lemma py_ints_length l zs : py_ints l = inr zs -> length zs = length l.
Proof.
  revert zs. induction l as [|v l IH]; intros zs; cbn.
  - now intros [= <-].
  - intros E. apply res_bind_inr in E as (z & _ & E).
    apply res_bind_inr in E as (zs' & E' & [= <-]).
    cbn. f_equal. now apply IH.
Qed.

Lemma py_ints_map_VInt zs : py_ints (map VInt zs) = inr zs.
Proof. induction zs as [|z zs IH]; cbn; [reflexivity|]. now rewrite IH. Qed.

(** ** Facts about [_define_network] *)

Section ConstructionFacts.

Context {Layer : Type} `{LayerFactory Layer}.

Lemma append_layer_inr p nn class prefix args (d d' : Defining Layer) :
  append_layer p nn class prefix args d = inr d' ->
  exists layer,
    d' = mkDefining (layer_sizes d) (self_input_dims d)
           (self_layers d ++ [layer]) (self_time_expand d).
Proof.
  unfold append_layer. intros E.
  apply res_bind_inr in E as (kw & _ & E).
  apply res_bind_inr in E as (layer & _ & [= <-]). eauto.
Qed.

(** Every branch of the dispatch appends one layer; the temporal branches
    also cancel the layer's entry of [time_expand]; nothing else changes. *)
Lemma dispatch_layer_inr p types nn (d d' : Defining Layer) :
  dispatch_layer p types nn d = inr d' ->
  exists kind layer,
    py_getitem types nn = inr kind /\
    d' = mkDefining (layer_sizes d) (self_input_dims d)
           (self_layers d ++ [layer])
           (if is_temporal kind then <[nn := 0%Z]> (self_time_expand d)
            else self_time_expand d).
Proof.
  unfold dispatch_layer. intros E.
  apply res_bind_inr in E as (kind & Hkind & E).
  apply res_bind_inr in E as (size_in & _ & E).
  apply res_bind_inr in E as (size_out & _ & E).
  cbv zeta in E. exists kind.
  repeat
    match type of E with
    | (if py_eq_str kind ?s then _ else _) = inr _ =>
        destruct (py_eq_str kind s) eqn:?;
        [ match goal with
          | Hs : py_eq_str kind s = true |- _ =>
              apply py_eq_str_true in Hs; subst kind
          end;
          repeat
            match type of E with
            | res_bind _ _ = inr _ =>
                let x := fresh "x" in
                let Hx := fresh "Hx" in
                apply res_bind_inr in E as (x & Hx & E)
            end;
          repeat
            match goal with
            | Hx : append_layer _ _ _ _ _ _ = inr _ |- _ =>
                apply append_layer_inr in Hx as (? & ->)
            end;
          try (apply append_layer_inr in E as (? & ->));
          try (injection E as <-);
          eexists; split; [exact Hkind | reflexivity]
        | ]
    end.
  discriminate.
Qed.

(** What one iteration of the loop changes. *)
Lemma define_layer_inr p types nn (d d' : Defining Layer) :
  define_layer p types nn d = inr d' ->
  exists kind lags layer,
    py_getitem types nn = inr kind /\
    self_time_expand d !! nn = Some lags /\
    self_layers d' = self_layers d ++ [layer] /\
    self_time_expand d'
    = (if is_temporal kind then <[nn := 0%Z]> (self_time_expand d)
       else self_time_expand d) /\
    (nn <> 0 -> self_input_dims d' = self_input_dims d) /\
    (nn = 0 -> forall dims,
        layer_sizes d !! 0 = Some (VList dims) ->
        self_input_dims d = dims ->
        self_input_dims d'
        = dims ++ (if (0 <? lags)%Z then [VInt lags] else [])).
Proof.
  unfold define_layer. intros E.
  apply res_bind_inr in E as (d1 & H1 & E).
  apply res_bind_inr in E as (lags & Hlags & E).
  apply res_bind_inr in E as (d2 & H2 & E).
  apply dispatch_layer_inr in E as (kind & layer & Hkind & ->).
  apply list_get_inr in Hlags.
  assert (E1 : self_layers d1 = self_layers d /\
               self_time_expand d1 = self_time_expand d /\
               self_input_dims d1 = self_input_dims d /\
               (nn = 0 -> d1 = d)).
  { destruct (Nat.ltb_spec 0 nn).
    - apply res_bind_inr in H1 as (prev & _ & H1).
      apply res_bind_inr in H1 as (sizes & _ & [= <-]).
      cbn. repeat split; auto. lia.
    - injection H1 as <-. auto. }
  destruct E1 as (El & Et & Ei & E0).
  rewrite Et in Hlags.
  exists kind, lags, layer. cbn [self_layers self_time_expand self_input_dims].
  destruct (Z.ltb_spec 0 lags) as [Hpos|Hneg].
  - apply res_bind_inr in H2 as (size & Hsize & H2).
    apply res_bind_inr in H2 as (sizes & _ & [= <-]).
    cbn [self_layers self_time_expand self_input_dims].
    rewrite El, Et. repeat split; auto.
    + intros Hnn. destruct (Nat.eqb_spec nn 0); [lia|]. exact Ei.
    + intros -> dims Hdims _. rewrite (E0 eq_refl) in Hsize.
      apply list_get_inr in Hsize. rewrite Hdims in Hsize.
      injection Hsize as <-. reflexivity.
  - injection H2 as <-. rewrite El, Et, Ei. repeat split; auto.
    intros _ dims _ ->. now rewrite app_nil_r.
Qed.

Lemma defining_inv_step p types declared dims k (d d' : Defining Layer) :
  defining_inv types declared dims k d ->
  define_layer p types k d = inr d' ->
  defining_inv types declared dims (S k) d'.
Proof.
  intros (Hlen & Hte & Hdone & Htodo & Hfirst & Hrest) E.
  apply define_layer_inr in E
    as (kind & lags & layer & Hkind & Hlags & El & Et & Hne & H0).
  assert (Hk : k < length (self_time_expand d))
    by (eapply lookup_lt_Some; eassumption).
  unfold defining_inv. rewrite El, Et, length_app, Hlen. cbn [length].
  split; [lia|]. split.
  { destruct (is_temporal kind); [rewrite length_insert|]; exact Hte. }
  split; [|split; [|split; [lia|]]].
  - intros i kind' Hi Hkind'.
    destruct (Nat.eq_dec i k) as [->|Hik].
    + rewrite Hkind in Hkind'. injection Hkind' as <-.
      destruct (is_temporal kind).
      * now apply list_lookup_insert_eq.
      * now apply Htodo.
    + destruct (is_temporal kind);
        [rewrite list_lookup_insert_ne by congruence|];
        apply Hdone; [lia|assumption|lia|assumption].
  - intros i Hi.
    destruct (is_temporal kind);
      [rewrite list_lookup_insert_ne by lia|]; apply Htodo; lia.
  - intros _. destruct (Nat.eq_dec k 0) as [->|Hk0].
    + destruct (Hfirst eq_refl) as (Hsz & Hdims).
      rewrite (H0 eq_refl dims Hsz Hdims). f_equal.
      rewrite (Htodo 0) in Hlags by lia.
      unfold lag_suffix. destruct declared as [|first rest]; [discriminate|].
      now injection Hlags as ->.
    + rewrite (Hne Hk0). apply Hrest. lia.
Qed.

(** What a successful run of [_define_network] establishes. *)
Lemma define_network_inr p dims n types (d : Defining Layer) spread :
  FFNetwork_define_network p dims n types = inr (d, spread) ->
  exists supplied declared,
    p !! "time_expand" = Some (VList supplied) /\
    py_ints (if length supplied <? n
             then supplied ++ replicate (n - length supplied) (VInt 0)
             else supplied) = inr declared /\
    spread = list_sum declared /\
    defining_inv types declared dims n d.
Proof.
  unfold FFNetwork_define_network. intros E.
  apply res_bind_inr in E as (sizes & _ & E).
  apply res_bind_inr in E as (size_list & _ & E).
  apply res_bind_inr in E as (lags & Hlags & E).
  apply res_bind_inr in E as (supplied & Hsup & E).
  cbv zeta in E.
  apply res_bind_inr in E as (declared & Hdecl & E).
  apply res_bind_inr in E as (d0 & Hloop & [= <- <-]).
  exists supplied, declared.
  unfold dict_get in Hlags. destruct (p !! "time_expand") as [v|]; [|discriminate].
  injection Hlags as ->. destruct lags; try discriminate.
  injection Hsup as ->.
  split; [reflexivity|]. split; [exact Hdecl|]. split; [reflexivity|].
  change n with (0 + n).
  eapply (for_range_seq_inv (defining_inv types declared dims));
    [| |exact Hloop].
  - intros i s1 s2 _ Hinv Hbody. eapply defining_inv_step; eassumption.
  - unfold defining_inv. cbn. repeat split; auto; lia.
Qed.

End ConstructionFacts.

(** ** Facts about the constructor's writes *)

Lemma mbind_inr {A B} (m : Init A) (k : A -> Init B) c b c' :
  (m ≫= k) c = (inr b, c') ->
  exists a c1, m c = (inr a, c1) /\ k a c1 = (inr b, c').
Proof.
  unfold mbind, Init_bind, bind.
  destruct (m c) as [[e|a] c1]; [discriminate|]. eauto.
Qed.

Lemma mbind_run {A B} (m : Init A) (k : A -> Init B) c a c1 :
  m c = (inr a, c1) -> (m ≫= k) c = k a c1.
Proof. unfold mbind, Init_bind, bind. now intros ->. Qed.

Lemma mbind_raise {A B} (m : Init A) (k : A -> Init B) c e c1 :
  m c = (inl e, c1) -> (m ≫= k) c = (inl e, c1).
Proof. unfold mbind, Init_bind, bind. now intros ->. Qed.

Section Writes.

Variable keys : list string.

Lemma writes_only_ret {A} (a : A) : writes_only keys (mret a).
Proof. intros c. cbn. auto. Qed.

Lemma writes_only_raise {A} e : writes_only keys (@raise A e).
Proof. intros c. cbn. auto. Qed.

Lemma writes_only_lift {A} (r : Res A) : writes_only keys (lift r).
Proof. intros c. cbn. auto. Qed.

Lemma writes_only_has_key key : writes_only keys (has_key key).
Proof. intros c. cbn. auto. Qed.

Lemma writes_only_read_key key : writes_only keys (read_key key).
Proof. intros c. cbn. auto. Qed.

Lemma writes_only_write_key key v :
  key ∈ keys -> writes_only keys (write_key key v).
Proof.
  intros Hin c. cbn. split; [reflexivity|].
  intros k Hk. apply lookup_insert_ne. intros ->. contradiction.
Qed.

Lemma writes_only_bind {A B} (m : Init A) (k : A -> Init B) :
  writes_only keys m -> (forall a, writes_only keys (k a)) ->
  writes_only keys (m ≫= k).
Proof.
  intros Hm Hk c. unfold mbind, Init_bind, bind.
  destruct (Hm c) as (Hd & Hp).
  destruct (m c) as [[e|a] c1]; cbn in *; [auto|].
  destruct (Hk a c1) as (Hd' & Hp').
  split; [congruence|]. intros key Hkey.
  now rewrite Hp', Hp.
Qed.

Lemma writes_only_broadcast_option key default msg n :
  key ∈ keys -> writes_only keys (broadcast_option key default msg n).
Proof.
  intros Hin. unfold broadcast_option.
  apply writes_only_bind; [apply writes_only_has_key|]. intros present.
  apply writes_only_bind.
  { destruct present; [apply writes_only_ret|now apply writes_only_write_key]. }
  intros _. apply writes_only_bind; [apply writes_only_read_key|].
  intros v. destruct v; try now apply writes_only_write_key.
  destruct (negb _); [apply writes_only_raise|apply writes_only_ret].
Qed.

Lemma writes_only_default_option key default :
  key ∈ keys -> writes_only keys (default_option key default).
Proof.
  intros Hin. unfold default_option.
  apply writes_only_bind; [apply writes_only_has_key|]. intros present.
  destruct present; [apply writes_only_ret|now apply writes_only_write_key].
Qed.

End Writes.

(** *** The steps of the normalisation *)

Lemma has_key_run key c :
  has_key key c = (inr (bool_decide (is_Some (arg_params c !! key))), c).
Proof. reflexivity. Qed.

Lemma read_key_inr key c v c' :
  read_key key c = (inr v, c') -> c' = c /\ arg_params c !! key = Some v.
Proof.
  unfold read_key, dict_get.
  destruct (arg_params c !! key); [|discriminate]. now intros [= -> ->].
Qed.

Lemma read_key_run key c v :
  arg_params c !! key = Some v -> read_key key c = (inr v, c).
Proof. unfold read_key, dict_get. now intros ->. Qed.

(** A list already in the dictionary is checked and left as it is. *)
Lemma broadcast_option_list key default msg n c l :
  arg_params c !! key = Some (VList l) ->
  broadcast_option key default msg n c
  = (if negb (length l =? n) then inl (ValueError msg) else inr tt, c).
Proof.
  intros Hl. unfold broadcast_option.
  rewrite (mbind_run _ _ c true c)
    by (rewrite has_key_run, Hl; reflexivity).
  rewrite (mbind_run _ _ c tt c) by reflexivity.
  rewrite (mbind_run _ _ c (VList l) c) by now apply read_key_run.
  now destruct (negb _).
Qed.

(** The step raises nothing but its [ValueError]; when it returns, the key
    holds a list with one entry per layer. *)
Lemma broadcast_option_cases key default msg n c :
  (fst (broadcast_option key default msg n c) = inl (ValueError msg)) \/
  (fst (broadcast_option key default msg n c) = inr tt /\
   exists l, arg_params (snd (broadcast_option key default msg n c)) !! key
             = Some (VList l) /\ length l = n).
Proof.
  unfold broadcast_option.
  rewrite (mbind_run _ _ c _ c) by apply has_key_run.
  set (c1 := if bool_decide (is_Some (arg_params c !! key)) then c
             else mkCaller (arg_input_dims c) (<[key := default]> (arg_params c))).
  assert (Hc1 : exists v, arg_params c1 !! key = Some v).
  { subst c1. destruct (arg_params c !! key) as [v|] eqn:E.
    - rewrite bool_decide_eq_true_2 by eauto. eauto.
    - rewrite bool_decide_eq_false_2 by (intros [? ?]; discriminate).
      cbn. rewrite lookup_insert_eq. eauto. }
  destruct Hc1 as (v & Hv).
  rewrite (mbind_run _ _ c tt c1) by (subst c1; now destruct (bool_decide _)).
  rewrite (mbind_run _ _ c1 v c1) by now apply read_key_run.
  destruct v; cbn;
    try (right; split; [reflexivity|]; rewrite lookup_insert_eq; eexists;
         split; [reflexivity|apply length_replicate]).
  destruct (Nat.eqb_spec (length l) n); cbn; [|now left].
  right. split; [reflexivity|]. eauto.
Qed.

Lemma default_option_inr key default c :
  fst (default_option key default c) = inr tt.
Proof.
  unfold default_option.
  rewrite (mbind_run _ _ c _ c) by apply has_key_run.
  now destruct (bool_decide _).
Qed.

(** A step that either raises a [ValueError] or keeps [P], followed by a
    continuation that raises a [ValueError] under [P]. *)
Lemma step_then_ValueError {B} (m : Init unit) (k : unit -> Init B)
    (P : Caller -> Prop) :
  (forall c, P c ->
     is_ValueError (fst (m c)) = true \/ (fst (m c) = inr tt /\ P (snd (m c)))) ->
  (forall c, P c -> is_ValueError (fst (k tt c)) = true) ->
  forall c, P c -> is_ValueError (fst ((m ≫= k) c)) = true.
Proof.
  intros Hm Hk c Hc. unfold mbind, Init_bind, bind.
  destruct (Hm c Hc) as [He|(Hr & HP)];
    destruct (m c) as [[e|[]] c1]; cbn in *; try discriminate; auto.
Qed.

(** A normalisation step for another key keeps a list where it is. *)
Lemma broadcast_option_keeps key default msg n other l c :
  key <> other ->
  arg_params c !! other = Some (VList l) ->
  is_ValueError (fst (broadcast_option key default msg n c)) = true \/
  (fst (broadcast_option key default msg n c) = inr tt /\
   arg_params (snd (broadcast_option key default msg n c)) !! other
   = Some (VList l)).
Proof.
  intros Hne Hl.
  destruct (broadcast_option_cases key default msg n c) as [E|(E & _)].
  - left. now rewrite E.
  - right. split; [exact E|].
    destruct (writes_only_broadcast_option [key] key default msg n
                (list_elem_of_here _ _) c) as (_ & Hp).
    rewrite Hp by (rewrite list_elem_of_singleton; congruence). exact Hl.
Qed.

Lemma default_option_keeps key default other l c :
  key <> other ->
  arg_params c !! other = Some (VList l) ->
  is_ValueError (fst (default_option key default c)) = true \/
  (fst (default_option key default c) = inr tt /\
   arg_params (snd (default_option key default c)) !! other = Some (VList l)).
Proof.
  intros Hne Hl. right. split; [apply default_option_inr|].
  destruct (writes_only_default_option [key] key default
              (list_elem_of_here _ _) c) as (_ & Hp).
  rewrite Hp by (rewrite list_elem_of_singleton; congruence). exact Hl.
Qed.

Lemma broadcast_option_inr key default msg n c c' :
  broadcast_option key default msg n c = (inr tt, c') ->
  (exists l, arg_params c' !! key = Some (VList l) /\ length l = n) /\
  forall k, k <> key -> arg_params c' !! k = arg_params c !! k.
Proof.
  intros E.
  destruct (broadcast_option_cases key default msg n c) as [E'|(_ & Hl)];
    rewrite E in *; [discriminate|]. split; [exact Hl|].
  intros k Hk.
  destruct (writes_only_broadcast_option [key] key default msg n
              (list_elem_of_here _ _) c) as (_ & Hp).
  rewrite E in Hp. apply Hp. rewrite list_elem_of_singleton. congruence.
Qed.

Lemma default_option_frame key default c k :
  k <> key ->
  arg_params (snd (default_option key default c)) !! k = arg_params c !! k.
Proof.
  intros Hk.
  destruct (writes_only_default_option [key] key default
              (list_elem_of_here _ _) c) as (_ & Hp).
  apply Hp. rewrite list_elem_of_singleton. congruence.
Qed.

Lemma default_option_lookup key dflt c :
  arg_params (snd (default_option key dflt c)) !! key
  = Some (default dflt (arg_params c !! key)).
Proof.
  unfold default_option.
  rewrite (mbind_run _ _ c _ c) by apply has_key_run.
  destruct (arg_params c !! key) as [v|] eqn:E.
  - rewrite bool_decide_eq_true_2 by eauto. cbn. exact E.
  - rewrite bool_decide_eq_false_2 by (intros [? ?]; discriminate).
    cbn. apply lookup_insert_eq.
Qed.

(** *** The normalisation of [input_dims] *)

Lemma pad_in_place_eq l :
  pad_in_place l = l ++ replicate (3 - length l) (VInt 1).
Proof.
  unfold pad_in_place.
  assert (Hgen : forall k l, k = 3 - length l ->
             append_ones k l = l ++ replicate k (VInt 1)).
  { clear l. induction k as [|k IH]; intros l Hk; cbn [append_ones replicate].
    - now rewrite app_nil_r.
    - destruct (Nat.ltb_spec (length l) 3); [|lia].
      rewrite IH by (rewrite length_app; cbn; lia).
      now rewrite <- app_assoc. }
  now apply Hgen.
Qed.

Section InitFacts.

Context {Layer : Type} `{LayerFactory Layer}.

(** From line 126 on, [__init__] writes only under the normalised keys. *)
Lemma writes_only_init_rest scope dims :
  writes_only option_keys (FFNetwork_init_rest (Layer:=Layer) scope dims).
Proof.
  unfold FFNetwork_init_rest.
  repeat
    first
      [ apply writes_only_broadcast_option; apply list_elem_of_In; cbn; tauto
      | apply writes_only_default_option; apply list_elem_of_In; cbn; tauto
      | apply writes_only_has_key
      | apply writes_only_read_key
      | apply writes_only_lift
      | apply writes_only_ret
      | apply writes_only_raise
      | apply writes_only_bind; [|intros ?]
      | match goal with
        | |- writes_only _ (if ?b then _ else _) => destruct b
        | |- writes_only _ (let '(_, _) := ?x in _) => destruct x
        | |- writes_only _ (fun c => (inr (arg_params c), c)) =>
            intros c; cbn; auto
        end ].
Qed.

(** With the required fields present, a checked list of the wrong length
    ends the constructor with a [ValueError]. *)
Lemma init_rest_wrong_length scope dims c sizes n types key l :
  arg_params c !! "layer_sizes" = Some sizes ->
  py_len sizes = inr n ->
  arg_params c !! "layer_types" = Some types ->
  key ∈ checked_keys ->
  arg_params c !! key = Some (VList l) ->
  length l <> n ->
  is_ValueError (fst (FFNetwork_init_rest (Layer:=Layer) scope dims c)) = true.
Proof.
  intros Hsizes Hlen Htypes Hkey Hl Hwrong.
  unfold FFNetwork_init_rest.
  rewrite (mbind_run _ _ c true c)
    by (rewrite has_key_run, Hsizes; reflexivity).
  rewrite (mbind_run _ _ c tt c) by reflexivity.
  rewrite (mbind_run _ _ c sizes c) by now apply read_key_run.
  rewrite (mbind_run _ _ c n c) by (unfold lift; now rewrite Hlen).
  rewrite (mbind_run _ _ c types c) by now apply read_key_run.
  cbv zeta.
  assert (Hraise : forall key' default msg {B} (k : unit -> Init B) c',
             key' = key -> arg_params c' !! key = Some (VList l) ->
             is_ValueError
               (fst ((broadcast_option key' default msg n ≫= k) c')) = true).
  { intros key' default msg B k c' -> Hc'.
    rewrite (mbind_raise _ _ c' (ValueError msg) c'); [reflexivity|].
    rewrite (broadcast_option_list _ _ _ _ _ l Hc').
    destruct (Nat.eqb_spec (length l) n); [contradiction|reflexivity]. }
  clear Hsizes Htypes. revert c Hl.
  unfold checked_keys in Hkey.
  repeat
    match goal with
    | |- forall c, arg_params c !! key = Some (VList l) ->
           is_ValueError
             (fst ((broadcast_option ?key' ?default ?msg n ≫= ?k) c)) = true =>
        destruct (String.eqb_spec key' key);
        [ intros c Hc; now apply Hraise
        | apply (step_then_ValueError _ _
                   (fun c => arg_params c !! key = Some (VList l)));
          [ intros c Hc; now apply broadcast_option_keeps | cbv beta ] ]
    | |- forall c, arg_params c !! key = Some (VList l) ->
           is_ValueError
             (fst ((default_option ?key' ?default ≫= ?k) c)) = true =>
        destruct (String.eqb_spec key' key);
        [ exfalso; subst key; apply list_elem_of_In in Hkey; cbn in Hkey;
          intuition discriminate
        | apply (step_then_ValueError _ _
                   (fun c => arg_params c !! key = Some (VList l)));
          [ intros c Hc; now apply default_option_keeps | cbv beta ] ]
    end.
  exfalso. apply list_elem_of_In in Hkey. cbn in Hkey.
  intuition congruence.
Qed.

Lemma format_input_dims_arg c :
  format_input_dims ArgObject c
  = (inr (formatted (arg_input_dims c)),
     mkCaller (padded_object (arg_input_dims c)) (arg_params c)).
Proof. destruct c as [v p]. now destruct v. Qed.

Lemma format_input_dims_entry c v :
  arg_params c !! "input_dims" = Some v ->
  format_input_dims DictEntry c
  = (inr (formatted v),
     mkCaller (arg_input_dims c)
       (match v with
        | VList l => <["input_dims" := VList (pad_in_place l)]> (arg_params c)
        | _ => arg_params c
        end)).
Proof.
  intros Hv. unfold format_input_dims. rewrite Hv. cbn.
  destruct c as [a p]. now destruct v.
Qed.

(** What a successful run of [__init__] from line 126 on establishes. *)
Lemma init_rest_inr scope dims c (net : FFNetwork Layer) c' :
  FFNetwork_init_rest scope dims c = (inr net, c') ->
  exists n types d spread,
    arg_params c !! "layer_types" = Some types /\
    (exists sizes,
        arg_params c !! "layer_sizes" = Some sizes /\ py_len sizes = inr n) /\
    FFNetwork_define_network (arg_params c') dims n types = inr (d, spread) /\
    input_dims net = self_input_dims d /\
    num_layers net = n /\
    layer_types net = types /\
    layers net = self_layers d /\
    time_expand net = self_time_expand d /\
    time_spread net = spread /\
    (forall key, key ∈ checked_keys ->
        exists l, arg_params c' !! key = Some (VList l) /\ length l = n) /\
    arg_params c' !! "time_expand"
    = Some (default (VList (replicate n (VInt 0)))
              (arg_params c !! "time_expand")).
Proof.
  unfold FFNetwork_init_rest. intros E.
  apply mbind_inr in E as (present & c0 & Hpresent & E).
  rewrite has_key_run in Hpresent. injection Hpresent as <- <-.
  apply mbind_inr in E as ([] & c0 & Hif & E).
  destruct (bool_decide _) in Hif; [|discriminate]. injection Hif as <-.
  apply mbind_inr in E as (sizes & c0 & Hsizes & E).
  apply read_key_inr in Hsizes as (-> & Hsizes).
  apply mbind_inr in E as (n & c0 & Hn & E).
  unfold lift in Hn. injection Hn as Hn <-.
  apply mbind_inr in E as (types & c0 & Htypes & E).
  apply read_key_inr in Htypes as (-> & Htypes).
  cbv zeta in E.
  apply mbind_inr in E as ([] & c1 & H1 & E).
  apply broadcast_option_inr in H1 as (L1 & F1).
  apply mbind_inr in E as ([] & c2 & H2 & E).
  apply broadcast_option_inr in H2 as (L2 & F2).
  apply mbind_inr in E as ([] & c3 & H3 & E).
  apply broadcast_option_inr in H3 as (L3 & F3).
  apply mbind_inr in E as ([] & c4 & H4 & E).
  pose proof (default_option_frame "reg_initializers"
                (VList (replicate n VNone)) c3) as F4.
  rewrite H4 in F4. cbn [snd] in F4.
  apply mbind_inr in E as ([] & c5 & H5 & E).
  apply broadcast_option_inr in H5 as (L5 & F5).
  apply mbind_inr in E as ([] & c6 & H6 & E).
  apply broadcast_option_inr in H6 as (L6 & F6).
  apply mbind_inr in E as ([] & c7 & H7 & E).
  pose proof (default_option_frame "time_expand"
                (VList (replicate n (VInt 0))) c6) as F7.
  pose proof (default_option_lookup "time_expand"
                (VList (replicate n (VInt 0))) c6) as T7.
  rewrite H7 in F7, T7. cbn [snd] in F7, T7.
  apply mbind_inr in E as ([] & c8 & H8 & E).
  pose proof (default_option_frame "log_activations" (VBool false) c7) as F8.
  rewrite H8 in F8. cbn [snd] in F8.
  apply mbind_inr in E as (network_params & c9 & Hnp & E).
  injection Hnp as <- <-.
  apply mbind_inr in E as ([d spread] & c9 & Hdef & E).
  unfold lift in Hdef. injection Hdef as Hdef <-.
  apply mbind_inr in E as (logv & c9 & Hlog & E).
  apply read_key_inr in Hlog as (-> & _).
  injection E as <- <-.
  exists n, types, d, spread. cbn.
  repeat (split; [first [assumption | reflexivity | eauto]|]).
  - intros key Hkey. apply list_elem_of_In in Hkey. cbn in Hkey.
    destruct Hkey as [<-|[<-|[<-|[<-|[<-|[]]]]]];
      rewrite ?F8, ?F7, ?F6, ?F5, ?F4, ?F3, ?F2 by discriminate;
      assumption.
  - rewrite F8, T7 by discriminate.
    now rewrite F6, F5, F4, F3, F2, F1 by discriminate.
Qed.

(** The state in which [__init__] reaches line 126, for an [input_dims]
    argument that is not [None]. *)
Lemma init_body_arg scope v p :
  v <> VNone ->
  FFNetwork_init_body (Layer:=Layer) scope (mkCaller v p)
  = FFNetwork_init_rest scope (formatted v) (mkCaller (padded_object v) p).
Proof.
  intros Hv. unfold FFNetwork_init_body.
  rewrite (mbind_run _ _ _ ArgObject (mkCaller v p))
    by (unfold resolve_input_dims; cbn; now destruct v).
  now rewrite (mbind_run _ _ _ _ _ (format_input_dims_arg _)).
Qed.

(** The same for an argument that is [None], with the dictionary's entry
    padded in place. *)
Lemma init_body_entry scope p e :
  p !! "input_dims" = Some e -> e <> VNone ->
  FFNetwork_init_body (Layer:=Layer) scope (mkCaller VNone p)
  = FFNetwork_init_rest scope (formatted e)
      (mkCaller VNone
         (match e with
          | VList l => <["input_dims" := VList (pad_in_place l)]> p
          | _ => p
          end)).
Proof.
  intros He Hne. unfold FFNetwork_init_body.
  rewrite (mbind_run _ _ _ DictEntry (mkCaller VNone p)).
  - now rewrite (mbind_run _ _ _ _ _
                   (format_input_dims_entry (mkCaller VNone p) e He)).
  - unfold resolve_input_dims, dict_get. cbn. rewrite He.
    now destruct e.
Qed.

(** A successful construction went through line 126 with the normalised
    input dimensions, and with a dictionary that differs from the caller's
    under ["input_dims"] at most. *)
Lemma FFNetwork_init_inr scope v pd (net : FFNetwork Layer) out :
  FFNetwork_init scope v pd = (inr net, out) ->
  exists sc p c1 c' dims,
    scope = Some sc /\ pd = Some p /\
    FFNetwork_init_rest sc dims c1 = (inr net, c') /\
    out = (arg_input_dims c', Some (arg_params c')) /\
    (v <> VNone -> dims = formatted v) /\
    (forall k, k <> "input_dims" -> arg_params c1 !! k = p !! k).
Proof.
  unfold FFNetwork_init. destruct scope as [sc|]; [|discriminate].
  destruct pd as [p|]; [|discriminate].
  destruct (FFNetwork_init_body sc (mkCaller v p)) as [r c'] eqn:E.
  intros [= -> <-]. exists sc, p.
  unfold FFNetwork_init_body in E.
  apply mbind_inr in E as (r & c0 & Hres & E).
  apply mbind_inr in E as (dims & c1 & Hfmt & E).
  exists c1, c', dims. repeat split; try assumption.
  - intros Hv. unfold resolve_input_dims in Hres. cbn in Hres.
    destruct v; try contradiction; injection Hres as <- <-;
      rewrite format_input_dims_arg in Hfmt; now injection Hfmt as <- _.
  - intros k Hk. unfold resolve_input_dims in Hres. cbn in Hres.
    destruct (is_None v).
    + unfold dict_get in Hres.
      destruct (p !! "input_dims") as [e|] eqn:He; [|discriminate].
      destruct (is_None e); [discriminate|]. injection Hres as <- <-.
      rewrite (format_input_dims_entry (mkCaller v p) e He) in Hfmt.
      injection Hfmt as _ <-. cbn.
      destruct e; try reflexivity. now apply lookup_insert_ne.
    + injection Hres as <- <-. rewrite format_input_dims_arg in Hfmt.
      now injection Hfmt as _ <-.
Qed.

(** The lengths that a successful construction establishes: one layer per
    declared size, and a [time_expand] at least that long. *)
Lemma FFNetwork_init_lengths scope v pd (net : FFNetwork Layer) out :
  FFNetwork_init scope v pd = (inr net, out) ->
  length (layers net) = num_layers net /\
  num_layers net <= length (time_expand net).
Proof.
  intros E.
  apply FFNetwork_init_inr in E as (sc & p & c1 & c' & dims & _ & _ & E & _).
  apply init_rest_inr in E
    as (n & types & d & spread & _ & _ & Hdef & _ & -> & _ & -> & -> & _).
  apply define_network_inr in Hdef
    as (supplied & declared & _ & Hdecl & _ & Hlen & Hte & _).
  split; [exact Hlen|]. rewrite Hte.
  apply py_ints_length in Hdecl. rewrite Hdecl.
  destruct (Nat.ltb_spec (length supplied) n);
    [rewrite length_app, length_replicate|]; lia.
Qed.

End InitFacts.

(** ** Facts about [build_graph] *)

Section GraphFacts.

Context {R : Type} (zero one : R) (add mul : R -> R -> R).
Context {Layer : Type} `{LayerGraph R Layer}.

Local Abbreviation running := (running_input (R:=R)).

Lemma running_input_app inputs (built extra : list (BuildCall R * Tensor R)) i :
  i <= length built ->
  running inputs (built ++ extra) i = running inputs built i.
Proof.
  intros Hi. destruct i as [|j]; [reflexivity|]. cbn.
  now rewrite lookup_app_l by lia.
Qed.

Lemma building_inv_step self inputs params_dict batch_size use_dropout k
    (s s' : Built R) :
  building_inv zero one add mul self inputs params_dict batch_size use_dropout k s ->
  build_layer zero one add mul self params_dict batch_size use_dropout k s
  = inr s' ->
  building_inv zero one add mul self inputs params_dict batch_size use_dropout (S k) s'.
Proof.
  destruct s as [cur built]. intros (Hlen & Hcur & Hbuilt) E.
  cbn [fst snd] in *. unfold build_layer in E.
  apply res_bind_inr in E as (lags & Hlags & E).
  apply res_bind_inr in E as (l & Hl & E).
  apply res_bind_inr in E as (call & Hcall & E).
  apply res_bind_inr in E as (outputs & Hout & [= <-]).
  apply list_get_inr in Hlags, Hl.
  unfold building_inv. cbn [fst snd].
  split; [rewrite length_app; cbn; lia|]. split.
  { cbn. now rewrite list_lookup_middle. }
  intros i call' outputs' Hi.
  apply lookup_snoc_Some in Hi as [(Hi & Hi')|(-> & [= <- <-])].
  - destruct (Hbuilt i call' outputs' Hi')
      as (lags' & l' & x & ? & ? & Hx & ? & ?).
    exists lags', l', x. rewrite running_input_app by lia. auto.
  - exists lags, l, cur. rewrite Hlen, running_input_app by lia. auto.
Qed.

(** Every call of a successful [build_graph], layer by layer. *)
Lemma build_graph_calls self inputs params_dict batch_size use_dropout built :
  FFNetwork_build_graph zero one add mul self inputs params_dict batch_size
    use_dropout = inr built ->
  length built = num_layers self /\
  forall i call outputs,
    built !! i = Some (call, outputs) ->
    exists lags l x,
      time_expand self !! i = Some lags /\
      layers self !! i = Some l /\
      running inputs built i = Some x /\
      layer_call zero one add mul lags x params_dict batch_size use_dropout
      = inr call /\
      layer_build_graph l call = inr outputs.
Proof.
  unfold FFNetwork_build_graph. intros E.
  apply res_bind_inr in E as (s & Hloop & [= <-]).
  assert (Hinv : building_inv zero one add mul self inputs params_dict batch_size use_dropout
                   (0 + num_layers self) s).
  { eapply (for_range_seq_inv
              (building_inv zero one add mul self inputs params_dict batch_size use_dropout));
      [| |exact Hloop].
    - intros i s1 s2 _. apply building_inv_step.
    - unfold building_inv. cbn. repeat split; auto.
      intros i call outputs Hi. now rewrite lookup_nil in Hi. }
  destruct Hinv as (Hlen & _ & Hcalls). auto.
Qed.

(** A layer whose lag count is not positive receives the running input as
    it is, together with the batch size. *)
Lemma build_graph_no_embedding self inputs params_dict batch_size use_dropout
    built i lags :
  FFNetwork_build_graph zero one add mul self inputs params_dict batch_size
    use_dropout = inr built ->
  i < num_layers self ->
  time_expand self !! i = Some lags ->
  (lags <= 0)%Z ->
  exists x outputs,
    running inputs built i = Some x /\
    built !! i = Some (mkBuild x params_dict batch_size use_dropout, outputs).
Proof.
  intros E Hi Hlags Hle.
  apply build_graph_calls in E as (Hlen & Hcalls).
  destruct (lookup_lt_is_Some_2 built i) as ((call & outputs) & Hb); [lia|].
  destruct (Hcalls i call outputs Hb)
    as (lags' & l & x & Hlags' & _ & Hx & Hcall & _).
  rewrite Hlags in Hlags'. injection Hlags' as <-.
  unfold layer_call in Hcall.
  destruct (Z.ltb_spec 0 lags); [lia|]. injection Hcall as <-.
  eauto.
Qed.

End GraphFacts.

(** * The claims *)

(** ** C1 *)



(** ** C4 *)

(** C4.  In every network that the constructor returns, the [time_expand]
    entry of a layer of kind ['temporal'] or ['sp_temporal'] is 0, whatever
    lag count was declared for it; consequently a successful [build_graph]
    calls that layer with the running input itself: the network-level time
    embedding is not applied to it. *)
Theorem C4_temporal_lag_is_cancelled
    {Layer : Type} `{LayerFactory Layer}
    {R : Type} (zero one : R) (add mul : R -> R -> R) `{LayerGraph R Layer}
    scope input_dims params_dict (net : FFNetwork Layer) i kind :
  fst (FFNetwork_init scope input_dims params_dict) = inr net ->
  i < num_layers net ->
  py_getitem (layer_types net) i = inr kind ->
  kind = VStr "temporal" \/ kind = VStr "sp_temporal" ->
  time_expand net !! i = Some 0%Z /\
  forall inputs params batch_size use_dropout built,
    FFNetwork_build_graph zero one add mul net inputs params batch_size
      use_dropout = inr built ->
    exists x outputs,
      running_input inputs built i = Some x /\
      built !! i = Some (mkBuild x params batch_size use_dropout, outputs).
Proof.
  intros E Hi Hkind Htemporal.
  assert (Hzero : time_expand net !! i = Some 0%Z).
  { apply fst_inr_pair in E.
    apply FFNetwork_init_inr in E as (sc & p & c1 & c' & dims & _ & _ & E & _).
    apply init_rest_inr in E
      as (n & types & d & spread & _ & _ & Hdef & _ & <- & <- & _ & -> & _).
    apply define_network_inr in Hdef
      as (supplied & declared & _ & _ & _ & _ & _ & Hdone & _).
    rewrite (Hdone i kind Hi Hkind).
    now destruct Htemporal as [-> | ->]. }
  split; [exact Hzero|].
  intros inputs params batch_size use_dropout built Hbuilt.
  eapply build_graph_no_embedding; eauto. lia.
Qed.

Lemma C4_witness :
  fst (FFNetwork_init (Layer:=LayerCall) (Some "net") (VInt 2)
         (Some example_temporal_params)) = inr example_temporal_network /\
  time_expand example_temporal_network !! 1 = Some 0%Z.
Proof.
  assert (E : fst (FFNetwork_init (Layer:=LayerCall) (Some "net") (VInt 2)
                     (Some example_temporal_params))
              = inr example_temporal_network)
    by (vm_compute; reflexivity).
  split; [exact E|].
  refine (proj1 (C4_temporal_lag_is_cancelled 0%Z 1%Z Z.add Z.mul
                   (Some "net") (VInt 2) (Some example_temporal_params)
                   example_temporal_network 1 (VStr "temporal") E _ _ _)).
  - vm_compute. lia.
  - reflexivity.
  - left. reflexivity.
Defined.

(** ** C6 *)



(** ** C8 *)

(** C8.  A caller who supplies two [time_expand] entries for one layer gets a
    network with one layer, one layer type and two [time_expand] entries:
    [_define_network] pads a list that is too short and keeps one that is too
    long. *)
Theorem C8_longer_time_expand_is_kept :
  exists net,
    fst (FFNetwork_init (Layer:=LayerCall) (Some "net") (VInt 10)
           (Some example_long_time_expand)) = inr net /\
    length (layers net) = 1 /\
    py_len (layer_types net) = inr 1 /\
    length (time_expand net) = 2.
Proof.
  eexists. split; [vm_compute; reflexivity|].
  repeat split.
Qed.

(** ** C10 *)

Section InputDimsFacts.

Context {Layer : Type} `{LayerFactory Layer}.

Lemma lag_suffix_cases declared :
  lag_suffix declared = [] \/
  exists lag, (0 < lag)%Z /\ lag_suffix declared = [VInt lag].
Proof.
  destruct declared as [|first rest]; [now left|]. cbn.
  destruct (Z.ltb_spec 0 first); [right; eauto|now left].
Qed.

Lemma lag_suffix_zeros n : lag_suffix (replicate n 0%Z) = [].
Proof. now destruct n. Qed.

(** The [input_dims] of a constructed network: the normalised argument,
    followed by the lag count of the first layer when that is positive (the
    first element of [layer_sizes] is [self.input_dims] itself, and [+=]
    extends it in place). *)
Lemma FFNetwork_init_input_dims scope v p (net : FFNetwork Layer) :
  v <> VNone ->
  fst (FFNetwork_init (Some scope) v (Some p)) = inr net ->
  exists suffix,
    input_dims net = formatted v ++ suffix /\
    (suffix = [] \/ exists lag, (0 < lag)%Z /\ suffix = [VInt lag]) /\
    (p !! "time_expand" = None -> suffix = []).
Proof.
  intros Hv E. apply fst_inr_pair in E.
  apply FFNetwork_init_inr in E
    as (sc & p0 & c1 & c' & dims & _ & [= <-] & E & _ & Hdims & Hframe).
  rewrite (Hdims Hv) in E. clear Hdims.
  apply init_rest_inr in E
    as (n & types & d & spread & _ & _ & Hdef & -> & _ & _ & _ & _ & _ & _ & Hte).
  rewrite Hframe in Hte by discriminate.
  apply define_network_inr in Hdef
    as (supplied & declared & Hsup & Hdecl & _ & _ & _ & _ & _ & H0 & Hpos).
  rewrite Hte in Hsup.
  destruct n as [|n].
  - exists []. rewrite app_nil_r. destruct (H0 eq_refl) as (_ & ->). auto.
  - exists (lag_suffix declared). split; [apply Hpos; lia|].
    split; [apply lag_suffix_cases|].
    intros Hnone. rewrite Hnone in Hsup. cbn [default from_option] in Hsup.
    injection Hsup as Hs.
    change (replicate (S n) (VInt 0) = supplied) in Hs. subst supplied.
    rewrite length_replicate, Nat.ltb_irrefl in Hdecl.
    rewrite <- (fmap_replicate VInt) in Hdecl.
    change (VInt <$> replicate (S n) 0%Z)
      with (map VInt (replicate (S n) 0%Z)) in Hdecl.
    rewrite py_ints_map_VInt in Hdecl. injection Hdecl as <-.
    apply (lag_suffix_zeros (S n)).
Qed.

End InputDimsFacts.

(** What the constructor stores for an integer and for a short list: the
    normalised argument, followed by the lag count of the first layer when
    that is positive.  The normalised argument is the whole of the stored
    list when the caller declares no [time_expand]. *)
Lemma FFNetwork_init_scalar_and_list_input_dims
    {Layer : Type} `{LayerFactory Layer} scope p (net : FFNetwork Layer) :
  (forall n,
      fst (FFNetwork_init (Some scope) (VInt n) (Some p)) = inr net ->
      exists suffix,
        input_dims net = [VInt 1; VInt n; VInt 1] ++ suffix /\
        (suffix = [] \/ exists lag, (0 < lag)%Z /\ suffix = [VInt lag]) /\
        (p !! "time_expand" = None -> suffix = [])) /\
  (forall l,
      length l < 3 ->
      fst (FFNetwork_init (Some scope) (VList l) (Some p)) = inr net ->
      exists suffix,
        input_dims net = (l ++ replicate (3 - length l) (VInt 1)) ++ suffix /\
        (suffix = [] \/ exists lag, (0 < lag)%Z /\ suffix = [VInt lag]) /\
        (p !! "time_expand" = None -> suffix = [])).
Proof.
  split.
  - intros n E.
    apply (FFNetwork_init_input_dims scope (VInt n) p net); [discriminate|exact E].
  - intros l _ E.
    destruct (FFNetwork_init_input_dims scope (VList l) p net
                ltac:(discriminate) E) as (suffix & Hd & Hs).
    exists suffix. cbn [formatted] in Hd. rewrite pad_in_place_eq in Hd. auto.
Qed.

(** C10.  The integer 5 given as [input_dims], with a first layer that is fed
    two lags, is stored as [[1, 5, 1, 2]], and the list [[5]] as
    [[5, 1, 1, 2]]: the stored list has four entries, not the three of
    [[1, 5, 1]] and [[5, 1, 1]].  The caller's own list is padded to
    [[5, 1, 1]] and no further: the fourth entry is written to the copy that
    the network keeps, through [layer_sizes[0]].  Without the lag the same
    inputs are stored as [[1, 5, 1]] and [[5, 1, 1]]. *)
Theorem C10_first_lag_is_stored_in_input_dims :
  (exists net,
      fst (FFNetwork_init (Layer:=LayerCall) (Some "net") (VInt 5)
             (Some example_first_lag_params)) = inr net /\
      input_dims net = [VInt 1; VInt 5; VInt 1; VInt 2] /\
      time_expand net = [2%Z]) /\
  (exists net,
      fst (FFNetwork_init (Layer:=LayerCall) (Some "net") (ints [5]%Z)
             (Some example_first_lag_params)) = inr net /\
      input_dims net = [VInt 5; VInt 1; VInt 1; VInt 2] /\
      fst (snd (FFNetwork_init (Layer:=LayerCall) (Some "net") (ints [5]%Z)
                  (Some example_first_lag_params)))
      = ints [5; 1; 1]%Z) /\
  (exists net,
      fst (FFNetwork_init (Layer:=LayerCall) (Some "net") (VInt 5)
             (Some example_single_params)) = inr net /\
      input_dims net = [VInt 1; VInt 5; VInt 1]) /\
  (exists net,
      fst (FFNetwork_init (Layer:=LayerCall) (Some "net") (ints [5]%Z)
             (Some example_single_params)) = inr net /\
      input_dims net = [VInt 5; VInt 1; VInt 1]).
Proof.
  split; [|split; [|split]].
  - eexists. split; [vm_compute; reflexivity|]. split; reflexivity.
  - eexists. split; [vm_compute; reflexivity|].
    split; [reflexivity|vm_compute; reflexivity].
  - eexists. split; [vm_compute; reflexivity|reflexivity].
  - eexists. split; [vm_compute; reflexivity|reflexivity].
Qed.

(** ** C9 *)

Section RegularizationFacts.

Context {R : Type} (zero : R) (add : R -> R -> R).
Context {Layer : Type} `{LayerGraph R Layer}.




End RegularizationFacts.



(** ** C7 *)

(** C7, counterexample.  The caller passes the list [[5]] and a dictionary
    without [activation_funcs]; when the constructor returns, the caller's
    list is [[5, 1, 1]] and the caller's dictionary holds
    [activation_funcs = ['relu']]. *)
Lemma C7_counterexample_caller_objects_rewritten :
  fst (snd (FFNetwork_init (Layer:=LayerCall) (Some "net") (ints [5]%Z)
              (Some example_single_params)))
  = ints [5; 1; 1]%Z /\
  ints [5; 1; 1]%Z <> ints [5]%Z /\
  example_single_params !! "activation_funcs" = None /\
  snd (snd (FFNetwork_init (Layer:=LayerCall) (Some "net") (ints [5]%Z)
              (Some example_single_params)))
    ≫= (fun q => q !! "activation_funcs")
  = Some (strs ["relu"]).
Proof.
  split; [vm_compute; reflexivity|].
  split; [discriminate|].
  split; vm_compute; reflexivity.
Qed.

Section FrameFacts.

Context {Layer : Type} `{LayerFactory Layer}.

(** What [__init__] does to the caller's objects, whether it returns or
    raises. *)
Lemma init_body_frame scope v p :
  let c' := snd (FFNetwork_init_body (Layer:=Layer) scope (mkCaller v p)) in
  arg_input_dims c' = padded_object v /\
  (forall key, ~ In key ("input_dims" :: option_keys) ->
     arg_params c' !! key = p !! key) /\
  (v <> VNone -> arg_params c' !! "input_dims" = p !! "input_dims") /\
  (v = VNone ->
   arg_params c' !! "input_dims" = padded_object <$> p !! "input_dims").
Proof.
  assert (Hrest : forall dims c,
             arg_input_dims (snd (FFNetwork_init_rest (Layer:=Layer) scope dims c))
             = arg_input_dims c /\
             forall key, ~ In key option_keys ->
               arg_params (snd (FFNetwork_init_rest (Layer:=Layer) scope dims c))
                 !! key = arg_params c !! key).
  { intros dims c. destruct (writes_only_init_rest scope dims c) as (Hd & Hp).
    split; [exact Hd|]. intros key Hkey. apply Hp.
    now rewrite list_elem_of_In. }
  assert (Hnot : ~ In "input_dims" option_keys).
  { cbn. intuition discriminate. }
  cbv zeta.
  assert (Hcase : v = VNone \/ v <> VNone)
    by (destruct v; first [now left | right; discriminate]).
  destruct Hcase as [->|Hv].
  - unfold FFNetwork_init_body.
    destruct (p !! "input_dims") as [entry|] eqn:Hx.
    + destruct (is_None entry) eqn:Hn.
      * rewrite (mbind_raise _ _ _ (TypeError "Must specify input dimensions.")
                   (mkCaller VNone p));
          [|unfold resolve_input_dims, dict_get; cbn; now rewrite Hx, Hn].
        cbn. repeat split; auto.
        intros _. rewrite Hx.
        destruct entry; cbn in Hn; try discriminate; reflexivity.
      * rewrite (mbind_run _ _ _ DictEntry (mkCaller VNone p))
          by (unfold resolve_input_dims, dict_get; cbn; now rewrite Hx, Hn).
        rewrite (mbind_run _ _ _ _ _
                   (format_input_dims_entry (mkCaller VNone p) entry Hx)).
        destruct (Hrest (formatted entry)
                    (mkCaller VNone
                       match entry with
                       | VList l => <["input_dims" := VList (pad_in_place l)]> p
                       | _ => p
                       end)) as (Hd & Hp).
        cbn [arg_input_dims arg_params] in *.
        split; [exact Hd|]. split; [|split; [congruence|]].
        -- intros key Hkey. rewrite Hp by (cbn in *; tauto).
           destruct entry; try reflexivity.
           apply lookup_insert_ne. cbn in Hkey. intuition congruence.
        -- intros _. rewrite Hp by exact Hnot.
           destruct entry; try exact Hx.
           apply lookup_insert_eq.
    + rewrite (mbind_raise _ _ _ (KeyError "input_dims") (mkCaller VNone p));
        [|unfold resolve_input_dims, dict_get; cbn; now rewrite Hx].
      cbn. repeat split; auto.
  - rewrite init_body_arg by assumption.
    destruct (Hrest (formatted v) (mkCaller (padded_object v) p)) as (Hd & Hp).
    cbn [arg_input_dims arg_params] in *.
    split; [exact Hd|]. split; [|split].
    + intros key Hkey. apply Hp. cbn in *. tauto.
    + intros _. now apply Hp.
    + intros ->. congruence.
Qed.

End FrameFacts.

(** ** C5 *)

(** C5, counterexample.  Given the single-element list [[image]],
    [SamplerNetwork.build_graph] raises nothing: it takes the element as the
    image and the owned variable as the locations, and builds the layer. *)
Lemma C5_counterexample_single_element_list_accepted :
  resolve_inputs (define_sampler_variables example_sampler)
    (TensorList [Some example_batch])
  = inr (Some example_batch, example_locations,
         define_sampler_variables example_sampler) /\
  exists built,
    fst (SamplerNetwork_build_graph 0%Z 1%Z Z.add Z.mul example_sampler
           (TensorList [Some example_batch]) VNone (Some 3) false)
    = inr built.
Proof.
  split; [reflexivity|].
  eexists. vm_compute. reflexivity.
Qed.

(** C5, as amended.  [SamplerNetwork.build_graph] takes a single tensor, a
    one-element list [[image]] or a two-element list [[image, locations]].
    With a single tensor, with [[image]] and with [[image, None]] the
    locations are the owned variable, which the call has just created from
    the network's location array; with [[image, locations]] they are the
    given locations, which the object keeps as [locations_var] when the call
    ends.  For the empty list and for every list of more than two elements
    the call raises the [TypeError] "Incorrect input shape in
    SamplerNetwork.", which is the error the spec calls
    InvalidConfiguration. *)
Theorem C5_sampler_build_inputs
    {R : Type} (zero one : R) (add mul : R -> R -> R)
    {Layer : Type} `{LayerGraph R Layer} (self : SamplerNetwork R Layer) :
  (forall array,
      locations self = Some array ->
      let owned := define_sampler_variables self in
      locations_var owned = Some array /\
      (forall image,
          resolve_inputs owned (OneTensor image)
          = inr (Some image, array, owned)) /\
      (forall image,
          resolve_inputs owned (TensorList [image])
          = inr (image, array, owned)) /\
      (forall image,
          resolve_inputs owned (TensorList [image; None])
          = inr (image, array, owned))) /\
  (forall image explicit params_dict batch_size use_dropout,
      (exists after,
          resolve_inputs (define_sampler_variables self)
            (TensorList [image; Some explicit])
          = inr (image, explicit, after)) /\
      locations_var
        (snd (SamplerNetwork_build_graph zero one add mul self
                (TensorList [image; Some explicit]) params_dict batch_size
                use_dropout))
      = Some explicit) /\
  (forall l params_dict batch_size use_dropout,
      length l <> 1 -> length l <> 2 ->
      fst (SamplerNetwork_build_graph zero one add mul self (TensorList l)
             params_dict batch_size use_dropout)
      = inl (TypeError "Incorrect input shape in SamplerNetwork.")).
Proof.
  split; [|split].
  - intros array Harray. cbv zeta.
    unfold define_sampler_variables. rewrite Harray.
    unfold resolve_inputs, get_locations_var. cbn. auto.
  - intros image explicit params_dict batch_size use_dropout. split.
    + eexists. reflexivity.
    + unfold SamplerNetwork_build_graph. cbn. reflexivity.
  - intros l params_dict batch_size use_dropout H1 H2.
    unfold SamplerNetwork_build_graph.
    destruct l as [|a [|b [|c l]]]; cbn in H1, H2; try lia; reflexivity.
Qed.

Lemma C5_witness :
  resolve_inputs (define_sampler_variables example_sampler)
    (TensorList [Some example_batch; None])
  = inr (Some example_batch, example_locations,
         define_sampler_variables example_sampler) /\
  fst (SamplerNetwork_build_graph 0%Z 1%Z Z.add Z.mul example_sampler
         (TensorList [Some example_batch; None; None]) VNone (Some 3) false)
  = inl (TypeError "Incorrect input shape in SamplerNetwork.").
Proof.
  destruct (C5_sampler_build_inputs 0%Z 1%Z Z.add Z.mul example_sampler)
    as (Howned & _ & Hother).
  split.
  - destruct (Howned example_locations eq_refl) as (_ & _ & _ & Hnone).
    apply Hnone.
  - apply Hother; simpl; lia.
Defined.

(** ** C3 *)

(** C3, counterexample.  With filter width 3, a ['convsep'] layer and a
    ['convLNL'] layer whose input is [[2, 5, 5, 2]] (two channels, two lags)
    are given the filter shape [[2, 3, 3]], not [[2 * 2, 3, 3]]; and a
    ['conv_xy'] layer whose input is [[2, 5, 1]] (a single row, no lags) is
    given [[2, 3, 3]], not [[2, 3, 1]]. *)
Lemma C3_counterexample_kinds_that_differ :
  (first_layer_kwarg
     (fst (FFNetwork_init (Some "net") (ints [2; 5; 5]%Z)
             (Some (example_filter_params "convsep" 2)))) "input_dims"
   = Some (ints [2; 5; 5; 2]%Z) /\
   first_layer_kwarg
     (fst (FFNetwork_init (Some "net") (ints [2; 5; 5]%Z)
             (Some (example_filter_params "convsep" 2)))) "filter_dims"
   = Some (ints [2; 3; 3]%Z) /\
   ints [2; 3; 3]%Z <> ints [2 * list_prod [2]; 3; 3]%Z) /\
  (first_layer_kwarg
     (fst (FFNetwork_init (Some "net") (ints [2; 5; 5]%Z)
             (Some (example_filter_params "convLNL" 2)))) "input_dims"
   = Some (ints [2; 5; 5; 2]%Z) /\
   first_layer_kwarg
     (fst (FFNetwork_init (Some "net") (ints [2; 5; 5]%Z)
             (Some (example_filter_params "convLNL" 2)))) "filter_dims"
   = Some (ints [2; 3; 3]%Z) /\
   ints [2; 3; 3]%Z <> ints [2 * list_prod [2]; 3; 3]%Z) /\
  (first_layer_kwarg
     (fst (FFNetwork_init (Some "net") (ints [2; 5; 1]%Z)
             (Some (example_filter_params "conv_xy" 0)))) "input_dims"
   = Some (ints [2; 5; 1]%Z) /\
   first_layer_kwarg
     (fst (FFNetwork_init (Some "net") (ints [2; 5; 1]%Z)
             (Some (example_filter_params "conv_xy" 0)))) "filter_dims"
   = Some (ints [2; 3; 3]%Z) /\
   ints [2; 3; 3]%Z <> ints [2 * list_prod []; 3; 1]%Z).
Proof.
  repeat split; first [vm_compute; reflexivity | discriminate].
Qed.

(** The three derivations of [conv_filter_size] on an input of [c] channels,
    spatial extent [x] by [h] and trailing lag extents [lags], for a filter
    width that is given and for one that is [None]. *)
Lemma conv_filter_size_ints (c x h : Z) (lags : list Z) (width : PyVal) :
  let input := ints (c :: x :: h :: lags) in
  (width <> VNone ->
   conv_filter_size_lagged input width
   = inr (VList [VInt (c * list_prod lags); width;
                 if (1 <? h)%Z then width else VInt 1]) /\
   conv_filter_size_plain input width
   = inr (VList [VInt c; width; if (1 <? h)%Z then width else VInt 1]) /\
   conv_filter_size_xy input width = inr (VList [VInt c; width; width])) /\
  conv_filter_size_lagged input VNone = inr input /\
  conv_filter_size_plain input VNone = inr input /\
  conv_filter_size_xy input VNone = inr input.
Proof.
  cbv zeta. split; [|repeat split].
  intros Hw.
  assert (Hnone : is_None width = false)
    by (destruct width; first [reflexivity | congruence]).
  unfold conv_filter_size_lagged, conv_filter_size_plain, conv_filter_size_xy.
  rewrite Hnone. split; [|split; reflexivity].
  unfold ints. cbn [py_len length map].
  destruct lags as [|lag lags].
  - cbn. now rewrite Z.mul_1_r.
  - cbn [Nat.ltb Nat.leb]. cbn [res_bind py_getitem lookup list_lookup drop].
    cbn [map length]. rewrite drop_0.
    change (VInt lag :: map VInt lags) with (map VInt (lag :: lags)).
    rewrite py_ints_map_VInt. reflexivity.
Qed.

(** ** C2 *)


Section SideFacts.






End SideFacts.




(** * Further properties *)

(** ** The normalisation of the dictionary, step by step *)

Lemma broadcast_option_run key dflt msg n c :
  (forall l, default dflt (arg_params c !! key) = VList l -> length l = n) ->
  broadcast_option key dflt msg n c
  = (inr tt, mkCaller (arg_input_dims c) (broadcast_key key dflt n (arg_params c))).
Proof.
  intros Hlen. unfold broadcast_option, broadcast_key, broadcast_value.
  rewrite (mbind_run _ _ c _ c) by apply has_key_run.
  destruct c as [a p]. cbn [arg_params arg_input_dims] in *.
  destruct (p !! key) as [v|] eqn:E; cbn [default from_option] in *.
  - rewrite bool_decide_eq_true_2 by eauto.
    rewrite (mbind_run _ _ _ tt (mkCaller a p)) by reflexivity.
    rewrite (mbind_run _ _ _ v (mkCaller a p)) by now apply read_key_run.
    destruct v as [| | | |l0|]; try reflexivity.
    rewrite (Hlen l0 eq_refl), Nat.eqb_refl. cbn.
    now rewrite insert_id.
  - rewrite bool_decide_eq_false_2 by (intros [? ?]; discriminate).
    rewrite (mbind_run _ _ _ tt (mkCaller a (<[key := dflt]> p)))
      by reflexivity.
    rewrite (mbind_run _ _ _ dflt (mkCaller a (<[key := dflt]> p)))
      by (apply read_key_run; cbn; apply lookup_insert_eq).
    destruct dflt as [| | | |l0|]; cbn;
      try (unfold write_key; cbn; now rewrite insert_insert_eq).
    rewrite (Hlen l0 eq_refl), Nat.eqb_refl. reflexivity.
Qed.

Lemma default_option_run key dflt c :
  default_option key dflt c
  = (inr tt, mkCaller (arg_input_dims c) (default_key key dflt (arg_params c))).
Proof.
  unfold default_option, default_key.
  rewrite (mbind_run _ _ c _ c) by apply has_key_run.
  destruct c as [a p]. cbn [arg_params arg_input_dims].
  destruct (p !! key) as [v|] eqn:E; cbn [default from_option].
  - rewrite bool_decide_eq_true_2 by eauto. cbn. now rewrite insert_id.
  - rewrite bool_decide_eq_false_2 by (intros [? ?]; discriminate).
    reflexivity.
Qed.

(** A step of the normalisation looks at its own key only. *)
Lemma broadcast_key_lookup_ne key dflt n p k :
  k <> key -> broadcast_key key dflt n p !! k = p !! k.
Proof. intros Hk. unfold broadcast_key. now rewrite lookup_insert_ne. Qed.

Lemma default_key_lookup_ne key dflt p k :
  k <> key -> default_key key dflt p !! k = p !! k.
Proof. intros Hk. unfold default_key. now rewrite lookup_insert_ne. Qed.

Lemma broadcast_key_lookup key dflt n p :
  broadcast_key key dflt n p !! key
  = Some (broadcast_value n dflt (p !! key)).
Proof. unfold broadcast_key. apply lookup_insert_eq. Qed.

Lemma default_key_lookup key dflt p :
  default_key key dflt p !! key = Some (default dflt (p !! key)).
Proof. unfold default_key. apply lookup_insert_eq. Qed.

#[local] Ltac other_key :=
  repeat first [ rewrite broadcast_key_lookup_ne by discriminate
               | rewrite default_key_lookup_ne by discriminate ].

Section InitRun.

Context {Layer : Type} `{LayerFactory Layer}.

(** [__init__] from line 126 on, for a dictionary that holds [layer_sizes]
    and [layer_types] and no checked list of a wrong length: the constructor
    leaves the normalised dictionary, and returns what [_define_network]
    makes of it. *)
Lemma init_rest_run scope dims c sizes n types :
  arg_params c !! "layer_sizes" = Some sizes ->
  py_len sizes = inr n ->
  arg_params c !! "layer_types" = Some types ->
  lengths_ok n (arg_params c) ->
  FFNetwork_init_rest (Layer:=Layer) scope dims c
  = (res_bind
       (FFNetwork_define_network (normalised n (arg_params c)) dims n types)
       (fun r =>
          inr (mkFFNetwork scope (self_input_dims (fst r)) n types
                 (replicate n VNone) (self_layers (fst r))
                 (self_time_expand (fst r)) (snd r)
                 (py_truthy
                    (default (VBool false)
                       (arg_params c !! "log_activations"))))),
     mkCaller (arg_input_dims c) (normalised n (arg_params c))).
Proof.
  intros Hsizes Hlen Htypes Hok.
  destruct c as [a p]. cbn [arg_params arg_input_dims] in *.
  assert (Hside : forall key dflt (q : gmap string PyVal),
             In key checked_keys ->
             (forall l, dflt <> VList l) ->
             q !! key = p !! key ->
             forall l, default dflt (q !! key) = VList l -> length l = n).
  { intros key dflt q Hkey Hd Hq l. rewrite Hq.
    destruct (p !! key) as [v|] eqn:E; cbn.
    - intros ->. now apply (Hok key).
    - intros ->. now destruct (Hd l). }
  unfold FFNetwork_init_rest.
  rewrite (mbind_run _ _ _ true (mkCaller a p))
    by (rewrite has_key_run; cbn; now rewrite Hsizes).
  rewrite (mbind_run _ _ _ tt (mkCaller a p)) by reflexivity.
  rewrite (mbind_run _ _ _ sizes (mkCaller a p)) by now apply read_key_run.
  rewrite (mbind_run _ _ _ n (mkCaller a p)) by (unfold lift; now rewrite Hlen).
  rewrite (mbind_run _ _ _ types (mkCaller a p)) by now apply read_key_run.
  cbv zeta.
  repeat
    first
      [ erewrite (mbind_run _ _ _ tt);
        [|apply broadcast_option_run; cbn [arg_params];
          apply Hside; [cbn; tauto|discriminate|now other_key]];
        cbn [arg_params arg_input_dims]
      | erewrite (mbind_run _ _ _ tt) by apply default_option_run;
        cbn [arg_params arg_input_dims] ].
  fold (normalised n p).
  rewrite (mbind_run _ _ _ (normalised n p) (mkCaller a (normalised n p)))
    by reflexivity.
  unfold lift.
  destruct (FFNetwork_define_network (normalised n p) dims n types)
    as [e|[d spread]] eqn:Hdef.
  - now rewrite (mbind_raise _ _ _ e (mkCaller a (normalised n p))).
  - rewrite (mbind_run _ _ _ (d, spread) (mkCaller a (normalised n p)))
      by reflexivity.
    rewrite (mbind_run _ _ _ (default (VBool false) (p !! "log_activations"))
               (mkCaller a (normalised n p))).
    + reflexivity.
    + apply read_key_run. cbn [arg_params]. unfold normalised.
      rewrite default_key_lookup. now other_key.
Qed.

End InitRun.

(** ** The normalised dictionary *)

Lemma normalised_other n p k :
  ~ In k option_keys -> normalised n p !! k = p !! k.
Proof.
  intros Hk. unfold normalised.
  repeat first
    [ rewrite broadcast_key_lookup_ne by (intros ->; apply Hk; cbn; auto 10)
    | rewrite default_key_lookup_ne by (intros ->; apply Hk; cbn; auto 10) ].
  reflexivity.
Qed.

Lemma normalised_entries n p :
  normalised n p !! "activation_funcs"
  = Some (broadcast_value n (VStr "relu") (p !! "activation_funcs")) /\
  normalised n p !! "weights_initializers"
  = Some (broadcast_value n (VStr "trunc_normal")
            (p !! "weights_initializers")) /\
  normalised n p !! "biases_initializers"
  = Some (broadcast_value n (VStr "zeros") (p !! "biases_initializers")) /\
  normalised n p !! "reg_initializers"
  = Some (default (VList (replicate n VNone)) (p !! "reg_initializers")) /\
  normalised n p !! "num_inh"
  = Some (broadcast_value n (VInt 0) (p !! "num_inh")) /\
  normalised n p !! "pos_constraints"
  = Some (broadcast_value n (VBool false) (p !! "pos_constraints")) /\
  normalised n p !! "time_expand"
  = Some (default (VList (replicate n (VInt 0))) (p !! "time_expand")) /\
  normalised n p !! "log_activations"
  = Some (default (VBool false) (p !! "log_activations")).
Proof.
  unfold normalised.
  repeat split;
    repeat first [ rewrite broadcast_key_lookup_ne by discriminate
                 | rewrite default_key_lookup_ne by discriminate ];
    first [ rewrite broadcast_key_lookup | rewrite default_key_lookup ];
    now other_key.
Qed.

Lemma broadcast_value_list n dflt entry :
  exists l, broadcast_value n dflt entry = VList l.
Proof. unfold broadcast_value. destruct (default dflt entry); eauto. Qed.

Lemma broadcast_value_idem n dflt dflt' entry :
  broadcast_value n dflt' (Some (broadcast_value n dflt entry))
  = broadcast_value n dflt entry.
Proof.
  destruct (broadcast_value_list n dflt entry) as (l & ->). reflexivity.
Qed.

(** Normalising a normalised dictionary changes nothing. *)
Lemma normalised_idem n p : normalised n (normalised n p) = normalised n p.
Proof.
  apply map_eq. intros k.
  destruct (normalised_entries n p)
    as (E1 & E2 & E3 & E4 & E5 & E6 & E7 & E8).
  destruct (normalised_entries n (normalised n p))
    as (F1 & F2 & F3 & F4 & F5 & F6 & F7 & F8).
  rewrite E1 in F1. rewrite E2 in F2. rewrite E3 in F3. rewrite E4 in F4.
  rewrite E5 in F5. rewrite E6 in F6. rewrite E7 in F7. rewrite E8 in F8.
  rewrite broadcast_value_idem in F1, F2, F3, F5, F6.
  destruct (decide (In k option_keys)) as [Hin|Hout].
  - cbn in Hin.
    destruct Hin as [<-|[<-|[<-|[<-|[<-|[<-|[<-|[<-|[]]]]]]]]];
      first [ congruence
            | rewrite ?F4, ?F7, ?F8, ?E4, ?E7, ?E8; reflexivity ].
  - now rewrite !normalised_other.
Qed.

Lemma normalised_lengths_ok n p : lengths_ok n p -> lengths_ok n (normalised n p).
Proof.
  intros Hok key l Hkey Hl.
  destruct (normalised_entries n p)
    as (E1 & E2 & E3 & E4 & E5 & E6 & E7 & E8).
  assert (Hbv : forall dflt, (forall l', dflt <> VList l') ->
            normalised n p !! key
            = Some (broadcast_value n dflt (p !! key)) ->
            length l = n).
  { intros dflt Hd E. rewrite E in Hl. injection Hl as Hl.
    unfold broadcast_value in Hl.
    destruct (p !! key) as [v|] eqn:Hp; cbn in Hl.
    - destruct v; try (injection Hl as <-; apply length_replicate).
      injection Hl as <-. now apply (Hok key).
    - destruct dflt; try (injection Hl as <-; apply length_replicate).
      now destruct (Hd l0). }
  cbn in Hkey.
  destruct Hkey as [<-|[<-|[<-|[<-|[<-|[]]]]]];
    eapply Hbv; try eassumption; discriminate.
Qed.

Section InitSuccess.

Context {Layer : Type} `{LayerFactory Layer}.

(** The four ways in which [__init__] reaches, or does not reach,
    line 126. *)
Lemma init_body_cases scope v p :
  (v <> VNone /\
   FFNetwork_init_body (Layer:=Layer) scope (mkCaller v p)
   = FFNetwork_init_rest scope (formatted v) (mkCaller (padded_object v) p)) \/
  (v = VNone /\ exists e,
     p !! "input_dims" = Some e /\ e <> VNone /\
     FFNetwork_init_body (Layer:=Layer) scope (mkCaller v p)
     = FFNetwork_init_rest scope (formatted e)
         (mkCaller VNone
            (match e with
             | VList l => <["input_dims" := VList (pad_in_place l)]> p
             | _ => p
             end))) \/
  (v = VNone /\ p !! "input_dims" = None /\
   FFNetwork_init_body (Layer:=Layer) scope (mkCaller v p)
   = (inl (KeyError "input_dims"), mkCaller VNone p)) \/
  (v = VNone /\ p !! "input_dims" = Some VNone /\
   FFNetwork_init_body (Layer:=Layer) scope (mkCaller v p)
   = (inl (TypeError "Must specify input dimensions."), mkCaller VNone p)).
Proof.
  assert (Hcase : v = VNone \/ v <> VNone)
    by (destruct v; first [now left | right; discriminate]).
  destruct Hcase as [->|Hv].
  - right. destruct (p !! "input_dims") as [e|] eqn:He.
    + assert (Hcase : e = VNone \/ e <> VNone)
        by (destruct e; first [now left | right; discriminate]).
      destruct Hcase as [->|Hne].
      * right. right. repeat split.
        unfold FFNetwork_init_body.
        apply mbind_raise. unfold resolve_input_dims, dict_get. cbn.
        now rewrite He.
      * left. split; [reflexivity|]. exists e. repeat split; try assumption.
        now apply init_body_entry.
    + right. left. repeat split.
      unfold FFNetwork_init_body.
      apply mbind_raise. unfold resolve_input_dims, dict_get. cbn.
      now rewrite He.
  - left. split; [assumption|]. now apply init_body_arg.
Qed.

(** A constructor that returns a network was given [layer_sizes] and
    [layer_types], and no checked list of a wrong length. *)
Lemma init_rest_success scope dims c (net : FFNetwork Layer) c' :
  FFNetwork_init_rest scope dims c = (inr net, c') ->
  exists sizes types,
    arg_params c !! "layer_sizes" = Some sizes /\
    py_len sizes = inr (num_layers net) /\
    arg_params c !! "layer_types" = Some types /\
    lengths_ok (num_layers net) (arg_params c).
Proof.
  intros E.
  pose proof E as E0.
  apply init_rest_inr in E
    as (n & types & d & spread & Htypes & (sizes & Hsizes & Hlen) & _ & _
        & Hn & _).
  subst n. exists sizes, types. repeat split; try assumption.
  intros key l Hkey Hl.
  destruct (Nat.eq_dec (length l) (num_layers net)) as [|Hne]; [assumption|].
  pose proof (init_rest_wrong_length scope dims c sizes (num_layers net)
                types key l Hsizes Hlen Htypes
                ltac:(now apply list_elem_of_In) Hl Hne) as Hraise.
  rewrite E0 in Hraise. discriminate.
Qed.

End InitSuccess.

(** ** Required inputs *)

(** X1.  What [FFNetwork.__init__] does when a required input is missing,
    in the order of its checks.  Without a dictionary it raises the
    [TypeError] "Must specify parameters dictionary.".  With [input_dims] left
    to the dictionary, a dictionary without that key raises a [KeyError], and
    one that holds [None] there raises the [TypeError] "Must specify input
    dimensions.".  With input dimensions, a dictionary without [layer_sizes]
    raises the [TypeError] "Must specify layer_sizes.", and one with
    [layer_sizes] but without [layer_types] raises a [KeyError].  In all these
    cases the dictionary is as the caller passed it; in the last two the
    caller's [input_dims] list has already been padded. *)
Theorem X1_required_inputs {Layer : Type} `{LayerFactory Layer} scope :
  (forall v,
      FFNetwork_init (Layer:=Layer) (Some scope) v None
      = (inl (TypeError "Must specify parameters dictionary."), (v, None))) /\
  (forall p,
      p !! "input_dims" = None ->
      FFNetwork_init (Layer:=Layer) (Some scope) VNone (Some p)
      = (inl (KeyError "input_dims"), (VNone, Some p))) /\
  (forall p,
      p !! "input_dims" = Some VNone ->
      FFNetwork_init (Layer:=Layer) (Some scope) VNone (Some p)
      = (inl (TypeError "Must specify input dimensions."), (VNone, Some p))) /\
  (forall v p,
      v <> VNone ->
      p !! "layer_sizes" = None ->
      FFNetwork_init (Layer:=Layer) (Some scope) v (Some p)
      = (inl (TypeError "Must specify layer_sizes."),
         (padded_object v, Some p))) /\
  (forall v p sizes n,
      v <> VNone ->
      p !! "layer_sizes" = Some sizes ->
      py_len sizes = inr n ->
      p !! "layer_types" = None ->
      FFNetwork_init (Layer:=Layer) (Some scope) v (Some p)
      = (inl (KeyError "layer_types"), (padded_object v, Some p))).
Proof.
  split; [reflexivity|].
  split; [|split; [|split]].
  - intros p Hp. unfold FFNetwork_init.
    destruct (init_body_cases scope VNone p)
      as [(Hv & _)|[(_ & e & He & _)|[(_ & _ & ->)|(_ & He & _)]]];
      try congruence. reflexivity.
  - intros p Hp. unfold FFNetwork_init.
    destruct (init_body_cases scope VNone p)
      as [(Hv & _)|[(_ & e & He & Hne & _)|[(_ & He & _)|(_ & _ & ->)]]];
      try congruence. reflexivity.
  - intros v p Hv Hsizes. unfold FFNetwork_init.
    rewrite init_body_arg by assumption.
    unfold FFNetwork_init_rest.
    rewrite (mbind_run _ _ _ false (mkCaller (padded_object v) p))
      by (rewrite has_key_run; cbn; now rewrite Hsizes).
    rewrite (mbind_raise _ _ _ (TypeError "Must specify layer_sizes.")
               (mkCaller (padded_object v) p)) by reflexivity.
    reflexivity.
  - intros v p sizes n Hv Hsizes Hlen Htypes. unfold FFNetwork_init.
    rewrite init_body_arg by assumption.
    unfold FFNetwork_init_rest.
    rewrite (mbind_run _ _ _ true (mkCaller (padded_object v) p))
      by (rewrite has_key_run; cbn; now rewrite Hsizes).
    rewrite (mbind_run _ _ _ tt (mkCaller (padded_object v) p)) by reflexivity.
    rewrite (mbind_run _ _ _ sizes (mkCaller (padded_object v) p))
      by now apply read_key_run.
    rewrite (mbind_run _ _ _ n (mkCaller (padded_object v) p))
      by (unfold lift; now rewrite Hlen).
    rewrite (mbind_raise _ _ _ (KeyError "layer_types")
               (mkCaller (padded_object v) p)).
    + reflexivity.
    + unfold read_key, dict_get. cbn. now rewrite Htypes.
Qed.

Lemma X1_witness :
  FFNetwork_init (Layer:=LayerCall) (Some "net") VNone (Some ∅)
  = (inl (KeyError "input_dims"), (VNone, Some ∅)) /\
  FFNetwork_init (Layer:=LayerCall) (Some "net") (ints [5]%Z) (Some ∅)
  = (inl (TypeError "Must specify layer_sizes."),
     (padded_object (ints [5]%Z), Some ∅)) /\
  FFNetwork_init (Layer:=LayerCall) (Some "net") (VInt 5)
    (Some (<["layer_sizes" := ints [3]%Z]> ∅))
  = (inl (KeyError "layer_types"),
     (padded_object (VInt 5), Some (<["layer_sizes" := ints [3]%Z]> ∅))).
Proof.
  destruct (X1_required_inputs (Layer:=LayerCall) "net")
    as (_ & Hdims & _ & Hsizes & Htypes).
  split; [apply Hdims; reflexivity|].
  split; [apply Hsizes; [discriminate|reflexivity]|].
  apply (Htypes (VInt 5) _ (ints [3]%Z) 1);
    [discriminate|reflexivity|reflexivity|reflexivity].
Defined.

(** ** The dictionary after construction *)

Section AfterConstruction.

Context {Layer : Type} `{LayerFactory Layer}.

(** A successful construction, in full: what the caller passed, the
    dictionary as line 126 finds it, and what [_define_network] made of the
    normalised dictionary. *)
Lemma FFNetwork_init_success scope v p (net : FFNetwork Layer) :
  fst (FFNetwork_init (Some scope) v (Some p)) = inr net ->
  exists p1 dims sizes types d spread,
    let n := num_layers net in
    (forall k, k <> "input_dims" -> p1 !! k = p !! k) /\
    ((v <> VNone /\ p1 = p /\ dims = formatted v) \/
     (v = VNone /\ exists e,
        p !! "input_dims" = Some e /\ e <> VNone /\ dims = formatted e /\
        p1 = match e with
             | VList l => <["input_dims" := VList (pad_in_place l)]> p
             | _ => p
             end)) /\
    p1 !! "layer_sizes" = Some sizes /\
    py_len sizes = inr n /\
    p1 !! "layer_types" = Some types /\
    lengths_ok n p1 /\
    FFNetwork_define_network (normalised n p1) dims n types
    = inr (d, spread) /\
    net = mkFFNetwork scope (self_input_dims d) n types (replicate n VNone)
            (self_layers d) (self_time_expand d) spread
            (py_truthy (default (VBool false) (p1 !! "log_activations"))) /\
    FFNetwork_init (Some scope) v (Some p)
    = (inr net, (padded_object v, Some (normalised n p1))).
Proof.
  intros E. unfold FFNetwork_init in *.
  assert (Hgen : forall dims a p1,
             FFNetwork_init_body scope (mkCaller v p)
             = FFNetwork_init_rest scope dims (mkCaller a p1) ->
             exists sizes types d spread,
               let n := num_layers net in
               p1 !! "layer_sizes" = Some sizes /\
               py_len sizes = inr n /\
               p1 !! "layer_types" = Some types /\
               lengths_ok n p1 /\
               FFNetwork_define_network (normalised n p1) dims n types
               = inr (d, spread) /\
               net = mkFFNetwork scope (self_input_dims d) n types
                       (replicate n VNone) (self_layers d)
                       (self_time_expand d) spread
                       (py_truthy
                          (default (VBool false) (p1 !! "log_activations"))) /\
               FFNetwork_init_body scope (mkCaller v p)
               = (inr net, mkCaller a (normalised n p1))).
  { intros dims a p1 Hbody. rewrite Hbody in E |- *.
    destruct (FFNetwork_init_rest scope dims (mkCaller a p1))
      as [r c'] eqn:Hrest.
    cbn in E. subst r.
    destruct (init_rest_success scope dims _ net c' Hrest)
      as (sizes & types & Hsizes & Hlen & Htypes & Hok).
    cbn [arg_params] in *.
    rewrite (init_rest_run scope dims (mkCaller a p1) sizes (num_layers net)
               types Hsizes Hlen Htypes Hok) in Hrest.
    cbn [arg_params arg_input_dims] in Hrest.
    destruct (FFNetwork_define_network (normalised (num_layers net) p1) dims
                (num_layers net) types) as [e|[d spread]] eqn:Hdef;
      cbn in Hrest; [discriminate|].
    injection Hrest as Hnet <-.
    exists sizes, types, d, spread. cbv zeta.
    repeat split; try assumption; try (now symmetry). }
  destruct (init_body_cases scope v p)
    as [(Hv & Hbody)|[(-> & e & He & Hne & Hbody)|[(_ & _ & Hbody)
                                                  |(_ & _ & Hbody)]]];
    try (rewrite Hbody in E; discriminate).
  - destruct (Hgen _ _ _ Hbody)
      as (sizes & types & d & spread & Hs & Hl & Ht & Hok & Hdef & Hnet & Hrun).
    exists p, (formatted v), sizes, types, d, spread. cbv zeta.
    repeat split; try assumption; auto.
    now rewrite Hrun.
  - destruct (Hgen _ _ _ Hbody)
      as (sizes & types & d & spread & Hs & Hl & Ht & Hok & Hdef & Hnet & Hrun).
    eexists _, (formatted e), sizes, types, d, spread. cbv zeta.
    split; [|split; [right; split; [reflexivity|]; exists e;
                     repeat split; try assumption; reflexivity|]].
    + intros k Hk. destruct e; try reflexivity. now apply lookup_insert_ne.
    + repeat split; try assumption. now rewrite Hrun.
Qed.

End AfterConstruction.

Lemma pad_in_place_idem l : pad_in_place (pad_in_place l) = pad_in_place l.
Proof.
  rewrite (pad_in_place_eq (pad_in_place l)).
  replace (3 - length (pad_in_place l)) with 0; [apply app_nil_r|].
  rewrite pad_in_place_eq, length_app, length_replicate. lia.
Qed.

Lemma formatted_padded v : formatted (padded_object v) = formatted v.
Proof. destruct v; try reflexivity. cbn. apply pad_in_place_idem. Qed.

Lemma padded_object_idem v : padded_object (padded_object v) = padded_object v.
Proof. destruct v; try reflexivity. cbn. now rewrite pad_in_place_idem. Qed.

Lemma padded_object_not_None v : v <> VNone -> padded_object v <> VNone.
Proof. now destruct v. Qed.

(** X2.  After a successful construction of a network with [n] layers, the
    caller's dictionary holds under [activation_funcs],
    [weights_initializers], [biases_initializers], [num_inh] and
    [pos_constraints] the list that was there, or [n] copies of the value
    that was there, or, for a key that was absent, [n] copies of ['relu'],
    ['trunc_normal'], ['zeros'], [0] and [False]; and it holds under
    [reg_initializers], [time_expand] and [log_activations] the entry that
    was there, or [[None] * n], [[0] * n] and [False]. *)
Theorem X2_dictionary_after_construction
    {Layer : Type} `{LayerFactory Layer} scope v p (net : FFNetwork Layer) :
  fst (FFNetwork_init (Some scope) v (Some p)) = inr net ->
  exists q,
    snd (snd (FFNetwork_init (Layer:=Layer) (Some scope) v (Some p)))
    = Some q /\
    let n := num_layers net in
    q !! "activation_funcs"
    = Some (broadcast_value n (VStr "relu") (p !! "activation_funcs")) /\
    q !! "weights_initializers"
    = Some (broadcast_value n (VStr "trunc_normal")
              (p !! "weights_initializers")) /\
    q !! "biases_initializers"
    = Some (broadcast_value n (VStr "zeros") (p !! "biases_initializers")) /\
    q !! "reg_initializers"
    = Some (default (VList (replicate n VNone)) (p !! "reg_initializers")) /\
    q !! "num_inh" = Some (broadcast_value n (VInt 0) (p !! "num_inh")) /\
    q !! "pos_constraints"
    = Some (broadcast_value n (VBool false) (p !! "pos_constraints")) /\
    q !! "time_expand"
    = Some (default (VList (replicate n (VInt 0))) (p !! "time_expand")) /\
    q !! "log_activations"
    = Some (default (VBool false) (p !! "log_activations")).
Proof.
  intros E.
  destruct (FFNetwork_init_success scope v p net E)
    as (p1 & dims & sizes & types & d & spread & Hframe & _ & _ & _ & _ & _
        & _ & _ & Hrun).
  cbv zeta in *. rewrite Hrun. cbn [snd].
  exists (normalised (num_layers net) p1). split; [reflexivity|].
  rewrite <- !Hframe by discriminate.
  apply normalised_entries.
Qed.

Lemma X2_witness :
  exists q,
    snd (snd (FFNetwork_init (Layer:=LayerCall) (Some "net") (ints [5]%Z)
                (Some example_single_params))) = Some q /\
    q !! "activation_funcs" = Some (strs ["relu"]) /\
    q !! "num_inh" = Some (ints [0]%Z) /\
    q !! "time_expand" = Some (ints [0]%Z).
Proof.
  destruct (X2_dictionary_after_construction (Layer:=LayerCall) "net"
              (ints [5]%Z) example_single_params example_single_network)
    as (q & Hq & Ha & _ & _ & _ & Hn & _ & Ht & _).
  - vm_compute. reflexivity.
  - exists q. split; [exact Hq|]. split; [exact Ha|]. split; [exact Hn|].
    exact Ht.
Defined.

(** ** Constructing again *)

Section Again.

Context {Layer : Type} `{LayerFactory Layer}.

(** On the normalised dictionary, [__init__] from line 126 on writes
    nothing new and returns the same network. *)
Lemma init_rest_again scope dims a p1 sizes types d spread n :
  p1 !! "layer_sizes" = Some sizes ->
  py_len sizes = inr n ->
  p1 !! "layer_types" = Some types ->
  lengths_ok n p1 ->
  FFNetwork_define_network (Layer:=Layer) (normalised n p1) dims n types
  = inr (d, spread) ->
  FFNetwork_init_rest scope dims (mkCaller a (normalised n p1))
  = (inr (mkFFNetwork scope (self_input_dims d) n types (replicate n VNone)
            (self_layers d) (self_time_expand d) spread
            (py_truthy (default (VBool false) (p1 !! "log_activations")))),
     mkCaller a (normalised n p1)).
Proof.
  intros Hsizes Hlen Htypes Hok Hdef.
  rewrite (init_rest_run scope dims (mkCaller a (normalised n p1)) sizes n
             types).
  - cbn [arg_params arg_input_dims]. rewrite normalised_idem, Hdef. cbn.
    destruct (normalised_entries n p1) as (_ & _ & _ & _ & _ & _ & _ & ->).
    reflexivity.
  - cbn. rewrite normalised_other; [assumption|].
    cbn. intuition discriminate.
  - assumption.
  - cbn. rewrite normalised_other; [assumption|].
    cbn. intuition discriminate.
  - cbn. now apply normalised_lengths_ok.
Qed.

End Again.

(** X3.  The objects that a successful construction leaves to its caller
    construct the same network again, and are left as they are by that second
    construction: the normalisation of [input_dims] and of the dictionary is
    idempotent. *)
Theorem X3_construction_is_idempotent
    {Layer : Type} `{LayerFactory Layer} scope v p (net : FFNetwork Layer)
    v' q :
  FFNetwork_init (Some scope) v (Some p) = (inr net, (v', Some q)) ->
  FFNetwork_init (Some scope) v' (Some q) = (inr net, (v', Some q)).
Proof.
  intros E.
  destruct (FFNetwork_init_success scope v p net ltac:(now rewrite E))
    as (p1 & dims & sizes & types & d & spread & Hframe & Hcase & Hsizes
        & Hlen & Htypes & Hok & Hdef & Hnet & Hrun).
  cbv zeta in *. rewrite Hrun in E. injection E as <- <-.
  pose proof (init_rest_again scope dims (padded_object v) p1 sizes types d
                spread (num_layers net) Hsizes Hlen Htypes Hok Hdef) as Hagain.
  rewrite <- Hnet in Hagain.
  unfold FFNetwork_init.
  destruct Hcase as [(Hv & -> & ->)|(-> & e & He & Hne & -> & ->)].
  - rewrite init_body_arg by now apply padded_object_not_None.
    rewrite formatted_padded, padded_object_idem, Hagain. reflexivity.
  - cbn [padded_object] in *.
    set (p1 := match e with
               | VList l => <["input_dims" := VList (pad_in_place l)]> p
               | _ => p
               end) in *.
    assert (Hq : normalised (num_layers net) p1 !! "input_dims"
                 = Some (padded_object e)).
    { rewrite normalised_other by (cbn; intuition discriminate).
      subst p1. destruct e; try assumption. apply lookup_insert_eq. }
    rewrite (init_body_entry scope _ (padded_object e) Hq)
      by now apply padded_object_not_None.
    rewrite formatted_padded.
    replace (match padded_object e with
             | VList l =>
                 <["input_dims" := VList (pad_in_place l)]>
                   (normalised (num_layers net) p1)
             | _ => normalised (num_layers net) p1
             end) with (normalised (num_layers net) p1).
    + rewrite Hagain. reflexivity.
    + destruct e; try reflexivity. cbn [padded_object] in *.
      rewrite pad_in_place_idem. symmetry. now apply insert_id.
Qed.

Lemma X3_witness :
  exists net v' q,
    FFNetwork_init (Layer:=LayerCall) (Some "net") (ints [5]%Z)
      (Some example_single_params) = (inr net, (v', Some q)) /\
    FFNetwork_init (Layer:=LayerCall) (Some "net") v' (Some q)
    = (inr net, (v', Some q)).
Proof.
  destruct (FFNetwork_init (Layer:=LayerCall) (Some "net") (ints [5]%Z)
              (Some example_single_params)) as [r [v' oq]] eqn:E.
  assert (Hr : r = inr example_single_network).
  { change r with (fst (r, (v', oq))). rewrite <- E. vm_compute. reflexivity. }
  assert (Hq : exists q, oq = Some q).
  { change oq with (snd (snd (r, (v', oq)))). rewrite <- E.
    unfold FFNetwork_init.
    destruct (FFNetwork_init_body "net"
                (mkCaller (ints [5]%Z) example_single_params)).
    eauto. }
  destruct Hq as (q & ->). subst r.
  exists example_single_network, v', q. split; [reflexivity|].
  now apply (X3_construction_is_idempotent "net" (ints [5]%Z)
               example_single_params).
Defined.

(** ** The calls that [_define_network] makes *)

Lemma eval_kwargs_given p nn name v rest kw :
  eval_kwargs p nn ((name, Given v) :: rest) = inr kw ->
  exists kw', kw = (name, v) :: kw' /\ eval_kwargs p nn rest = inr kw'.
Proof.
  cbn. intros E. apply res_bind_inr in E as (kw' & Hkw & [= <-]). eauto.
Qed.

Section Calls.

Context {Layer : Type} `{LayerFactory Layer}.

Lemma append_layer_call p nn class prefix args (d d' : Defining Layer) :
  append_layer p nn class prefix args d = inr d' ->
  exists kw layer,
    eval_kwargs p nn args = inr kw /\
    new_layer (mkCall class (prefix, nn) kw) = inr layer /\
    d' = mkDefining (layer_sizes d) (self_input_dims d)
           (self_layers d ++ [layer]) (self_time_expand d).
Proof.
  unfold append_layer. intros E.
  apply res_bind_inr in E as (kw & Hkw & E).
  apply res_bind_inr in E as (layer & Hnew & [= <-]). eauto.
Qed.

(** Every branch of the dispatch constructs one layer, scoped with the index
    of the layer, from the dimensions found in [layer_sizes[nn]]; the kind is
    one of those that the chain of tests knows. *)
Lemma dispatch_layer_call p types nn (d d' : Defining Layer) :
  dispatch_layer p types nn d = inr d' ->
  exists k size_in call layer,
    py_getitem types nn = inr (VStr k) /\
    In k layer_kinds /\
    layer_sizes d !! nn = Some size_in /\
    new_layer call = inr layer /\
    snd (call_scope call) = nn /\
    kwarg "input_dims" (call_kwargs call) = Some size_in /\
    self_layers d' = self_layers d ++ [layer] /\
    forall derive, conv_branch k derive ->
      exists width filter,
        eval_arg p nn (PerLayer "conv_filter_widths") = inr width /\
        derive size_in width = inr filter /\
        kwarg "filter_dims" (call_kwargs call) = Some filter.
Proof.
  unfold dispatch_layer. intros E.
  apply res_bind_inr in E as (kind & Hkind & E).
  apply res_bind_inr in E as (size_in & Hin & E).
  apply res_bind_inr in E as (size_out & _ & E).
  apply list_get_inr in Hin.
  cbv zeta in E.
  repeat
    match type of E with
    | (if py_eq_str kind ?s then _ else _) = inr _ =>
        destruct (py_eq_str kind s) eqn:?;
        [ match goal with
          | Hs : py_eq_str kind s = true |- _ =>
              apply py_eq_str_true in Hs; subst kind
          end;
          repeat
            match type of E with
            | res_bind _ _ = inr _ =>
                let x := fresh "x" in
                let Hx := fresh "Hx" in
                apply res_bind_inr in E as (x & Hx & E)
            end;
          try (injection E as <-);
          match goal with
          | Hx : append_layer _ _ _ _ _ _ = inr _ |- _ =>
              apply append_layer_call in Hx as (kw & layer & Hkw & Hnew & ->)
          | _ =>
              apply append_layer_call in E as (kw & layer & Hkw & Hnew & ->)
          end;
          cbn [app] in Hkw;
          repeat (apply eval_kwargs_given in Hkw as (? & -> & Hkw));
          exists s, size_in; eexists _, layer;
          split; [exact Hkind|];
          split; [cbn; repeat (first [left; reflexivity | right])|];
          split; [exact Hin|];
          split; [exact Hnew|];
          split; [reflexivity|];
          split; [reflexivity|];
          split; [reflexivity|];
          intros derive [[[Hk|Hk] ->]|[[[Hk|Hk] ->]|[Hk ->]]];
          try discriminate Hk;
          (do 2 eexists;
           split; [eassumption|];
           split; [eassumption|reflexivity])
        | ]
    end.
  discriminate.
Qed.

(** One iteration of the loop: the layer is constructed from the dimensions
    that reach it, extended by its lag count. *)
Lemma define_layer_call p types nn (d d' : Defining Layer) :
  define_layer p types nn d = inr d' ->
  exists k lags base call layer,
    py_getitem types nn = inr (VStr k) /\
    In k layer_kinds /\
    self_time_expand d !! nn = Some lags /\
    (nn = 0 -> layer_sizes d !! 0 = Some base) /\
    (0 < nn -> exists previous,
        self_layers d !! (nn - 1) = Some previous /\
        base = output_dims previous) /\
    new_layer call = inr layer /\
    snd (call_scope call) = nn /\
    kwarg "input_dims" (call_kwargs call) = Some (with_lags base lags) /\
    self_layers d' = self_layers d ++ [layer] /\
    forall derive, conv_branch k derive ->
      exists width filter,
        eval_arg p nn (PerLayer "conv_filter_widths") = inr width /\
        derive (with_lags base lags) width = inr filter /\
        kwarg "filter_dims" (call_kwargs call) = Some filter.
Proof.
  unfold define_layer. intros E.
  apply res_bind_inr in E as (d1 & H1 & E).
  apply res_bind_inr in E as (lags & Hlags & E).
  apply res_bind_inr in E as (d2 & H2 & E).
  apply dispatch_layer_call in E
    as (k & size_in & call & layer & Hkind & Hk & Hin & Hnew & Hscope & Hkw
        & Hlayers & Hfilter).
  apply list_get_inr in Hlags.
  assert (E1 : self_layers d1 = self_layers d /\
               self_time_expand d1 = self_time_expand d /\
               exists base,
                 layer_sizes d1 !! nn = Some base /\
                 (nn = 0 -> layer_sizes d !! 0 = Some base) /\
                 (0 < nn -> exists previous,
                     self_layers d !! (nn - 1) = Some previous /\
                     base = output_dims previous)).
  { destruct (Nat.ltb_spec 0 nn) as [Hpos|Hzero].
    - apply res_bind_inr in H1 as (prev & Hprev & H1).
      apply res_bind_inr in H1 as (sizes & Hset & [= <-]).
      apply list_get_inr in Hprev. apply list_set_inr in Hset as (Hlt & ->).
      cbn. repeat split. exists (output_dims prev).
      split; [now apply list_lookup_insert_eq|]. split; [lia|]. eauto.
    - injection H1 as <-. repeat split.
      assert (nn = 0) as -> by lia.
      destruct (layer_sizes d !! 0) as [base|] eqn:Hbase.
      + exists base. split; [reflexivity|]. split; [auto|lia].
      + exfalso.
        destruct (Z.ltb_spec 0 lags).
        * apply res_bind_inr in H2 as (size & Hsize & _).
          apply list_get_inr in Hsize. congruence.
        * injection H2 as <-. congruence. }
  destruct E1 as (El & Et & base & Hbase & H0 & Hprev).
  rewrite Et in Hlags.
  exists k, lags, base, call, layer.
  repeat (split; [assumption|]).
  assert (Hd2 : self_layers d2 = self_layers d1 /\
                layer_sizes d2 !! nn = Some (with_lags base lags)).
  { unfold with_lags. destruct (Z.ltb_spec 0 lags).
    - apply res_bind_inr in H2 as (size & Hsize & H2).
      apply res_bind_inr in H2 as (sizes & Hset & [= <-]).
      apply list_get_inr in Hsize. apply list_set_inr in Hset as (Hlt & ->).
      cbn. split; [reflexivity|].
      rewrite Hbase in Hsize. injection Hsize as <-.
      now apply list_lookup_insert_eq.
    - injection H2 as <-. auto. }
  destruct Hd2 as (El2 & Hsize).
  rewrite Hsize in Hin. injection Hin as <-.
  split; [exact Hkw|]. split; [now rewrite Hlayers, El2, El|exact Hfilter].
Qed.

End Calls.

Section CallsOfTheLoop.

Context {Layer : Type} `{LayerFactory Layer}.

Lemma layer_input_app dims (ls extra : list Layer) declared i :
  i <= length ls ->
  layer_input dims (ls ++ extra) declared i = layer_input dims ls declared i.
Proof.
  intros Hi. unfold layer_input. destruct (declared !! i); [|reflexivity].
  destruct i as [|j]; [reflexivity|]. now rewrite lookup_app_l by lia.
Qed.

Lemma calls_inv_step p types declared dims k (d d' : Defining Layer) :
  calls_inv (p !! "conv_filter_widths") types declared dims k d ->
  define_layer p types k d = inr d' ->
  calls_inv (p !! "conv_filter_widths") types declared dims (S k) d'.
Proof.
  intros (Hinv & Hcalls) E.
  split; [eapply defining_inv_step; eassumption|].
  destruct Hinv as (Hlen & _ & _ & Htodo & Hfirst & _).
  apply define_layer_call in E
    as (kind & lags & base & call & layer & Hkind & Hknown & Hlags & H0 & Hprev
        & Hnew & Hscope & Hkw & -> & Hfilter).
  intros i Hi. destruct (Nat.eq_dec i k) as [->|Hne].
  - exists kind, call, layer.
    repeat (split; [first [assumption
                          | rewrite <- Hlen; now apply list_lookup_middle]|]).
    split.
    + rewrite Hkw. unfold layer_input.
      rewrite <- (Htodo k) by lia. rewrite Hlags.
      destruct k as [|j].
      * destruct (Hfirst eq_refl) as (Hsz & _).
        rewrite (H0 eq_refl) in Hsz. now injection Hsz as ->.
      * destruct Hprev as (previous & Hp & ->); [lia|].
        replace (S j - 1) with j in Hp by lia.
        now rewrite lookup_app_l, Hp by lia.
    + intros derive Hbranch.
      destruct (Hfilter derive Hbranch) as (width & filter & Hw & Hf & Hfd).
      cbn [eval_arg] in Hw. apply res_bind_inr in Hw as (ws & Hws & Hw).
      unfold dict_get in Hws.
      destruct (p !! "conv_filter_widths") as [ws'|]; [|discriminate].
      injection Hws as ->.
      exists ws, width, (with_lags base lags), filter. auto.
  - destruct (Hcalls i ltac:(lia))
      as (kind' & call' & layer' & ? & ? & Hl & ? & ? & Hkw' & Hfilter').
    exists kind', call', layer'.
    repeat (split; [first [assumption
                          | rewrite lookup_app_l by lia; assumption]|]).
    split; [|exact Hfilter'].
    rewrite layer_input_app by lia. exact Hkw'.
Qed.

(** The lag counts with which the loop starts are [declared_lags] of the
    entry that the caller gave. *)
Lemma declared_lags_normalised n p1 supplied declared :
  normalised n p1 !! "time_expand" = Some (VList supplied) ->
  py_ints (if length supplied <? n
           then supplied ++ replicate (n - length supplied) (VInt 0)
           else supplied) = inr declared ->
  declared_lags n (p1 !! "time_expand") = inr declared.
Proof.
  intros Hsup Hdecl.
  destruct (normalised_entries n p1) as (_ & _ & _ & _ & _ & _ & Hte & _).
  rewrite Hte in Hsup. injection Hsup as Hsup.
  unfold declared_lags. rewrite Hsup. rewrite <- Hdecl. f_equal.
  destruct (Nat.ltb_spec (length supplied) n); [reflexivity|].
  replace (n - length supplied) with 0 by lia. apply app_nil_r.
Qed.

(** What a successful run of [_define_network] establishes about the calls
    it made. *)
Lemma define_network_calls p dims n types (d : Defining Layer) spread :
  FFNetwork_define_network p dims n types = inr (d, spread) ->
  exists supplied declared,
    p !! "time_expand" = Some (VList supplied) /\
    py_ints (if length supplied <? n
             then supplied ++ replicate (n - length supplied) (VInt 0)
             else supplied) = inr declared /\
    spread = list_sum declared /\
    calls_inv (p !! "conv_filter_widths") types declared dims n d.
Proof.
  intros E.
  destruct (define_network_inr p dims n types d spread E)
    as (supplied & declared & Hsup & Hdecl & Hspread & _).
  exists supplied, declared. repeat (split; [assumption|]).
  unfold FFNetwork_define_network in E.
  apply res_bind_inr in E as (sizes & _ & E).
  apply res_bind_inr in E as (size_list & _ & E).
  apply res_bind_inr in E as (lags & Hlags & E).
  apply res_bind_inr in E as (supplied' & Hsup' & E).
  cbv zeta in E.
  unfold dict_get in Hlags. rewrite Hsup in Hlags. injection Hlags as <-.
  injection Hsup' as <-. rewrite Hdecl in E. cbn [res_bind] in E.
  apply res_bind_inr in E as (d0 & Hloop & [= <- _]).
  change n with (0 + n).
  eapply (for_range_seq_inv
            (calls_inv (p !! "conv_filter_widths") types declared dims));
    [| |exact Hloop].
  - intros i s1 s2 _ Hinv Hbody. eapply calls_inv_step; eassumption.
  - split; [|intros i Hi; lia].
    unfold defining_inv. cbn. repeat split; auto; lia.
Qed.

End CallsOfTheLoop.

Section ConstructedNetworks.

Context {Layer : Type} `{LayerFactory Layer}.

(** A successful construction and the calls of its loop. *)
Lemma FFNetwork_init_calls scope v p (net : FFNetwork Layer) :
  fst (FFNetwork_init (Some scope) v (Some p)) = inr net ->
  exists dims declared d,
    (v <> VNone -> dims = formatted v) /\
    (v = VNone -> exists e, p !! "input_dims" = Some e /\ dims = formatted e) /\
    declared_lags (num_layers net) (p !! "time_expand") = inr declared /\
    time_spread net = list_sum declared /\
    layers net = self_layers d /\
    time_expand net = self_time_expand d /\
    calls_inv (p !! "conv_filter_widths") (layer_types net) declared dims
      (num_layers net) d.
Proof.
  intros E.
  destruct (FFNetwork_init_success scope v p net E)
    as (p1 & dims & sizes & types & d & spread & Hframe & Hcase & _ & _ & _
        & _ & Hdef & Hnet & _).
  cbv zeta in *.
  apply define_network_calls in Hdef
    as (supplied & declared & Hsup & Hdecl & -> & Hinv).
  rewrite normalised_other in Hinv by (cbn; intuition discriminate).
  rewrite Hframe in Hinv by discriminate.
  exists dims, declared, d.
  split; [|split].
  - intros Hv. destruct Hcase as [(_ & _ & ->)|(-> & _)]; congruence.
  - intros ->. destruct Hcase as [(Hv & _)|(_ & e & He & _ & -> & _)];
      [congruence|eauto].
  - rewrite <- (Hframe "time_expand") by discriminate.
    split; [now apply (declared_lags_normalised _ _ supplied)|].
    rewrite Hnet. cbn. auto.
Qed.

End ConstructedNetworks.

(** ** Layer kinds *)

(** X4.  Every layer of a constructed network is of one of the nineteen
    kinds that [_define_network] knows.  Conversely, when the first entry of
    [layer_types] is none of them, and the rest of the dictionary is in
    order, construction raises the [TypeError] "Layer type %i not
    defined.". *)
Theorem X4_layer_kinds {Layer : Type} `{LayerFactory Layer} scope v p :
  (forall (net : FFNetwork Layer) i,
      fst (FFNetwork_init (Some scope) v (Some p)) = inr net ->
      i < num_layers net ->
      exists kind,
        py_getitem (layer_types net) i = inr (VStr kind) /\
        In kind layer_kinds) /\
  (forall size sizes types kind declared,
      v <> VNone ->
      p !! "layer_sizes" = Some (VList (size :: sizes)) ->
      p !! "layer_types" = Some types ->
      py_getitem types 0 = inr kind ->
      (forall k, In k layer_kinds -> kind <> VStr k) ->
      lengths_ok (S (length sizes)) p ->
      declared_lags (S (length sizes)) (p !! "time_expand") = inr declared ->
      fst (FFNetwork_init (Layer:=Layer) (Some scope) v (Some p))
      = inl (TypeError "Layer type %i not defined.")).
Proof.
  split.
  - intros net i E Hi.
    destruct (FFNetwork_init_calls scope v p net E)
      as (dims & declared & d & _ & _ & _ & _ & _ & _ & _ & Hcalls).
    destruct (Hcalls i Hi) as (kind & _ & _ & Hkind & Hknown & _). eauto.
  - intros size sizes types kind declared Hv Hsizes Htypes Hkind Hunknown Hok
      Hdecl.
    unfold FFNetwork_init. rewrite init_body_arg by assumption.
    rewrite (init_rest_run scope (formatted v) (mkCaller (padded_object v) p)
               (VList (size :: sizes)) (S (length sizes)) types Hsizes eq_refl
               Htypes Hok).
    cbn [fst arg_params].
    set (n := S (length sizes)) in *.
    destruct (normalised_entries n p) as (_ & _ & _ & _ & _ & _ & Hte & _).
    unfold FFNetwork_define_network, dict_get.
    rewrite normalised_other by (cbn; intuition discriminate).
    rewrite Hsizes, Hte. cbn [res_bind].
    unfold declared_lags in Hdecl.
    destruct (default (VList (replicate n (VInt 0))) (p !! "time_expand"))
      as [| | | |supplied|]; try discriminate.
    cbn [res_bind].
    replace (if length supplied <? n
             then supplied ++ replicate (n - length supplied) (VInt 0)
             else supplied)
      with (supplied ++ replicate (n - length supplied) (VInt 0)).
    2:{ destruct (Nat.ltb_spec (length supplied) n); [reflexivity|].
        replace (n - length supplied) with 0 by lia. now rewrite app_nil_r. }
    rewrite Hdecl. cbn [res_bind].
    assert (Hlen : 0 < length declared).
    { apply py_ints_length in Hdecl.
      rewrite Hdecl, length_app, length_replicate. unfold n. lia. }
    destruct declared as [|lags declared]; [cbn in Hlen; lia|].
    subst n. cbn [seq for_range].
    assert (Hfalse : forall k, In k layer_kinds -> py_eq_str kind k = false).
    { intros k Hk. destruct (py_eq_str kind k) eqn:Hs; [|reflexivity].
      apply py_eq_str_true in Hs. now destruct (Hunknown k Hk). }
    assert (Hdispatch : forall d : Defining Layer,
               (exists a b rest, layer_sizes d = a :: b :: rest) ->
               dispatch_layer (normalised (S (length sizes)) p) types 0 d
               = inl (TypeError "Layer type %i not defined.")).
    { intros d (a & b & rest & Hd). unfold dispatch_layer.
      rewrite Hkind, Hd. cbn [res_bind list_get lookup list_lookup Nat.add].
      cbv zeta.
      rewrite !Hfalse by (cbn; repeat (first [left; reflexivity | right])).
      reflexivity. }
    unfold define_layer at 1.
    cbn [Nat.ltb Nat.leb res_bind self_time_expand list_get lookup list_lookup].
    destruct (0 <? lags)%Z.
    + cbn [layer_sizes res_bind list_get lookup list_lookup list_set length
           Nat.ltb Nat.leb].
      rewrite Hdispatch; [reflexivity|]. cbn. eauto.
    + cbn [res_bind]. rewrite Hdispatch; [reflexivity|]. cbn. eauto.
Qed.

Lemma X4_witness :
  (exists kind,
      py_getitem (layer_types example_temporal_network) 1 = inr (VStr kind) /\
      In kind layer_kinds) /\
  fst (FFNetwork_init (Layer:=LayerCall) (Some "net") (VInt 5)
         (Some example_unknown_kind))
  = inl (TypeError "Layer type %i not defined.").
Proof.
  split.
  - apply (proj1 (X4_layer_kinds (Layer:=LayerCall) "net" (VInt 2)
                    example_temporal_params) example_temporal_network 1).
    + vm_compute. reflexivity.
    + vm_compute. lia.
  - apply (proj2 (X4_layer_kinds (Layer:=LayerCall) "net" (VInt 5)
                    example_unknown_kind)
             (VInt 3) [] (strs ["dense"]) (VStr "dense") [0%Z]).
    + discriminate.
    + reflexivity.
    + reflexivity.
    + reflexivity.
    + intros k Hk E. injection E as <-. cbn in Hk.
      intuition discriminate.
    + intros key l Hkey Hl. cbn in Hkey.
      destruct Hkey as [<-|[<-|[<-|[<-|[<-|[]]]]]]; discriminate.
    + reflexivity.
Defined.

(** ** The dimensions that reach each layer *)

(** X5.  In a network constructed from an [input_dims] argument that is not
    [None], layer [i] was constructed under the scope index [i] from these
    input dimensions: for the first layer the
    normalised [input_dims] of the network, for every other layer the
    [output_dims] of the layer before it; in both cases followed by the lag
    count declared for the layer when that is positive (a value that is not a
    list becoming [[value, 1, 1]] first).  The lag counts are those of the
    caller's [time_expand], or zeros. *)
Theorem X5_layers_are_chained
    {Layer : Type} `{LayerFactory Layer} scope v p (net : FFNetwork Layer) :
  v <> VNone ->
  fst (FFNetwork_init (Some scope) v (Some p)) = inr net ->
  exists declared,
    declared_lags (num_layers net) (p !! "time_expand") = inr declared /\
    forall i, i < num_layers net ->
      exists call layer,
        layers net !! i = Some layer /\
        new_layer call = inr layer /\
        snd (call_scope call) = i /\
        kwarg "input_dims" (call_kwargs call)
        = layer_input (formatted v) (layers net) declared i.
Proof.
  intros Hv E.
  destruct (FFNetwork_init_calls scope v p net E)
    as (dims & declared & d & Hdims & _ & Hdecl & _ & Hl & _ & _ & Hcalls).
  rewrite (Hdims Hv) in Hcalls.
  exists declared. split; [exact Hdecl|].
  intros i Hi.
  destruct (Hcalls i Hi)
    as (kind & call & layer & _ & _ & ? & ? & ? & ? & _).
  exists call, layer. rewrite Hl. auto.
Qed.

Lemma X5_witness :
  exists declared,
    declared_lags (num_layers example_temporal_network)
      (example_temporal_params !! "time_expand") = inr declared /\
    exists call layer,
      layers example_temporal_network !! 1 = Some layer /\
      new_layer call = inr layer /\
      snd (call_scope call) = 1 /\
      kwarg "input_dims" (call_kwargs call)
      = layer_input (formatted (VInt 2)) (layers example_temporal_network)
          declared 1.
Proof.
  destruct (X5_layers_are_chained (Layer:=LayerCall) "net" (VInt 2)
              example_temporal_params example_temporal_network)
    as (declared & Hdecl & Hcalls).
  - discriminate.
  - vm_compute. reflexivity.
  - exists declared. split; [exact Hdecl|].
    apply Hcalls. vm_compute. lia.
Defined.

(** ** Lag counts *)

Lemma declared_lags_ints n l :
  declared_lags n (Some (ints l)) = inr (l ++ replicate (n - length l) 0%Z).
Proof.
  unfold declared_lags, ints. cbn [default from_option id].
  rewrite length_map.
  change (VInt 0) with (VInt 0%Z).
  replace (map VInt l ++ replicate (n - length l) (VInt 0))
    with (map VInt (l ++ replicate (n - length l) 0%Z)).
  - apply py_ints_map_VInt.
  - rewrite map_app. f_equal.
    induction (n - length l) as [|k IH]; [reflexivity|]. cbn. now rewrite IH.
Qed.

Lemma list_sum_append l1 l2 :
  list_sum (l1 ++ l2) = (list_sum l1 + list_sum l2)%Z.
Proof.
  unfold list_sum. induction l1 as [|x l1 IH]; cbn; [reflexivity|].
  rewrite IH. lia.
Qed.

Lemma list_sum_zeros n : list_sum (replicate n 0%Z) = 0%Z.
Proof.
  unfold list_sum. induction n as [|n IH]; cbn; [reflexivity|]. now rewrite IH.
Qed.

(** X6.  In a constructed network with [n] layers, [time_spread] is the sum
    of the lag counts with which the loop of [_define_network] started: the
    caller's [time_expand] list, or zeros, followed by zeros up to [n]
    entries.  [time_expand] has as many entries as that list; the entry of a
    layer of kind ['temporal'] or ['sp_temporal'] is 0 and every other entry
    is as declared, including those beyond the last layer.  So [time_spread]
    counts the lags of the temporal layers and of the entries that no layer
    uses; for a [time_expand] list of integers it is the sum of the list. *)
Theorem X6_time_spread_sums_declared_lags
    {Layer : Type} `{LayerFactory Layer} scope v p (net : FFNetwork Layer) :
  fst (FFNetwork_init (Some scope) v (Some p)) = inr net ->
  exists declared,
    declared_lags (num_layers net) (p !! "time_expand") = inr declared /\
    time_spread net = list_sum declared /\
    length (time_expand net) = length declared /\
    (forall i kind,
        i < num_layers net ->
        py_getitem (layer_types net) i = inr kind ->
        time_expand net !! i
        = if is_temporal kind then Some 0%Z else declared !! i) /\
    (forall i, num_layers net <= i -> time_expand net !! i = declared !! i) /\
    (forall l, p !! "time_expand" = Some (ints l) ->
        time_spread net = list_sum l).
Proof.
  intros E.
  destruct (FFNetwork_init_calls scope v p net E)
    as (dims & declared & d & _ & _ & Hdecl & Hspread & _ & Hte & Hinv & _).
  destruct Hinv as (_ & Hlen & Hdone & Htodo & _).
  exists declared. rewrite Hte.
  repeat (split; [assumption|]).
  intros l Hl. rewrite Hl, declared_lags_ints in Hdecl.
  injection Hdecl as <-.
  now rewrite Hspread, list_sum_append, list_sum_zeros, Z.add_0_r.
Qed.

Lemma X6_witness :
  exists declared,
    declared_lags (num_layers example_temporal_network)
      (example_temporal_params !! "time_expand") = inr declared /\
    time_spread example_temporal_network = list_sum declared /\
    time_spread example_temporal_network = list_sum [0; 4]%Z /\
    time_expand example_temporal_network !! 1 = Some 0%Z.
Proof.
  destruct (X6_time_spread_sums_declared_lags (Layer:=LayerCall) "net"
              (VInt 2) example_temporal_params example_temporal_network)
    as (declared & Hdecl & Hspread & _ & Hdone & _ & Hints).
  - vm_compute. reflexivity.
  - exists declared. split; [exact Hdecl|]. split; [exact Hspread|].
    split; [apply Hints; reflexivity|].
    apply (Hdone 1 (VStr "temporal")); [vm_compute; lia|reflexivity].
Defined.

(** ** Time embedding in [build_graph] *)

(** X7.  In a successful [FFNetwork.build_graph], a layer whose lag count is
    positive is called with the time embedding of the running input over the
    batch size and that lag count, and without a batch size; so the call
    must have been given a batch size.  When the first layer's lag count is
    positive and no batch size is given, [build_graph] raises a
    [TypeError]. *)
Theorem X7_positive_lag_is_embedded
    {R : Type} (zero one : R) (add mul : R -> R -> R)
    {Layer : Type} `{LayerGraph R Layer} (self : FFNetwork Layer)
    inputs params_dict use_dropout :
  (forall batch_size built i lags,
      FFNetwork_build_graph zero one add mul self inputs params_dict
        batch_size use_dropout = inr built ->
      i < num_layers self ->
      time_expand self !! i = Some lags ->
      (0 < lags)%Z ->
      exists B x embedded outputs,
        batch_size = Some B /\
        running_input inputs built i = Some x /\
        embed_inputs zero one add mul x (Some B) lags = inr embedded /\
        (forall t, x = OneTensor t ->
           time_embed zero one add mul t B (Z.to_nat lags) = inr embedded) /\
        built !! i
        = Some (mkBuild (OneTensor embedded) params_dict None use_dropout,
                outputs)) /\
  (forall lags l,
      0 < num_layers self ->
      time_expand self !! 0 = Some lags ->
      (0 < lags)%Z ->
      layers self !! 0 = Some l ->
      FFNetwork_build_graph zero one add mul self inputs params_dict None
        use_dropout
      = inl (TypeError
               "'NoneType' object cannot be interpreted as an integer")).
Proof.
  split.
  - intros batch_size built i lags E Hi Hlags Hpos.
    apply (build_graph_calls zero one add mul) in E as (Hlen & Hcalls).
    destruct (lookup_lt_is_Some_2 built i) as ((call & outputs) & Hb); [lia|].
    destruct (Hcalls i call outputs Hb)
      as (lags' & l & x & Hlags' & _ & Hx & Hcall & _).
    rewrite Hlags in Hlags'. injection Hlags' as <-.
    unfold layer_call in Hcall.
    destruct (Z.ltb_spec 0 lags); [|lia].
    apply res_bind_inr in Hcall as (embedded & Hembed & [= <-]).
    destruct batch_size as [B|]; [|discriminate].
    exists B, x, embedded, outputs.
    repeat (split; [first [reflexivity | assumption]|]).
    split; [|exact Hb].
    intros t ->. exact Hembed.
  - intros lags l Hn Hlags Hpos Hl.
    unfold FFNetwork_build_graph.
    destruct (num_layers self) as [|n]; [lia|].
    cbn [seq for_range]. unfold build_layer at 1.
    unfold list_get. rewrite Hlags, Hl. cbn [res_bind].
    unfold layer_call.
    destruct (Z.ltb_spec 0 lags); [|lia]. reflexivity.
Qed.

Lemma X7_witness :
  (exists built embedded outputs,
      FFNetwork_build_graph 0%Z 1%Z Z.add Z.mul example_lagged_network
        (OneTensor example_batch) VNone (Some 3) false = inr built /\
      time_embed 0%Z 1%Z Z.add Z.mul example_batch 3 2 = inr embedded /\
      built !! 0
      = Some (mkBuild (OneTensor embedded) VNone None false, outputs)) /\
  FFNetwork_build_graph 0%Z 1%Z Z.add Z.mul example_lagged_network
    (OneTensor example_batch) VNone None false
  = inl (TypeError "'NoneType' object cannot be interpreted as an integer").
Proof.
  pose proof (X7_positive_lag_is_embedded 0%Z 1%Z Z.add Z.mul
                example_lagged_network (OneTensor example_batch) VNone false)
    as [Hbuilt Hnone].
  split.
  - destruct (FFNetwork_build_graph 0%Z 1%Z Z.add Z.mul example_lagged_network
                (OneTensor example_batch) VNone (Some 3) false)
      as [e|built] eqn:Hrun; [vm_compute in Hrun; discriminate|].
    destruct (Hbuilt (Some 3) built 0 2%Z Hrun ltac:(simpl; lia) eq_refl
                ltac:(lia))
      as (B & x & embedded & outputs & HB & Hx & _ & Hembed & Hcall).
    injection HB as <-.
    assert (Hin : x = OneTensor example_batch).
    { destruct built; [discriminate|].
      cbn in Hx. now injection Hx as <-. }
    exists built, embedded, outputs.
    split; [reflexivity|]. split; [|exact Hcall].
    exact (Hembed example_batch Hin).
  - apply (Hnone 2%Z (mkCall "Layer" ("layer", 0) []));
      [simpl; lia|reflexivity|lia|reflexivity].
Defined.

(** ** Further properties of [time_embed] *)



(** ** A network without layers *)

(** X10.  An empty [layer_sizes] is accepted: the constructor returns a
    network without layers, whose [input_dims] is the normalised argument and
    whose [time_expand] is whatever the caller declared.  For that network
    [build_graph] calls no layer, and [define_regularization_loss] raises the
    [ValueError] of [tf.add_n] on an empty list. *)
Theorem X10_no_layers
    {Layer : Type} `{LayerFactory Layer}
    {R : Type} (zero one : R) (add mul : R -> R -> R) `{LayerGraph R Layer}
    scope v p types declared :
  v <> VNone ->
  p !! "layer_sizes" = Some (VList []) ->
  p !! "layer_types" = Some types ->
  lengths_ok 0 p ->
  declared_lags 0 (p !! "time_expand") = inr declared ->
  exists net : FFNetwork Layer,
    fst (FFNetwork_init (Some scope) v (Some p)) = inr net /\
    num_layers net = 0 /\
    layers net = [] /\
    input_dims net = formatted v /\
    time_expand net = declared /\
    (forall inputs params_dict batch_size use_dropout,
        FFNetwork_build_graph zero one add mul net inputs params_dict
          batch_size use_dropout = inr []) /\
    FFNetwork_define_regularization_loss zero add net
    = inl (ValueError "inputs must be a list of at least one Tensor").
Proof.
  intros Hv Hsizes Htypes Hok Hdecl.
  unfold FFNetwork_init. rewrite init_body_arg by assumption.
  rewrite (init_rest_run scope (formatted v) (mkCaller (padded_object v) p)
             (VList []) 0 types Hsizes eq_refl Htypes Hok).
  cbn [fst arg_params].
  destruct (normalised_entries 0 p) as (_ & _ & _ & _ & _ & _ & Hte & _).
  unfold FFNetwork_define_network, dict_get.
  rewrite normalised_other by (cbn; intuition discriminate).
  rewrite Hsizes, Hte. cbn [res_bind].
  unfold declared_lags in Hdecl.
  destruct (default (VList (replicate 0 (VInt 0))) (p !! "time_expand"))
    as [| | | |supplied|]; try discriminate.
  cbn [res_bind Nat.ltb Nat.leb].
  replace (0 - length supplied) with 0 in Hdecl by lia.
  cbn [replicate] in Hdecl. rewrite app_nil_r in Hdecl.
  rewrite Hdecl. cbn [res_bind seq for_range fst snd].
  eexists. split; [reflexivity|]. cbn. repeat split.
Qed.

Lemma X10_witness :
  exists net : FFNetwork LayerCall,
    fst (FFNetwork_init (Some "net") (VInt 5)
           (Some (<["layer_sizes" := VList []]>
                  (<["layer_types" := VList []]> ∅)))) = inr net /\
    layers net = [] /\
    FFNetwork_define_regularization_loss 0%Z Z.add net
    = inl (ValueError "inputs must be a list of at least one Tensor").
Proof.
  destruct (X10_no_layers (Layer:=LayerCall) 0%Z 1%Z Z.add Z.mul "net"
              (VInt 5)
              (<["layer_sizes" := VList []]> (<["layer_types" := VList []]> ∅))
              (VList []) [])
    as (net & E & _ & Hl & _ & _ & _ & Hreg).
  - discriminate.
  - reflexivity.
  - reflexivity.
  - intros key l Hkey Hl. cbn in Hkey.
    destruct Hkey as [<-|[<-|[<-|[<-|[<-|[]]]]]]; discriminate.
  - reflexivity.
  - exists net. auto.
Defined.

(** ** The dimensions that a [SideNetwork] derives *)

(** X11.  Over an upstream network whose first layer is not of a
    convolutional kind, [SideNetwork.__init__] takes the declared layer sizes
    as they are: the derived [input_dims] is [[sum of sizes, 1, 1]] and
    [num_units] is the list of sizes, whatever the kinds of the other layers,
    and the upstream [input_dims] is not looked at. *)
Theorem X11_side_first_layer_not_convolutional
    (p : gmap string PyVal) sizes types kind0 :
  p !! "layer_sizes" = Some (ints sizes) ->
  p !! "layer_types" = Some types ->
  py_getitem types 0 = inr kind0 ->
  in_conv_types kind0 = false ->
  derive_input_dims p
  = inr (mkDerived [VInt (list_sum sizes); VInt 1; VInt 1]
           [VInt 1; VInt 1] sizes).
Proof.
  intros Hsizes Htypes Hkind Hconv.
  unfold derive_input_dims, dict_get. rewrite Hsizes, Htypes.
  cbn [res_bind ints]. rewrite py_ints_map_VInt. cbn [res_bind].
  rewrite Hkind. cbn [res_bind]. rewrite Hconv. reflexivity.
Qed.

Lemma X11_witness :
  derive_input_dims
    (<["layer_sizes" := ints [8; 4]%Z]>
     (<["layer_types" := strs ["normal"; "conv"]]> ∅))
  = inr (mkDerived [VInt (list_sum [8; 4]%Z); VInt 1; VInt 1]
           [VInt 1; VInt 1] [8; 4]%Z).
Proof.
  apply (X11_side_first_layer_not_convolutional _ [8; 4]%Z
           (strs ["normal"; "conv"]) (VStr "normal"));
    reflexivity.
Defined.

(** What [SideNetwork.__init__] derives fits together: the channel count is
    the sum of [num_units], and the two spatial extents are the first two
    entries of [nx_ny]. *)
Lemma derive_input_dims_inr p d :
  derive_input_dims p = inr d ->
  exists nx ny rest,
    nx_ny d = nx :: ny :: rest /\
    derived_input_dims d = [VInt (list_sum (units d)); nx; ny].
Proof.
  unfold derive_input_dims. intros E.
  apply res_bind_inr in E as (sizes & _ & E).
  apply res_bind_inr in E as (input_layer_sizes & _ & E).
  cbv zeta in E.
  apply res_bind_inr in E as (layer_types & _ & E).
  apply res_bind_inr in E as (kind0 & _ & E).
  apply res_bind_inr in E as (s & _ & E).
  destruct (all_convolutional s).
  - apply res_bind_inr in E as (dims & _ & E).
    apply res_bind_inr in E as (nx_ny0 & _ & E).
    apply res_bind_inr in E as ([nx_ny1 sizes1] & _ & E).
    apply res_bind_inr in E as (nx & Hnx & E).
    apply res_bind_inr in E as (ny & Hny & [= <-]).
    apply list_get_inr in Hnx, Hny. cbn.
    destruct nx_ny1 as [|a [|b rest]]; try discriminate.
    cbn in Hnx, Hny. injection Hnx as <-. injection Hny as <-.
    eauto.
  - injection E as <-. cbn. eauto.
Qed.

(** X12.  A constructed [SideNetwork] is consistent with itself: its
    [input_dims] is [[sum of num_units, nx, ny]], followed by nothing or by
    one positive lag count, and its [num_space] is [nx * ny]; so the width [sum(num_units) * num_space] to which
    [build_graph] reshapes the assembled input is the product of the first
    three input dimensions.  ([nx] and [ny] are the integers that the two
    spatial entries stand for.)  The network has at least one layer. *)
Theorem X12_side_network_is_consistent
    {Layer : Type} `{LayerFactory Layer} scope upstream pd
    (side : SideNetwork Layer) :
  fst (SideNetwork_init scope upstream pd) = inr side ->
  exists width height nx ny suffix,
    input_dims (side_base side)
    = [VInt (list_sum (num_units side)); width; height] ++ suffix /\
    py_int width = inr nx /\
    py_int height = inr ny /\
    num_space side = (nx * ny)%Z /\
    (suffix = [] \/ exists lag, (0 < lag)%Z /\ suffix = [VInt lag]) /\
    0 < length (layers (side_base side)).
Proof.
  unfold SideNetwork_init. intros E.
  destruct (derive_input_dims upstream) as [e|d] eqn:Hd; [discriminate|].
  destruct (derive_input_dims_inr upstream d Hd)
    as (nx & ny & rest & Hnxny & Hdims).
  destruct (FFNetwork_init scope (VList (derived_input_dims d)) pd)
    as [r [a pd']] eqn:Hinit.
  cbn [fst] in E.
  apply res_bind_inr in E as (base & -> & E).
  apply res_bind_inr in E as (x & Hx & E).
  apply res_bind_inr in E as (y & Hy & E).
  apply res_bind_inr in E as (first & Hfirst & [= <-]).
  cbn [side_base num_space num_units].
  rewrite Hnxny in Hx, Hy. cbn in Hx, Hy.
  apply list_get_inr in Hfirst.
  assert (Hscope : exists sc p, scope = Some sc /\ pd = Some p).
  { destruct scope as [sc|]; [|discriminate].
    destruct pd as [p|]; [|discriminate]. eauto. }
  destruct Hscope as (sc & p & -> & ->).
  destruct (FFNetwork_init_input_dims sc (VList (derived_input_dims d)) p base
              ltac:(discriminate) ltac:(now rewrite Hinit))
    as (suffix & Hin & Hsuffix & _).
  rewrite Hdims in Hin. cbn in Hin.
  exists nx, ny, x, y, suffix.
  repeat (split; [first [assumption | reflexivity]|]).
  apply lookup_lt_Some in Hfirst. exact Hfirst.
Qed.

Lemma X12_witness :
  exists side width height nx ny suffix,
    fst (SideNetwork_init (Layer:=LayerCall) (Some "side")
           example_upstream_params (Some example_single_params)) = inr side /\
    input_dims (side_base side)
    = [VInt (list_sum (num_units side)); width; height] ++ suffix /\
    py_int width = inr nx /\
    py_int height = inr ny /\
    num_space side = (nx * ny)%Z.
Proof.
  destruct (fst (SideNetwork_init (Layer:=LayerCall) (Some "side")
                   example_upstream_params (Some example_single_params)))
    as [e|side] eqn:E; [vm_compute in E; discriminate|].
  destruct (X12_side_network_is_consistent (Some "side")
              example_upstream_params (Some example_single_params) side E)
    as (width & height & nx & ny & suffix & ? & ? & ? & ? & _).
  exists side, width, height, nx, ny, suffix. auto.
Defined.

(** ** Reshaping and concatenating *)

Lemma for_range_seq_total {St} (Inv : nat -> St -> Prop) body n : forall k s,
  (forall i s1, k <= i < k + n -> Inv i s1 ->
     exists s2, body i s1 = inr s2 /\ Inv (S i) s2) ->
  Inv k s ->
  exists s', for_range body (seq k n) s = inr s' /\ Inv (k + n) s'.
Proof.
  induction n as [|n IH]; intros k s Hstep Hk; cbn [seq for_range].
  - exists s. now rewrite Nat.add_0_r.
  - destruct (Hstep k s ltac:(lia) Hk) as (s1 & -> & H1). cbn [res_bind].
    replace (k + S n) with (S k + n) by lia.
    apply IH; [|exact H1]. intros i a Hi. apply Hstep. lia.
Qed.

Lemma total_app l1 l2 : total (l1 ++ l2) = total l1 + total l2.
Proof.
  unfold total. induction l1 as [|x l1 IH]; cbn; [reflexivity|].
  rewrite IH. lia.
Qed.

Lemma total_take_S units i U :
  units !! i = Some U -> total (take (S i) units) = total (take i units) + U.
Proof.
  intros Hi. rewrite (take_S_r units i U Hi), total_app. unfold total. cbn. lia.
Qed.

Lemma total_take_le units : forall i k U,
  i < k -> units !! i = Some U ->
  total (take i units) + U <= total (take k units).
Proof.
  intros i k U Hik Hi. rewrite <- (total_take_S units i U Hi).
  induction Hik as [|k Hle IH]; [lia|].
  destruct (units !! k) as [V|] eqn:Hk.
  - rewrite (total_take_S units k V Hk). lia.
  - apply lookup_ge_None in Hk.
    rewrite (take_ge units (S k)) by lia.
    rewrite (take_ge units k) in IH by lia. exact IH.
Qed.

Lemma list_sum_of_nat units :
  list_sum (map Z.of_nat units) = Z.of_nat (total units).
Proof.
  unfold list_sum, total. induction units as [|u units IH]; cbn [map fold_right].
  - reflexivity.
  - rewrite IH. lia.
Qed.

Lemma list_prod_of_nat dims :
  list_prod (map Z.of_nat dims) = Z.of_nat (numel dims).
Proof.
  unfold list_prod, numel. induction dims as [|d dims IH]; cbn [map fold_right].
  - reflexivity.
  - rewrite IH. lia.
Qed.

Lemma numel_pos dims : Forall (fun d => 0 < d) dims -> 0 < numel dims.
Proof.
  unfold numel. induction 1 as [|d dims Hd _ IH]; cbn; [lia|].
  now apply Nat.mul_pos_pos.
Qed.

Section ReshapingFacts.

Context {R : Type} (zero : R).

(** Reshaping to [[-1, d1, ..., dk]] with positive extents: the leading
    extent is what remains. *)
Lemma tf_reshape_leading (t : Tensor R) dims B :
  Forall (fun d => 0 < d) dims ->
  length (data t) = B * numel dims ->
  tf_reshape t ((-1)%Z :: map Z.of_nat dims)
  = inr (mkTensor (B :: dims) (data t)).
Proof.
  intros Hpos Hlen. unfold tf_reshape.
  assert (Hex : existsb (fun d => (d <? -1)%Z) ((-1)%Z :: map Z.of_nat dims)
                = false).
  { cbn. clear Hlen. induction dims as [|d dims IH]; [reflexivity|]. cbn.
    replace (Z.of_nat d <? -1)%Z with false by (symmetry; apply Z.ltb_ge; lia).
    apply IH. now inversion Hpos. }
  assert (Hkeep : List.filter (fun d => negb (d =? -1)%Z)
                    ((-1)%Z :: map Z.of_nat dims) = map Z.of_nat dims).
  { cbn. clear Hlen Hex. induction dims as [|d dims IH]; [reflexivity|]. cbn.
    replace (Z.of_nat d =? -1)%Z with false by (symmetry; apply Z.eqb_neq; lia).
    cbn. f_equal. apply IH. now inversion Hpos. }
  assert (Hminus : List.filter (fun d => (d =? -1)%Z)
                     ((-1)%Z :: map Z.of_nat dims) = [(-1)%Z]).
  { cbn. f_equal. clear Hlen Hex Hkeep.
    induction dims as [|d dims IH]; [reflexivity|]. cbn.
    replace (Z.of_nat d =? -1)%Z with false by (symmetry; apply Z.eqb_neq; lia).
    apply IH. now inversion Hpos. }
  pose proof (numel_pos dims Hpos) as Hnumel.
  rewrite Hex, Hkeep, Hminus, list_prod_of_nat, Hlen. cbn [length].
  replace (Z.of_nat (B * numel dims) mod Z.of_nat (numel dims))%Z with 0%Z.
  2:{ rewrite Nat2Z.inj_mul. symmetry. apply Z.mod_mul. lia. }
  replace (Z.of_nat (numel dims) =? 0)%Z with false
    by (symmetry; apply Z.eqb_neq; lia).
  cbn [orb negb Z.eqb]. f_equal. f_equal.
  cbn [map Z.eqb]. f_equal.
  - rewrite Nat2Z.inj_mul, Z.div_mul by lia. apply Nat2Z.id.
  - rewrite map_map.
    generalize (Z.to_nat (Z.of_nat (B * numel dims) / Z.of_nat (numel dims))).
    intros x. clear. induction dims as [|d dims IH]; [reflexivity|].
    cbn. replace (Z.of_nat d =? -1)%Z with false
      by (symmetry; apply Z.eqb_neq; lia).
    now rewrite Nat2Z.id, IH.
Qed.

(** Concatenating two tensors of rank 3 on their last axis. *)
Lemma tf_concat_last (a b : Tensor R) B K Ua Ub :
  shape a = [B; K; Ua] -> shape b = [B; K; Ub] ->
  exists c,
    tf_concat zero 2 a b = inr c /\
    shape c = [B; K; Ua + Ub] /\
    length (data c) = B * (K * (Ua + Ub)) /\
    forall r j, r < B * K -> j < Ua + Ub ->
      flat zero c (r * (Ua + Ub) + j)
      = if j <? Ua then flat zero a (r * Ua + j)
        else flat zero b (r * Ub + (j - Ua)).
Proof.
  intros Ha Hb. unfold tf_concat. rewrite Ha, Hb.
  cbn [length Nat.eqb Nat.ltb Nat.leb take drop andb].
  rewrite !bool_decide_eq_true_2 by reflexivity.
  cbn [andb numel fold_right nth app].
  rewrite !Nat.mul_1_r.
  eexists. split; [reflexivity|]. cbn [shape data].
  split; [reflexivity|]. split; [rewrite length_tabulate; lia|].
  intros r j Hr Hj. unfold flat at 1. cbn [data].
  rewrite nth_tabulate by (apply (ravel2_lt (B * K) (Ua + Ub)); assumption).
  change (r * (Ua + Ub) + j) with (ravel2 (Ua + Ub) r j).
  rewrite ravel2_div, ravel2_mod by assumption. reflexivity.
Qed.

End ReshapingFacts.

(** ** The graph of a [SideNetwork] *)

Section SideGraphFacts.

Context {R : Type} (zero : R).
Context {Layer : Type} `{LayerFactory Layer} `{LayerGraph R Layer}.

Variables (self : SideNetwork Layer) (input_network : FFNetwork Layer).
Variables (input_outputs : list (Tensor R)) (units : list nat) (B K : nat).

(** The upstream network has been built, and the side network sees the
    outputs of its layers as they are: [K] spatial positions, and for layer
    [i] as many entries per position as [num_units[i]] says. *)
Hypothesis space : num_space self = Z.of_nat K.
Hypothesis space_pos : 0 < K.
Hypothesis units_eq : num_units self = map Z.of_nat units.
Hypothesis units_pos : Forall (fun u => 0 < u) units.
Hypothesis upstream_layers : length units <= length (layers input_network).
Hypothesis same_space :
  K = 1 \/
  forall i l, i < length units -> layers input_network !! i = Some l ->
    native_space (output_dims l) = inr (Z.of_nat K).
Hypothesis outputs_length : length input_outputs = length units.
Hypothesis outputs_size :
  forall i out U, input_outputs !! i = Some out -> units !! i = Some U ->
    length (data out) = B * (K * U).

Lemma new_slice_as_it_is i U out :
  units !! i = Some U -> input_outputs !! i = Some out ->
  new_slice zero self input_network input_outputs i
  = inr (mkTensor [B; K; U] (data out)).
Proof.
  intros HU Hout.
  assert (Hi : i < length units) by (eapply lookup_lt_Some; eassumption).
  destruct (lookup_lt_is_Some_2 (layers input_network) i) as (l & Hl); [lia|].
  unfold new_slice.
  match goal with
  | |- res_bind ?x _ = _ => assert (Hfirst : x = inr true)
  end.
  { destruct (Z.eqb_spec (num_space self) 1) as [|Hne]; [reflexivity|].
    unfold list_get. rewrite Hl. cbn [res_bind].
    destruct same_space as [->|Hsame]; [rewrite space in Hne; lia|].
    rewrite (Hsame i l Hi Hl). cbn [res_bind]. now rewrite space, Z.eqb_refl. }
  rewrite Hfirst. cbn [res_bind].
  unfold layer_outputs, list_get. rewrite Hl, Hout. cbn [res_bind].
  rewrite units_eq, list_lookup_fmap, HU. cbn [fmap option_fmap option_map res_bind].
  rewrite space.
  apply (tf_reshape_leading out [K; U] B).
  - repeat constructor; [assumption|].
    exact (Forall_lookup_1 _ _ _ _ units_pos HU).
  - unfold numel. cbn. rewrite Nat.mul_1_r. eauto.
Qed.

(** The first loop of [SideNetwork.build_graph] puts, at every sample and
    position, the entries of the upstream layers side by side. *)
Lemma assemble_inputs_run :
  units <> [] ->
  exists raw,
    assemble_inputs zero self input_network input_outputs = inr (Some raw) /\
    shape raw = [B; K; total units] /\
    length (data raw) = B * (K * total units) /\
    forall r i U out u,
      r < B * K -> units !! i = Some U -> input_outputs !! i = Some out ->
      u < U ->
      flat zero raw (r * total units + total (take i units) + u)
      = flat zero out (r * U + u).
Proof.
  intros Hne. unfold assemble_inputs. rewrite units_eq, length_map.
  assert (Hsome : exists more, length units = S more)
    by (destruct units; [congruence|cbn; eauto]).
  destruct Hsome as (more & Hlen). rewrite Hlen.
  destruct (lookup_lt_is_Some_2 input_outputs 0) as (out0 & Hout0); [lia|].
  destruct (lookup_lt_is_Some_2 units 0) as (U0 & HU0); [lia|].
  rewrite (new_slice_as_it_is 0 U0 out0 HU0 Hout0). cbn [res_bind].
  set (Inv := fun k (raw : Tensor R) =>
    shape raw = [B; K; total (take k units)] /\
    length (data raw) = B * (K * total (take k units)) /\
    forall r i U out u,
      r < B * K -> i < k -> units !! i = Some U ->
      input_outputs !! i = Some out -> u < U ->
      flat zero raw (r * total (take k units) + total (take i units) + u)
      = flat zero out (r * U + u)).
  destruct (for_range_seq_total Inv
              (fun input_nn inputs_raw =>
                 res_bind
                   (new_slice zero self input_network input_outputs input_nn)
                   (fun slice => tf_concat zero 2 inputs_raw slice))
              more 1 (mkTensor [B; K; U0] (data out0)))
    as (raw & Hrun & Hshape & Hdata & Hentries).
  - intros k raw Hk (Hshape & Hdata & Hentries).
    destruct (lookup_lt_is_Some_2 units k) as (U & HU); [lia|].
    destruct (lookup_lt_is_Some_2 input_outputs k) as (out & Hout); [lia|].
    rewrite (new_slice_as_it_is k U out HU Hout). cbn [res_bind].
    destruct (tf_concat_last zero raw (mkTensor [B; K; U] (data out)) B K
                (total (take k units)) U Hshape eq_refl)
      as (c & -> & Hcs & Hcl & Hc).
    exists c. split; [reflexivity|]. unfold Inv.
    rewrite (total_take_S units k U HU).
    split; [exact Hcs|]. split; [exact Hcl|].
    intros r i V out' u Hr Hi HV Hout' Hu.
    destruct (Nat.eq_dec i k) as [->|Hik].
    + rewrite HU in HV. injection HV as <-.
      rewrite Hout in Hout'. injection Hout' as <-.
      rewrite <- Nat.add_assoc, Hc by lia.
      destruct (Nat.ltb_spec (total (take k units) + u) (total (take k units)));
        [lia|].
      unfold flat. cbn [data]. f_equal. lia.
    + pose proof (total_take_le units i k V ltac:(lia) HV).
      rewrite <- Nat.add_assoc, Hc by lia.
      destruct (Nat.ltb_spec (total (take i units) + u) (total (take k units)));
        [|lia].
      rewrite Nat.add_assoc. apply Hentries; [assumption|lia|assumption..].
  - assert (Htake : total (take 1 units) = U0).
    { rewrite (total_take_S units 0 U0 HU0). reflexivity. }
    unfold Inv. rewrite Htake. cbn [shape data].
    split; [reflexivity|]. split; [now apply (outputs_size 0)|].
    intros r i U out u Hr Hi HU Hout Hu.
    assert (i = 0) as -> by lia.
    rewrite HU0 in HU. injection HU as <-.
    rewrite Hout0 in Hout. injection Hout as <-.
    rewrite take_0. unfold total, flat. cbn [fold_right data]. f_equal. lia.
  - rewrite Hrun. cbn [res_bind]. exists raw. split; [reflexivity|].
    assert (Hall : take (1 + more) units = units)
      by (apply take_ge; cbn; lia).
    rewrite Hall in Hshape, Hdata, Hentries.
    split; [exact Hshape|]. split; [exact Hdata|].
    intros r i U out u Hr HU Hout Hu.
    apply Hentries; try assumption.
    apply lookup_lt_Some in HU. cbn. lia.
Qed.

End SideGraphFacts.

Lemma total_pos units :
  units <> [] -> Forall (fun u => 0 < u) units -> 0 < total units.
Proof.
  intros Hne Hpos. destruct Hpos as [|u units Hu _]; [congruence|].
  unfold total. cbn. lia.
Qed.

(** X13.  [SideNetwork.build_graph] assembles the input of its first layer
    from the outputs of the upstream layers.  When the upstream layers have
    the spatial extent of the side network ([K] positions, or a side network
    with a single position) and layer [i] stored [K * num_units[i]] entries
    per sample, the assembled tensor has shape [(B, sum(num_units) * K)];
    for each sample it lists the positions in order, and at each position
    the entries of the first upstream layer, then those of the second, and so
    on: entry [s * sum(num_units) + (num_units[0] + ... + num_units[i-1]) + u]
    of a sample is entry [s * num_units[i] + u] of layer [i]'s output.  The
    layers of the side network are then built on that tensor. *)
Theorem X13_side_inputs_are_assembled
    {R : Type} (zero : R)
    {Layer : Type} `{LayerFactory Layer} `{LayerGraph R Layer}
    (self : SideNetwork Layer) (input_network : FFNetwork Layer)
    (input_outputs : list (Tensor R)) (units : list nat) (B K : nat)
    params_dict batch_size use_dropout :
  num_space self = Z.of_nat K ->
  0 < K ->
  num_units self = map Z.of_nat units ->
  units <> [] ->
  Forall (fun u => 0 < u) units ->
  length units <= length (layers input_network) ->
  (K = 1 \/
   forall i l, i < length units -> layers input_network !! i = Some l ->
     native_space (output_dims l) = inr (Z.of_nat K)) ->
  length input_outputs = length units ->
  (forall i out U, input_outputs !! i = Some out -> units !! i = Some U ->
     shape out = [B; K * U] /\ length (data out) = B * (K * U)) ->
  exists inputs,
    shape inputs = [B; total units * K] /\
    (forall b s i U out u,
        b < B -> s < K -> units !! i = Some U ->
        input_outputs !! i = Some out -> u < U ->
        get2 zero inputs b (s * total units + total (take i units) + u)
        = get2 zero out b (s * U + u)) /\
    SideNetwork_build_graph zero self input_network input_outputs params_dict
      batch_size use_dropout
    = match
        for_range (side_build_layer self params_dict batch_size use_dropout)
          (seq 0 (num_layers (side_base self))) (OneTensor inputs, [])
      with
      | inl e => inl (Raised e)
      | inr s => inr (inputs, snd s)
      end.
Proof.
  intros Hspace HK Hunits Hne Hpos Hup Hsame Hlen Houts.
  destruct (assemble_inputs_run zero self input_network input_outputs units
              B K Hspace HK Hunits Hpos Hup Hsame Hlen
              (fun i out U Ho HU => proj2 (Houts i out U Ho HU)) Hne)
    as (raw & Hrun & Hshape & Hdata & Hentries).
  exists (mkTensor [B; total units * K] (data raw)).
  split; [reflexivity|]. split.
  - intros b s i U out u Hb Hs HU Hout Hu.
    destruct (Houts i out U Hout HU) as (Hsh & _).
    unfold get2. cbn [shape]. rewrite Hsh. unfold ravel2.
    change (flat zero (mkTensor [B; total units * K] (data raw)))
      with (flat zero raw).
    replace (b * (total units * K) + (s * total units + total (take i units) + u))
      with ((b * K + s) * total units + total (take i units) + u) by lia.
    rewrite (Hentries (b * K + s) i U out u); try assumption.
    + f_equal. lia.
    + nia.
  - unfold SideNetwork_build_graph. rewrite Hrun.
    rewrite Hunits, list_sum_of_nat, Hspace, <- Nat2Z.inj_mul.
    change [(-1)%Z; Z.of_nat (total units * K)]
      with ((-1)%Z :: map Z.of_nat [total units * K]).
    rewrite (tf_reshape_leading raw [total units * K] B).
    + cbn [res_bind].
      destruct (for_range _ _ _) as [e|s]; reflexivity.
    + repeat constructor. pose proof (total_pos units Hne Hpos). nia.
    + rewrite Hdata. unfold numel. cbn. lia.
Qed.

Lemma X13_witness :
  exists inputs,
    shape inputs = [1; 6] /\
    get2 0%Z inputs 0 (1 * 3 + 2 + 0) = 6%Z /\
    get2 0%Z inputs 0 (1 * 3 + 0 + 1) = 4%Z /\
    exists built,
      SideNetwork_build_graph 0%Z example_side example_side_upstream
        example_side_outputs VNone (Some 1) false
      = inr (inputs, built).
Proof.
  destruct (X13_side_inputs_are_assembled 0%Z example_side
              example_side_upstream example_side_outputs [2; 1] 1 2
              VNone (Some 1) false)
    as (inputs & Hshape & Hentries & Hrun).
  - reflexivity.
  - lia.
  - reflexivity.
  - discriminate.
  - repeat constructor.
  - simpl. lia.
  - right. intros i l Hi Hl.
    destruct i as [|[|i]]; simpl in Hl; try discriminate;
      injection Hl as <-; reflexivity.
  - reflexivity.
  - intros i out U Hout HU.
    destruct i as [|[|i]]; simpl in Hout, HU; try discriminate;
      injection Hout as <-; injection HU as <-; split; reflexivity.
  - exists inputs. split; [exact Hshape|].
    split; [exact (Hentries 0 1 1 1 _ 0 ltac:(lia) ltac:(lia) eq_refl eq_refl
                     ltac:(lia))|].
    split; [exact (Hentries 0 1 0 2 _ 1 ltac:(lia) ltac:(lia) eq_refl eq_refl
                     ltac:(lia))|].
    rewrite Hrun. simpl. eauto.
Defined.

(** X14.  [SideNetwork.build_graph] does not embed in time: in a successful
    build every layer of the side network is called with the running input
    as it is (the assembled tensor for the first layer, the outputs of the
    layer before for the others) and with the batch size, whatever its
    [time_expand] entry says. *)
Theorem X14_side_layers_are_not_embedded
    {R : Type} (zero : R)
    {Layer : Type} `{LayerFactory Layer} `{LayerGraph R Layer}
    (self : SideNetwork Layer) (input_network : FFNetwork Layer)
    input_outputs params_dict batch_size use_dropout inputs built :
  SideNetwork_build_graph zero self input_network input_outputs params_dict
    batch_size use_dropout = inr (inputs, built) ->
  length built = num_layers (side_base self) /\
  forall i call outputs,
    built !! i = Some (call, outputs) ->
    exists l x,
      layers (side_base self) !! i = Some l /\
      running_input (OneTensor inputs) built i = Some x /\
      call = mkBuild x params_dict batch_size use_dropout /\
      layer_build_graph l call = inr outputs.
Proof.
  unfold SideNetwork_build_graph. intros E.
  destruct (assemble_inputs zero self input_network input_outputs)
    as [e|[raw|]]; try discriminate.
  destruct (tf_reshape raw _) as [e|inputs']; [discriminate|].
  cbn [res_bind] in E.
  destruct (for_range _ _ _) as [e|s] eqn:Hloop; [discriminate|].
  cbn [res_bind] in E. injection E as -> <-.
  set (Inv := fun k (s : Built R) =>
    length (snd s) = k /\
    running_input (OneTensor inputs) (snd s) k = Some (fst s) /\
    forall i call outputs,
      snd s !! i = Some (call, outputs) ->
      exists l x,
        layers (side_base self) !! i = Some l /\
        running_input (OneTensor inputs) (snd s) i = Some x /\
        call = mkBuild x params_dict batch_size use_dropout /\
        layer_build_graph l call = inr outputs).
  assert (Hinv : Inv (0 + num_layers (side_base self)) s).
  { eapply (for_range_seq_inv Inv); [| |exact Hloop].
    - intros i [cur done] s2 _ (Hlen & Hcur & Hcalls) Hbody.
      cbn [fst snd] in *. unfold side_build_layer in Hbody.
      apply res_bind_inr in Hbody as (l & Hl & Hbody).
      apply res_bind_inr in Hbody as (outputs & Hout & [= <-]).
      apply list_get_inr in Hl.
      unfold Inv. cbn [fst snd].
      split; [rewrite length_app; cbn; lia|]. split.
      { cbn. now rewrite list_lookup_middle. }
      intros j call' outputs' Hj.
      apply lookup_snoc_Some in Hj as [(Hj & Hj')|(-> & [= <- <-])].
      + destruct (Hcalls j call' outputs' Hj') as (l' & x & ? & Hx & ? & ?).
        exists l', x.
        rewrite (running_input_app (OneTensor inputs) done) by lia. auto.
      + exists l, cur.
        rewrite Hlen, (running_input_app (OneTensor inputs) done) by lia.
        auto.
    - unfold Inv. cbn. repeat split; auto.
      intros i call outputs Hi. now rewrite lookup_nil in Hi. }
  destruct Hinv as (Hlen & _ & Hcalls). auto.
Qed.

Lemma X14_witness :
  exists inputs built call outputs,
    SideNetwork_build_graph 0%Z example_side example_side_upstream
      example_side_outputs VNone (Some 1) false = inr (inputs, built) /\
    time_expand (side_base example_side) !! 0 = Some 3%Z /\
    built !! 0 = Some (call, outputs) /\
    call = mkBuild (OneTensor inputs) VNone (Some 1) false.
Proof.
  destruct (SideNetwork_build_graph 0%Z example_side example_side_upstream
              example_side_outputs VNone (Some 1) false)
    as [e|[inputs built]] eqn:E; [vm_compute in E; discriminate|].
  destruct (X14_side_layers_are_not_embedded 0%Z example_side
              example_side_upstream example_side_outputs VNone (Some 1) false
              inputs built E) as (Hlen & Hcalls).
  destruct (lookup_lt_is_Some_2 built 0) as ((call & outputs) & Hb);
    [rewrite Hlen; simpl; lia|].
  destruct (Hcalls 0 call outputs Hb) as (l & x & _ & Hx & Hcall & _).
  simpl in Hx. injection Hx as <-.
  exists inputs, built, call, outputs. auto.
Defined.

(** ** Binocular slices *)

Section SlicingFacts.

Context {R : Type} (zero : R).

(** A slice of the third axis of a tensor of rank 4. *)
Lemma tf_slice_axis2_run (t : Tensor R) B C N F s0 n :
  shape t = [B; C; N; F] ->
  s0 + n <= N ->
  exists sl,
    tf_slice_axis2 zero t (Z.of_nat s0) (Z.of_nat n) = inr sl /\
    shape sl = [B; C; n; F] /\
    length (data sl) = B * C * n * F /\
    forall bo s f, bo < B * C -> s < n -> f < F ->
      flat zero sl (ravel3 n F bo s f)
      = flat zero t (ravel3 N F bo (s0 + s) f).
Proof.
  intros Hsh Hle. unfold tf_slice_axis2. rewrite Hsh.
  replace (Z.of_nat n =? -1)%Z with false by (symmetry; apply Z.eqb_neq; lia).
  replace (Z.of_nat s0 <? 0)%Z with false by (symmetry; apply Z.ltb_ge; lia).
  replace (Z.of_nat n <? 0)%Z with false by (symmetry; apply Z.ltb_ge; lia).
  replace (Z.of_nat N <? Z.of_nat s0 + Z.of_nat n)%Z with false
    by (symmetry; apply Z.ltb_ge; lia).
  cbn [orb]. rewrite !Nat2Z.id.
  eexists. split; [reflexivity|]. cbn [shape data].
  split; [reflexivity|]. split; [apply length_tabulate|].
  intros bo s f Hbo Hs Hf. unfold flat at 1. cbn [data].
  rewrite nth_tabulate by now apply ravel3_lt.
  rewrite ravel3_fst, ravel3_snd, ravel3_trd by assumption.
  reflexivity.
Qed.

(** Concatenating two tensors of rank 4 on their last axis. *)
Lemma tf_concat_last4 (a b : Tensor R) B C K Fa Fb :
  shape a = [B; C; K; Fa] -> shape b = [B; C; K; Fb] ->
  exists c,
    tf_concat zero 3 a b = inr c /\
    shape c = [B; C; K; Fa + Fb] /\
    length (data c) = B * (C * K) * (Fa + Fb) /\
    forall q j, q < B * (C * K) -> j < Fa + Fb ->
      flat zero c (q * (Fa + Fb) + j)
      = if j <? Fa then flat zero a (q * Fa + j)
        else flat zero b (q * Fb + (j - Fa)).
Proof.
  intros Ha Hb. unfold tf_concat. rewrite Ha, Hb.
  cbn [length Nat.eqb Nat.ltb Nat.leb take drop andb].
  rewrite !bool_decide_eq_true_2 by reflexivity.
  cbn [andb numel fold_right nth app].
  rewrite !Nat.mul_1_r.
  eexists. split; [reflexivity|]. cbn [shape data].
  split; [reflexivity|]. split; [rewrite length_tabulate; lia|].
  intros q j Hq Hj. unfold flat at 1. cbn [data].
  rewrite nth_tabulate
    by (apply (ravel2_lt (B * (C * K)) (Fa + Fb)); assumption).
  change (q * (Fa + Fb) + j) with (ravel2 (Fa + Fb) q j).
  rewrite ravel2_div, ravel2_mod by assumption. reflexivity.
Qed.

End SlicingFacts.

(** X15.  The binocular branch of [SideNetwork.build_graph].  For an
    upstream layer with [N] spatial positions and [F] filters, where [N] is
    at least twice the [K > 1] positions of the side network and
    [num_units] says [2 * F] for the layer, the slice taken from the layer's
    output has shape [(B, K, 2 * F)]: at position [s] it holds the [F]
    entries of upstream position [s], followed by the [F] entries of
    upstream position [K + s].  Positions from [2 * K] on are dropped. *)
Theorem X15_binocular_slice
    {R : Type} (zero : R)
    {Layer : Type} `{LayerFactory Layer} `{LayerGraph R Layer}
    (self : SideNetwork Layer) (input_network : FFNetwork Layer)
    (input_outputs : list (Tensor R)) i l out (B K N F : nat) :
  num_space self = Z.of_nat K ->
  1 < K ->
  2 * K <= N ->
  0 < F ->
  layers input_network !! i = Some l ->
  native_space (output_dims l) = inr (Z.of_nat N) ->
  py_getitem (output_dims l) 0 = inr (VInt (Z.of_nat F)) ->
  input_outputs !! i = Some out ->
  length (data out) = B * (N * F) ->
  num_units self !! i = Some (Z.of_nat (2 * F)) ->
  exists slice,
    new_slice zero self input_network input_outputs i = inr slice /\
    shape slice = [B; K; 2 * F] /\
    forall b s f, b < B -> s < K -> f < F ->
      flat zero slice (ravel3 K (2 * F) b s f)
      = flat zero out (ravel3 N F b s f) /\
      flat zero slice (ravel3 K (2 * F) b s (F + f))
      = flat zero out (ravel3 N F b (K + s) f).
Proof.
  intros Hspace HK HN HF Hl Hnative Hfilters Hout Hlen Hunits.
  unfold new_slice.
  replace (num_space self =? 1)%Z with false
    by (symmetry; apply Z.eqb_neq; lia).
  unfold layer_outputs, list_get. rewrite Hl, Hout, Hunits. cbn [res_bind].
  rewrite Hnative, Hfilters. cbn [res_bind py_int].
  replace (num_space self =? Z.of_nat N)%Z with false
    by (symmetry; apply Z.eqb_neq; lia).
  change [(-1)%Z; 1%Z; Z.of_nat N; Z.of_nat F]
    with ((-1)%Z :: map Z.of_nat [1; N; F]).
  rewrite (tf_reshape_leading out [1; N; F] B).
  2:{ repeat constructor; lia. }
  2:{ unfold numel. cbn. lia. }
  cbn [res_bind]. rewrite Hspace.
  set (tmp := mkTensor [B; 1; N; F] (data out)).
  destruct (tf_slice_axis2_run zero tmp B 1 N F 0 K eq_refl ltac:(lia))
    as (left_post & Hleft & Hlsh & _ & Hl_entries).
  destruct (tf_slice_axis2_run zero tmp B 1 N F K K eq_refl ltac:(lia))
    as (right_post & Hright & Hrsh & _ & Hr_entries).
  change 0%Z with (Z.of_nat 0). rewrite Hleft. cbn [res_bind].
  rewrite Hright. cbn [res_bind].
  destruct (tf_concat_last4 zero left_post right_post B 1 K F F Hlsh Hrsh)
    as (both & -> & Hbsh & Hblen & Hb_entries).
  cbn [res_bind].
  change [(-1)%Z; Z.of_nat K; Z.of_nat (2 * F)]
    with ((-1)%Z :: map Z.of_nat [K; 2 * F]).
  rewrite (tf_reshape_leading both [K; 2 * F] B).
  2:{ repeat constructor; lia. }
  2:{ rewrite Hblen. unfold numel. cbn. lia. }
  eexists. split; [reflexivity|]. split; [reflexivity|].
  intros b s f Hb Hs Hf.
  change (flat zero (mkTensor [B; K; 2 * F] (data both)))
    with (flat zero both).
  assert (Hq : b * K + s < B * (1 * K)) by nia.
  assert (Hbo : b < B * 1) by lia.
  split.
  - replace (ravel3 K (2 * F) b s f) with ((b * K + s) * (F + F) + f)
      by (unfold ravel3; lia).
    rewrite Hb_entries by (assumption || lia).
    destruct (Nat.ltb_spec f F); [|lia].
    change ((b * K + s) * F + f) with (ravel3 K F b s f).
    rewrite Hl_entries by assumption. reflexivity.
  - replace (ravel3 K (2 * F) b s (F + f))
      with ((b * K + s) * (F + F) + (F + f)) by (unfold ravel3; lia).
    rewrite Hb_entries by (assumption || lia).
    destruct (Nat.ltb_spec (F + f) F); [lia|].
    replace (F + f - F) with f by lia.
    change ((b * K + s) * F + f) with (ravel3 K F b s f).
    rewrite Hr_entries by assumption. reflexivity.
Qed.

Lemma X15_witness :
  exists slice,
    new_slice 0%Z example_binocular_side example_binocular_upstream
      example_binocular_outputs 0 = inr slice /\
    shape slice = [1; 2; 2] /\
    flat 0%Z slice (ravel3 2 2 0 1 0) = 2%Z /\
    flat 0%Z slice (ravel3 2 2 0 1 1) = 4%Z.
Proof.
  destruct (X15_binocular_slice 0%Z example_binocular_side
              example_binocular_upstream example_binocular_outputs 0
              (mkCall "BiConvLayer" ("biconv_layer", 0)
                 [("input_dims", ints [1; 4; 1]%Z); ("num_filters", VInt 1)])
              (mkTensor [1; 4] [1; 2; 3; 4]%Z) 1 2 4 1)
    as (slice & Hrun & Hshape & Hentries);
    try reflexivity; try lia.
  exists slice. split; [exact Hrun|]. split; [exact Hshape|].
  exact (Hentries 0 1 0 ltac:(lia) ltac:(lia) ltac:(lia)).
Defined.

(** ** The graph of a [SamplerNetwork] *)

(** X16.  In a successful [SamplerNetwork.build_graph], every layer that is a
    [GridSampleLayer] is given the pair [[image, locations]] that the call
    resolved from its inputs, whatever the layer before produced; every
    other layer is given the running input (the inputs of the call for the
    first layer, the outputs of the layer before for the others).  As in
    [FFNetwork.build_graph], a layer whose lag count is not positive receives
    these inputs as they are, with the batch size. *)
Theorem X16_grid_sample_layers_get_the_pair
    {R : Type} (zero one : R) (add mul : R -> R -> R)
    {Layer : Type} `{LayerGraph R Layer} (self : SamplerNetwork R Layer)
    inputs params_dict batch_size use_dropout image locs after built :
  resolve_inputs (define_sampler_variables self) inputs
  = inr (image, locs, after) ->
  fst (SamplerNetwork_build_graph zero one add mul self inputs params_dict
         batch_size use_dropout) = inr built ->
  length built = num_layers (sampler_base self) /\
  forall i call outputs,
    built !! i = Some (call, outputs) ->
    exists lags l x,
      time_expand (sampler_base self) !! i = Some lags /\
      layers (sampler_base self) !! i = Some l /\
      running_input inputs built i = Some x /\
      layer_call zero one add mul lags
        (if is_GridSampleLayer l then TensorList [image; Some locs] else x)
        params_dict batch_size use_dropout = inr call /\
      layer_build_graph l call = inr outputs /\
      ((lags <= 0)%Z -> is_GridSampleLayer l = true ->
       call = mkBuild (TensorList [image; Some locs]) params_dict batch_size
                use_dropout).
Proof.
  intros Hres E. unfold SamplerNetwork_build_graph in E. rewrite Hres in E.
  cbn [fst] in E.
  assert (Hbase : sampler_base after = sampler_base self).
  { unfold resolve_inputs in Hres.
    assert (Hd : sampler_base (define_sampler_variables self)
                 = sampler_base self)
      by (unfold define_sampler_variables; now destruct (locations self)).
    destruct inputs as [t|[|a [|b [|c rest]]]]; try discriminate.
    - apply res_bind_inr in Hres as (? & _ & [= _ _ <-]). exact Hd.
    - apply res_bind_inr in Hres as (? & _ & [= _ _ <-]). exact Hd.
    - destruct b.
      + injection Hres as _ _ <-. exact Hd.
      + apply res_bind_inr in Hres as (? & _ & [= _ _ <-]). exact Hd. }
  apply res_bind_inr in E as (s & Hloop & [= <-]).
  rewrite Hbase in Hloop.
  set (Inv := fun k (s : Built R) =>
    length (snd s) = k /\
    running_input inputs (snd s) k = Some (fst s) /\
    forall i call outputs,
      snd s !! i = Some (call, outputs) ->
      exists lags l x,
        time_expand (sampler_base self) !! i = Some lags /\
        layers (sampler_base self) !! i = Some l /\
        running_input inputs (snd s) i = Some x /\
        layer_call zero one add mul lags
          (if is_GridSampleLayer l then TensorList [image; Some locs] else x)
          params_dict batch_size use_dropout = inr call /\
        layer_build_graph l call = inr outputs).
  assert (Hinv : Inv (0 + num_layers (sampler_base self)) s).
  { eapply (for_range_seq_inv Inv); [| |exact Hloop].
    - intros i [cur done] s2 _ (Hlen & Hcur & Hcalls) Hbody.
      cbn [fst snd] in *. unfold sampler_build_layer in Hbody.
      rewrite Hbase in Hbody.
      apply res_bind_inr in Hbody as (l & Hl & Hbody).
      unfold build_layer in Hbody.
      apply res_bind_inr in Hbody as (lags & Hlags & Hbody).
      apply res_bind_inr in Hbody as (l' & Hl' & Hbody).
      rewrite Hl in Hl'. injection Hl' as <-.
      apply res_bind_inr in Hbody as (call & Hcall & Hbody).
      apply res_bind_inr in Hbody as (outputs & Hout & [= <-]).
      apply list_get_inr in Hl, Hlags.
      unfold Inv. cbn [fst snd].
      split; [rewrite length_app; cbn; lia|]. split.
      { cbn. now rewrite list_lookup_middle. }
      intros j call' outputs' Hj.
      apply lookup_snoc_Some in Hj as [(Hj & Hj')|(-> & [= <- <-])].
      + destruct (Hcalls j call' outputs' Hj')
          as (lags' & l' & x & ? & ? & Hx & ? & ?).
        exists lags', l', x.
        rewrite (running_input_app inputs done) by lia. auto.
      + exists lags, l, cur.
        rewrite Hlen, (running_input_app inputs done) by lia. auto.
    - unfold Inv. cbn. repeat split; auto.
      intros i call outputs Hi. now rewrite lookup_nil in Hi. }
  destruct Hinv as (Hlen & _ & Hcalls). split; [exact Hlen|].
  intros i call outputs Hi.
  destruct (Hcalls i call outputs Hi)
    as (lags & l & x & Hlags & Hl & Hx & Hcall & Hout).
  exists lags, l, x. repeat (split; [assumption|]).
  intros Hle Hgrid. rewrite Hgrid in Hcall. unfold layer_call in Hcall.
  destruct (Z.ltb_spec 0 lags); [lia|]. now injection Hcall as <-.
Qed.

Lemma X16_witness :
  exists built call outputs,
    fst (SamplerNetwork_build_graph 0%Z 1%Z Z.add Z.mul example_sampler
           (OneTensor example_batch) VNone (Some 3) false) = inr built /\
    built !! 0 = Some (call, outputs) /\
    call = mkBuild (TensorList [Some example_batch; Some example_locations])
             VNone (Some 3) false.
Proof.
  destruct (fst (SamplerNetwork_build_graph 0%Z 1%Z Z.add Z.mul
                   example_sampler (OneTensor example_batch) VNone (Some 3)
                   false)) as [e|built] eqn:E; [vm_compute in E; discriminate|].
  destruct (X16_grid_sample_layers_get_the_pair 0%Z 1%Z Z.add Z.mul
              example_sampler (OneTensor example_batch) VNone (Some 3) false
              (Some example_batch) example_locations
              (define_sampler_variables example_sampler) built eq_refl E)
    as (Hlen & Hcalls).
  destruct (lookup_lt_is_Some_2 built 0) as ((call & outputs) & Hb);
    [rewrite Hlen; vm_compute; lia|].
  destruct (Hcalls 0 call outputs Hb)
    as (lags & l & x & Hlags & Hl & _ & _ & _ & Hpair).
  exists built, call, outputs. split; [reflexivity|]. split; [exact Hb|].
  vm_compute in Hlags, Hl. injection Hlags as <-. injection Hl as <-.
  apply Hpair; [lia|reflexivity].
Defined.

(** X17.  The locations that a [SamplerNetwork] uses from one build to the
    next.  A network without a location array and without [locations_var]
    cannot be built from an image alone: a single tensor, [[image]] and
    [[image, None]] all raise the [AttributeError] of reading
    [locations_var].  After a build with explicit locations the object holds
    them as [locations_var]; at the next build from an image alone they are
    used if the network has no location array, but a network that has one
    creates its variable anew and uses the array again. *)
Theorem X17_locations_from_build_to_build
    {R : Type} (zero one : R) (add mul : R -> R -> R)
    {Layer : Type} `{LayerGraph R Layer} (self : SamplerNetwork R Layer) :
  (locations self = None -> locations_var self = None ->
   forall params_dict batch_size use_dropout image image',
     fst (SamplerNetwork_build_graph zero one add mul self (OneTensor image)
            params_dict batch_size use_dropout)
     = inl (AttributeError "locations_var") /\
     fst (SamplerNetwork_build_graph zero one add mul self
            (TensorList [image']) params_dict batch_size use_dropout)
     = inl (AttributeError "locations_var") /\
     fst (SamplerNetwork_build_graph zero one add mul self
            (TensorList [image'; None]) params_dict batch_size use_dropout)
     = inl (AttributeError "locations_var")) /\
  (forall params_dict batch_size use_dropout image explicit next,
     let after :=
       snd (SamplerNetwork_build_graph zero one add mul self
              (TensorList [image; Some explicit]) params_dict batch_size
              use_dropout) in
     exists again,
       resolve_inputs (define_sampler_variables after) (OneTensor next)
       = inr (Some next,
              match locations self with
              | Some array => array
              | None => explicit
              end,
              again)).
Proof.
  split.
  - intros Hnone Hvar params_dict batch_size use_dropout image image'.
    unfold SamplerNetwork_build_graph, define_sampler_variables.
    rewrite Hnone. unfold resolve_inputs, get_locations_var. rewrite Hvar.
    cbn. auto.
  - intros params_dict batch_size use_dropout image explicit next.
    cbv zeta. unfold SamplerNetwork_build_graph.
    unfold define_sampler_variables at 2 3.
    destruct (locations self) as [array|] eqn:Harray; cbn.
    + eauto.
    + unfold define_sampler_variables. cbn. rewrite Harray. cbn. eauto.
Qed.

Lemma X17_witness :
  fst (SamplerNetwork_build_graph 0%Z 1%Z Z.add Z.mul
         (mkSampler example_sampler_base None None) (OneTensor example_batch)
         VNone (Some 3) false)
  = inl (AttributeError "locations_var").
Proof.
  apply (proj1 (X17_locations_from_build_to_build 0%Z 1%Z Z.add Z.mul
                  (mkSampler example_sampler_base None None))
           eq_refl eq_refl VNone (Some 3) false example_batch
           (Some example_batch)).
Defined.

(** ** Constructing a [SamplerNetwork] *)

Section SamplerInitFacts.

Context {Layer : Type} `{LayerFactory Layer}.

(** The [input_dims] of a network constructed from the dictionary's entry. *)
Lemma FFNetwork_init_entry_dims scope p (net : FFNetwork Layer) :
  fst (FFNetwork_init (Some scope) VNone (Some p)) = inr net ->
  exists e suffix,
    p !! "input_dims" = Some e /\ e <> VNone /\
    input_dims net = formatted e ++ suffix /\
    (suffix = [] \/ exists lag, (0 < lag)%Z /\ suffix = [VInt lag]).
Proof.
  intros E.
  destruct (FFNetwork_init_success scope VNone p net E)
    as (p1 & dims & sizes & types & d & spread & _ & Hcase & _ & _ & _ & _
        & Hdef & Hnet & _).
  cbv zeta in *.
  destruct Hcase as [(Hv & _)|(_ & e & He & Hne & -> & _)]; [congruence|].
  apply define_network_inr in Hdef
    as (supplied & declared & _ & _ & _ & _ & _ & _ & _ & H0 & Hpos).
  rewrite Hnet. cbn [input_dims].
  destruct (num_layers net) as [|n].
  - exists e, []. rewrite app_nil_r. destruct (H0 eq_refl) as (_ & ->). auto.
  - exists e, (lag_suffix declared).
    repeat (split; [first [assumption | apply Hpos; lia]|]).
    apply lag_suffix_cases.
Qed.

End SamplerInitFacts.

(** X18.  [SamplerNetwork.__init__] does not use its [input_dims] argument:
    it constructs the same network whatever the argument is, and leaves the
    argument as it is.  The input dimensions are those of the dictionary: a
    dictionary without [input_dims] raises a [KeyError], and the
    [input_dims] of a constructed network is the dictionary's entry, padded
    to three entries (or made [[1, n, 1]] when it is not a list), followed
    by nothing or by one positive lag count. *)
Theorem X18_sampler_input_dims_come_from_the_dictionary
    {R : Type} (zero : R) {Layer : Type} `{LayerFactory Layer}
    (np_random_normal : list nat -> Tensor R) scope v pd :
  (forall v',
      fst (SamplerNetwork_init zero np_random_normal scope v' pd)
      = fst (SamplerNetwork_init zero np_random_normal scope v pd)) /\
  fst (snd (SamplerNetwork_init zero np_random_normal scope v pd)) = v /\
  (forall sc p,
      scope = Some sc -> pd = Some p -> p !! "input_dims" = None ->
      fst (SamplerNetwork_init zero np_random_normal scope v pd)
      = inl (KeyError "input_dims")) /\
  (forall sc p s,
      scope = Some sc -> pd = Some p ->
      fst (SamplerNetwork_init zero np_random_normal scope v pd) = inr s ->
      exists e suffix,
        p !! "input_dims" = Some e /\ e <> VNone /\
        input_dims (sampler_base s) = formatted e ++ suffix /\
        (suffix = [] \/ exists lag, (0 < lag)%Z /\ suffix = [VInt lag])).
Proof.
  split; [|split; [|split]].
  - intros v'. unfold SamplerNetwork_init.
    now destruct (FFNetwork_init scope VNone pd) as [r [a q]].
  - unfold SamplerNetwork_init.
    now destruct (FFNetwork_init scope VNone pd) as [r [a q]].
  - intros sc p -> -> Hp. unfold SamplerNetwork_init, FFNetwork_init.
    destruct (init_body_cases sc VNone p)
      as [(Hv & _)|[(_ & e & He & _)|[(_ & _ & ->)|(_ & He & _)]]];
      try congruence. reflexivity.
  - intros sc p s -> -> E. unfold SamplerNetwork_init in E.
    destruct (FFNetwork_init (Some sc) VNone (Some p)) as [r [a q]] eqn:Hinit.
    cbn [fst] in E. apply res_bind_inr in E as (base & -> & E).
    destruct q as [q|]; [|discriminate].
    apply res_bind_inr in E as (array & _ & [= <-]). cbn [sampler_base].
    apply (FFNetwork_init_entry_dims sc p base). now rewrite Hinit.
Qed.

Lemma X18_witness :
  fst (SamplerNetwork_init 0%Z (np_zeros 0%Z) (Some "sampler") (VInt 7)
         (Some example_single_params))
  = inl (KeyError "input_dims") /\
  exists s e suffix,
    fst (SamplerNetwork_init 0%Z (np_zeros 0%Z) (Some "sampler") (VInt 7)
           (Some example_sampler_zeros)) = inr s /\
    example_sampler_zeros !! "input_dims" = Some e /\ e <> VNone /\
    input_dims (sampler_base s) = formatted e ++ suffix /\
    (suffix = [] \/ exists lag, (0 < lag)%Z /\ suffix = [VInt lag]).
Proof.
  split.
  - apply (proj1 (proj2 (proj2
             (X18_sampler_input_dims_come_from_the_dictionary (Layer:=LayerCall)
                0%Z (np_zeros 0%Z) (Some "sampler") (VInt 7)
                (Some example_single_params))))
             "sampler" example_single_params);
      reflexivity.
  - assert (Hs : fst (SamplerNetwork_init (Layer:=LayerCall) 0%Z
                        (np_zeros 0%Z) (Some "sampler") (VInt 7)
                        (Some example_sampler_zeros))
                 = inr (mkSampler example_sampler_base
                          (Some (np_zeros 0%Z [1; 8])) None))
      by (vm_compute; reflexivity).
    destruct (proj2 (proj2 (proj2
                (X18_sampler_input_dims_come_from_the_dictionary
                   (Layer:=LayerCall) 0%Z (np_zeros 0%Z) (Some "sampler")
                   (VInt 7) (Some example_sampler_zeros))))
                "sampler" example_sampler_zeros _ eq_refl eq_refl Hs)
      as (e & suffix & He & Hne & Hdims & Hsuffix).
    exists (mkSampler example_sampler_base (Some (np_zeros 0%Z [1; 8])) None),
      e, suffix.
    auto.
Defined.

(** X19.  The locations of a new [SamplerNetwork], once the network itself
    has been constructed.  With an upstream location network named under
    [locationnet_n] there is no location array.  Otherwise [num_locations]
    must be given, or the constructor fails with the [AssertionError] "Must
    specify num_locations"; for [n] locations the array has shape
    [(1, 2 * n)]: all zeros with the initializer ['zeros'], drawn from the
    random generator with ['normal'], ['trunc_normal'] or no initializer,
    and any other initializer raises a [ValueError].  The attribute
    [locations_var] is not created by the constructor. *)
Theorem X19_sampler_locations
    {R : Type} (zero : R) {Layer : Type} `{LayerFactory Layer}
    (np_random_normal : list nat -> Tensor R) scope v p
    (base : FFNetwork Layer) :
  fst (FFNetwork_init (Some scope) VNone (Some p)) = inr base ->
  let result :=
    fst (SamplerNetwork_init zero np_random_normal (Some scope) v (Some p)) in
  (forall upstream,
      p !! "locationnet_n" = Some upstream -> upstream <> VNone ->
      result = inr (mkSampler base None None)) /\
  (p !! "locationnet_n" = None \/ p !! "locationnet_n" = Some VNone ->
   (p !! "num_locations" = None ->
    result = inl (AssertionError "Must specify num_locations")) /\
   (forall n,
       p !! "num_locations" = Some (VInt n) -> (0 <= n)%Z ->
       let dims := [1; Z.to_nat (2 * n)] in
       (p !! "location_initializer" = Some (VStr "zeros") ->
        result = inr (mkSampler base (Some (np_zeros zero dims)) None)) /\
       (p !! "location_initializer" = None \/
        p !! "location_initializer" = Some (VStr "normal") \/
        p !! "location_initializer" = Some (VStr "trunc_normal") ->
        result = inr (mkSampler base (Some (np_random_normal dims)) None)) /\
       (forall other,
           p !! "location_initializer" = Some other ->
           other <> VStr "zeros" -> other <> VStr "normal" ->
           other <> VStr "trunc_normal" ->
           result = inl (ValueError "Invalid location_initializer %s")))).
Proof.
  intros E.
  destruct (FFNetwork_init_success scope VNone p base E)
    as (p1 & dims & sizes & types & d & spread & Hframe & _ & _ & _ & _ & _
        & _ & _ & Hrun).
  cbv zeta in Hrun |- *.
  unfold SamplerNetwork_init. rewrite Hrun. cbn [fst res_bind].
  set (q := normalised (num_layers base) p1).
  assert (Hq : forall k, ~ In k ("input_dims" :: option_keys) ->
             q !! k = p !! k).
  { intros k Hk. unfold q.
    rewrite normalised_other by (cbn in *; tauto).
    apply Hframe. cbn in Hk. intuition congruence. }
  assert (Hnet : q !! "locationnet_n" = p !! "locationnet_n")
    by (apply Hq; cbn; intuition discriminate).
  assert (Hnum : q !! "num_locations" = p !! "num_locations")
    by (apply Hq; cbn; intuition discriminate).
  assert (Hini : q !! "location_initializer" = p !! "location_initializer")
    by (apply Hq; cbn; intuition discriminate).
  unfold sampler_locations, dict_get. rewrite Hnet, Hnum, Hini.
  split.
  - intros upstream -> Hne. cbn.
    destruct upstream; first [congruence | reflexivity].
  - intros Habsent.
    assert (Hthen : negb (bool_decide (is_Some (p !! "locationnet_n")))
                    || is_None (default VNone (p !! "locationnet_n")) = true).
    { destruct Habsent as [-> | ->]; [reflexivity|].
      apply orb_true_r. }
    rewrite Hthen. split.
    + intros ->. reflexivity.
    + intros n -> Hn. cbn [res_bind py_double].
      rewrite bool_decide_eq_true_2 by eauto.
      unfold init_locations. cbn [np_extent].
      destruct (Z.ltb_spec (2 * n) 0) as [|_]; [lia|].
      split; [|split].
      * intros ->. reflexivity.
      * intros [-> |[-> | ->]]; reflexivity.
      * intros other -> Hz Hno Htr. cbn [default from_option id].
        replace (py_eq_str other "trunc_normal") with false
          by (symmetry; destruct (py_eq_str other "trunc_normal") eqn:Hs;
              [apply py_eq_str_true in Hs; congruence|reflexivity]).
        replace (py_eq_str other "normal") with false
          by (symmetry; destruct (py_eq_str other "normal") eqn:Hs;
              [apply py_eq_str_true in Hs; congruence|reflexivity]).
        replace (py_eq_str other "zeros") with false
          by (symmetry; destruct (py_eq_str other "zeros") eqn:Hs;
              [apply py_eq_str_true in Hs; congruence|reflexivity]).
        reflexivity.
Qed.

Lemma X19_witness :
  fst (SamplerNetwork_init 0%Z (np_zeros 0%Z) (Some "sampler") VNone
         (Some example_sampler_zeros))
  = inr (mkSampler example_sampler_base
           (Some (np_zeros 0%Z [1; Z.to_nat (2 * 4)])) None) /\
  fst (SamplerNetwork_init 0%Z (np_zeros 0%Z) (Some "sampler") VNone
         (Some example_sampler_params))
  = inl (AssertionError "Must specify num_locations").
Proof.
  split.
  - destruct (X19_sampler_locations (H:=reference_layers) 0%Z (np_zeros 0%Z)
                "sampler" VNone example_sampler_zeros example_sampler_base
                ltac:(vm_compute; reflexivity)) as (_ & Hown).
    destruct (Hown (or_introl eq_refl)) as (_ & Hnum).
    destruct (Hnum 4%Z eq_refl ltac:(lia)) as (Hzeros & _).
    apply Hzeros. reflexivity.
  - destruct (X19_sampler_locations (H:=reference_layers) 0%Z (np_zeros 0%Z)
                "sampler" VNone example_sampler_params example_sampler_base
                ltac:(vm_compute; reflexivity)) as (_ & Hown).
    destruct (Hown (or_introl eq_refl)) as (Hmissing & _).
    apply Hmissing. reflexivity.
Defined.

(** ** The variables to fit *)

(** The loop of [build_fit_variable_list] over the layers [k .. k + m - 1],
    when each of them has an entry of flags and the variables that the flags
    select. *)
Lemma fit_layers_run {Layer Var : Type} `{LayerVariables Layer Var}
    (self : FFNetwork Layer) (w b : Layer -> Var) fit_parameter_list
    (flags : list (PyVal * PyVal)) :
  (forall i l fw fb,
      layers self !! i = Some l -> flags !! i = Some (fw, fb) ->
      (py_truthy fw = true -> weights_var l = inr (w l)) /\
      (py_truthy fb = true -> biases_var l = inr (b l))) ->
  (forall i fw fb, flags !! i = Some (fw, fb) ->
     exists entry,
       fit_parameter_list !! i = Some entry /\
       entry !! "weights" = Some fw /\ entry !! "biases" = Some fb) ->
  forall m k var_list,
    k + m <= length flags ->
    k + m <= length (layers self) ->
    for_range (fit_layer self fit_parameter_list) (seq k m) var_list
    = inr (var_list
           ++ concat (zip_with (fun l f => selected (w l) (b l) f)
                        (take m (drop k (layers self)))
                        (take m (drop k flags)))).
Proof.
  intros variables entries.
  induction m as [|m IH]; intros k var_list Hflags Hlayers;
    cbn [seq for_range].
  - rewrite !take_0. cbn. now rewrite app_nil_r.
  - destruct (lookup_lt_is_Some_2 flags k) as ([fw fb] & Hf); [lia|].
    destruct (lookup_lt_is_Some_2 (layers self) k) as (l & Hl); [lia|].
    destruct (entries k fw fb Hf) as (entry & He & Hw & Hb).
    destruct (variables k l fw fb Hl Hf) as (Hwv & Hbv).
    assert (Hfw : fit_flag fit_parameter_list k "weights"
                  = inr (py_truthy fw)).
    { unfold fit_flag, list_get, dict_get. rewrite He. cbn [res_bind].
      now rewrite Hw. }
    assert (Hfb : fit_flag fit_parameter_list k "biases"
                  = inr (py_truthy fb)).
    { unfold fit_flag, list_get, dict_get. rewrite He. cbn [res_bind].
      now rewrite Hb. }
    rewrite (drop_S (layers self) l k Hl), (drop_S flags (fw, fb) k Hf).
    cbn [take zip_with concat]. unfold selected at 1. cbn [fst snd].
    unfold fit_layer at 1. rewrite Hfw. cbn [res_bind].
    unfold append_var, list_get. rewrite Hl. cbn [res_bind].
    destruct (py_truthy fw); [rewrite (Hwv eq_refl)|]; cbn [res_bind];
      rewrite Hfb; cbn [res_bind];
      (destruct (py_truthy fb); [rewrite (Hbv eq_refl)|]); cbn [res_bind];
      rewrite IH by lia; f_equal; rewrite <- ?app_assoc; reflexivity.
Qed.

(** X20.  [FFNetwork.build_fit_variable_list] returns the selected variables
    in layer order: for each of the first [num_layers] layers in turn, its
    [weights_var] if the layer's entry of [fit_parameter_list] says so under
    ['weights'], then its [biases_var] if the entry says so under
    ['biases'].  The variables of a layer that is not selected are not read,
    and entries of [fit_parameter_list] beyond the last layer are ignored. *)
Theorem X20_fit_variables_in_layer_order
    {Layer Var : Type} `{LayerVariables Layer Var} (self : FFNetwork Layer)
    (w b : Layer -> Var) fit_parameter_list
    (flags : list (PyVal * PyVal)) :
  length flags = num_layers self ->
  num_layers self <= length (layers self) ->
  (forall i l fw fb,
      layers self !! i = Some l -> flags !! i = Some (fw, fb) ->
      (py_truthy fw = true -> weights_var l = inr (w l)) /\
      (py_truthy fb = true -> biases_var l = inr (b l))) ->
  (forall i fw fb, flags !! i = Some (fw, fb) ->
     exists entry,
       fit_parameter_list !! i = Some entry /\
       entry !! "weights" = Some fw /\ entry !! "biases" = Some fb) ->
  FFNetwork_build_fit_variable_list self fit_parameter_list
  = inr (concat (zip_with (fun l f => selected (w l) (b l) f)
                   (take (num_layers self) (layers self)) flags)).
Proof.
  intros Hflags Hlayers Hvars Hentries.
  unfold FFNetwork_build_fit_variable_list.
  rewrite (fit_layers_run self w b fit_parameter_list flags Hvars Hentries)
    by lia.
  rewrite !drop_0. cbn [app]. do 3 f_equal.
  apply take_ge. lia.
Qed.

Lemma X20_witness :
  FFNetwork_build_fit_variable_list example_dense_network example_fit_list
  = inr [(("layer", 0), "weights"); (("layer", 1), "weights");
         (("layer", 1), "biases")].
Proof.
  rewrite (X20_fit_variables_in_layer_order example_dense_network
             (fun c => (call_scope c, "weights"))
             (fun c => (call_scope c, "biases")) example_fit_list
             [(VBool true, VBool false); (VBool true, VBool true)]).
  - reflexivity.
  - reflexivity.
  - simpl. lia.
  - intros i l fw fb _ _. split; reflexivity.
  - intros i fw fb Hi.
    destruct i as [|[|i]]; simpl in Hi; try discriminate;
      injection Hi as <- <-; eexists; repeat split; reflexivity.
Defined.

(** X21.  A [fit_parameter_list] with fewer entries than the network has
    layers makes [FFNetwork.build_fit_variable_list] raise an [IndexError],
    once the layers that do have an entry have been gone through. *)
Theorem X21_short_fit_parameter_list
    {Layer Var : Type} `{LayerVariables Layer Var} (self : FFNetwork Layer)
    (w b : Layer -> Var) fit_parameter_list
    (flags : list (PyVal * PyVal)) :
  length fit_parameter_list = length flags ->
  length flags < num_layers self ->
  num_layers self <= length (layers self) ->
  (forall i l fw fb,
      layers self !! i = Some l -> flags !! i = Some (fw, fb) ->
      (py_truthy fw = true -> weights_var l = inr (w l)) /\
      (py_truthy fb = true -> biases_var l = inr (b l))) ->
  (forall i fw fb, flags !! i = Some (fw, fb) ->
     exists entry,
       fit_parameter_list !! i = Some entry /\
       entry !! "weights" = Some fw /\ entry !! "biases" = Some fb) ->
  FFNetwork_build_fit_variable_list self fit_parameter_list = inl IndexError.
Proof.
  intros Hlen Hshort Hlayers Hvars Hentries.
  unfold FFNetwork_build_fit_variable_list.
  replace (num_layers self)
    with (length flags + (num_layers self - length flags)) by lia.
  rewrite seq_app, for_range_app.
  rewrite (fit_layers_run self w b fit_parameter_list flags Hvars Hentries)
    by lia.
  cbn [res_bind Nat.add].
  destruct (num_layers self - length flags) as [|m] eqn:Hm; [lia|].
  cbn [seq for_range]. unfold fit_layer at 1. unfold fit_flag, list_get.
  rewrite (lookup_ge_None_2 fit_parameter_list (length flags)) by lia.
  reflexivity.
Qed.

Lemma X21_witness :
  FFNetwork_build_fit_variable_list example_dense_network
    [ <["weights" := VBool true]> (<["biases" := VBool false]> ∅) ]
  = inl IndexError.
Proof.
  apply (X21_short_fit_parameter_list example_dense_network
           (fun c => (call_scope c, "weights"))
           (fun c => (call_scope c, "biases")) _
           [(VBool true, VBool false)]).
  - reflexivity.
  - simpl. lia.
  - simpl. lia.
  - intros i l fw fb _ _. split; reflexivity.
  - intros i fw fb Hi.
    destruct i as [|i]; simpl in Hi; try discriminate;
      injection Hi as <- <-; eexists; repeat split; reflexivity.
Defined.

(** X22.  [SamplerNetwork.build_fit_variable_list] first collects the
    variables of the layers as [FFNetwork.build_fit_variable_list] does, and
    an exception raised there is raised here.  It then reads
    [fit_parameter_list[0]['locations']]: when that is true [locations_var]
    is appended after the variables of the layers and a line is printed,
    when it is false the list is the one of the layers; a first entry without
    the key ['locations'] raises a [KeyError], and a true flag on a network
    whose [locations_var] does not exist raises an [AttributeError]. *)
Theorem X22_sampler_fit_variables
    {R Layer Var : Type} `{LayerVariables Layer Var}
    (self : SamplerNetwork R Layer) fit_parameter_list :
  (forall e,
      FFNetwork_build_fit_variable_list (sampler_base self)
        fit_parameter_list = inl e ->
      SamplerNetwork_build_fit_variable_list self fit_parameter_list
      = inl e) /\
  (forall vars entry,
      FFNetwork_build_fit_variable_list (sampler_base self)
        fit_parameter_list = inr vars ->
      fit_parameter_list !! 0 = Some entry ->
      (entry !! "locations" = None ->
       SamplerNetwork_build_fit_variable_list self fit_parameter_list
       = inl (KeyError "locations")) /\
      (forall flag,
          entry !! "locations" = Some flag -> py_truthy flag = false ->
          SamplerNetwork_build_fit_variable_list self fit_parameter_list
          = inr (map (LayerVar (R:=R)) vars, [])) /\
      (forall flag,
          entry !! "locations" = Some flag -> py_truthy flag = true ->
          SamplerNetwork_build_fit_variable_list self fit_parameter_list
          = match locations_var self with
            | Some variable =>
                inr (map (LayerVar (R:=R)) vars ++ [LocationsVar variable],
                     ["adding locations to var_list"])
            | None => inl (AttributeError "locations_var")
            end)).
Proof.
  split.
  - intros e E. unfold SamplerNetwork_build_fit_variable_list.
    now rewrite E.
  - intros vars entry E He.
    unfold SamplerNetwork_build_fit_variable_list.
    rewrite E. cbn [res_bind].
    unfold fit_flag, list_get, dict_get. rewrite He. cbn [res_bind].
    split; [|split].
    + intros ->. reflexivity.
    + intros flag Hf Ht. rewrite Hf. cbn [res_bind]. now rewrite Ht.
    + intros flag Hf Ht. rewrite Hf. cbn [res_bind]. rewrite Ht.
      unfold get_locations_var. now destruct (locations_var self).
Qed.

Lemma X22_witness :
  SamplerNetwork_build_fit_variable_list
    (mkSampler example_dense_network None (Some example_locations))
    example_sampler_fit_list
  = inr ([LayerVar (("layer", 0), "weights");
          LocationsVar example_locations],
         ["adding locations to var_list"]).
Proof.
  destruct (X22_sampler_fit_variables
              (mkSampler example_dense_network None (Some example_locations))
              example_sampler_fit_list) as (_ & Hlist).
  destruct (Hlist [(("layer", 0), "weights")]
              (<["weights" := VBool true]>
                 (<["biases" := VBool false]>
                    (<["locations" := VBool true]> ∅)))
              ltac:(vm_compute; reflexivity) eq_refl) as (_ & _ & Htrue).
  apply (Htrue (VBool true)); reflexivity.
Defined.

(** ** Copying parameters *)

Section CopyFacts.

Context {Layer : Type} `{LayerParams Layer}.

(** What no iteration of the loop of [copy_ffnetwork_params] changes. *)
Lemma for_range_in_place_keeps {St} (P : St -> Prop) body indices :
  (forall i s, In i indices -> P s -> P (snd (body i s))) ->
  forall s, P s -> P (snd (for_range_in_place (St:=St) body indices s)).
Proof.
  induction indices as [|i rest IH]; intros Hstep s Hs; cbn; [assumption|].
  pose proof (Hstep i s ltac:(now left) Hs) as Hi.
  destruct (body i s) as [[e|[]] s1]; cbn in *; [assumption|].
  apply IH; [|assumption]. intros j s2 Hj. apply Hstep. now right.
Qed.

(** What a loop that ends without exception has done. *)
Lemma for_range_in_place_inv {St} (Inv : nat -> St -> Prop) body n :
  forall k s s',
    (forall i s1 s2, k <= i < k + n -> Inv i s1 -> body i s1 = (inr tt, s2) ->
       Inv (S i) s2) ->
    Inv k s ->
    for_range_in_place (St:=St) body (seq k n) s = (inr tt, s') ->
    Inv (k + n) s'.
Proof.
  induction n as [|n IH]; intros k s s' Hstep Hk Hrun; cbn in Hrun.
  - injection Hrun as <-. now rewrite Nat.add_0_r.
  - destruct (body k s) as [[e|[]] s1] eqn:Hbody; [discriminate|].
    replace (k + S n) with (S k + n) by lia.
    apply (IH (S k) s1 s'); [|apply (Hstep k s s1); [lia|assumption..]
                             |assumption].
    intros i a c Hi. apply Hstep. lia.
Qed.

End CopyFacts.

Lemma copy_layers_raise_IndexError {Layer : Type} `{LayerParams Layer}
    (origin : FFNetwork Layer) :
  (forall l o, fst (copy_layer_params l o) = inr tt) ->
  forall indices s,
    fst (for_range_in_place (copy_layer origin) indices s) = inr tt \/
    fst (for_range_in_place (copy_layer origin) indices s) = inl IndexError.
Proof.
  intros Hcopies indices.
  induction indices as [|i rest IH]; intros s; cbn [for_range_in_place].
  - now left.
  - unfold copy_layer at 1 3.
    destruct (layers s !! i) as [l|]; [|now right].
    destruct (layers origin !! i) as [o|]; [|now right].
    specialize (Hcopies l o).
    destruct (copy_layer_params l o) as [r l']. cbn [fst] in Hcopies.
    subst r. apply IH.
Qed.

(** X23.  [FFNetwork.copy_ffnetwork_params] replaces [input_masks] by those
    of the origin network before it touches a layer, so they are replaced
    also when the call raises.  It changes nothing else of the network but
    the first [num_layers] layers, whose number stays the same.  When the
    call returns, every one of those layers has been through
    [copy_layer_params] with the layer of the origin network at the same
    index.  When the origin network has fewer layers than [num_layers] and
    no copy raises, the call raises an [IndexError]. *)
Theorem X23_copy_ffnetwork_params
    {Layer : Type} `{LayerParams Layer} (self origin : FFNetwork Layer) :
  let result := FFNetwork_copy_ffnetwork_params self origin in
  let after := snd result in
  input_masks after = input_masks origin /\
  length (layers after) = length (layers self) /\
  (forall i, num_layers self <= i -> layers after !! i = layers self !! i) /\
  (scope after, input_dims after, num_layers after, layer_types after)
  = (scope self, input_dims self, num_layers self, layer_types self) /\
  (time_expand after, time_spread after, log after)
  = (time_expand self, time_spread self, log self) /\
  (fst result = inr tt ->
   forall i, i < num_layers self ->
     exists l o,
       layers self !! i = Some l /\ layers origin !! i = Some o /\
       copy_layer_params l o = (inr tt, snd (copy_layer_params l o)) /\
       layers after !! i = Some (snd (copy_layer_params l o))) /\
  (length (layers origin) < num_layers self ->
   (forall l o, fst (copy_layer_params l o) = inr tt) ->
   fst result = inl IndexError).
Proof.
  cbv zeta. unfold FFNetwork_copy_ffnetwork_params.
  set (start := with_input_masks self (input_masks origin)).
  change (num_layers start) with (num_layers self).
  set (P := fun s : FFNetwork Layer =>
    input_masks s = input_masks origin /\
    length (layers s) = length (layers self) /\
    (forall i, num_layers self <= i -> layers s !! i = layers self !! i) /\
    (scope s, input_dims s, num_layers s, layer_types s)
    = (scope self, input_dims self, num_layers self, layer_types self) /\
    (time_expand s, time_spread s, log s)
    = (time_expand self, time_spread self, log self)).
  assert (Hkeep : P (snd (for_range_in_place (copy_layer origin)
                            (seq 0 (num_layers self)) start))).
  { apply for_range_in_place_keeps.
    - intros i s Hi (Hm & Hlen & Hrest & Hf1 & Hf2).
      apply in_seq in Hi. unfold copy_layer.
      destruct (layers s !! i) as [l|]; [|repeat split; assumption].
      destruct (layers origin !! i) as [o|]; [|repeat split; assumption].
      destruct (copy_layer_params l o) as [r l']. unfold P, with_layers.
      cbn [snd layers input_masks scope input_dims num_layers layer_types
           time_expand time_spread log].
      repeat split; try assumption.
      + now rewrite length_insert.
      + intros j Hj. rewrite list_lookup_insert_ne by lia. now apply Hrest.
    - unfold P, start, with_input_masks.
      cbn [snd layers input_masks scope input_dims num_layers layer_types
           time_expand time_spread log].
      repeat split. }
  destruct Hkeep as (Hm & Hlen & Hrest & Hf1 & Hf2).
  repeat (split; [assumption|]).
  split.
  - intros Hok i Hi.
    destruct (for_range_in_place (copy_layer origin)
                (seq 0 (num_layers self)) start) as [r after] eqn:Hrun.
    cbn [fst snd] in *. subst r.
    set (Inv := fun k (s : FFNetwork Layer) =>
      (forall j, k <= j -> layers s !! j = layers self !! j) /\
      forall j, j < k ->
        exists l o,
          layers self !! j = Some l /\ layers origin !! j = Some o /\
          copy_layer_params l o = (inr tt, snd (copy_layer_params l o)) /\
          layers s !! j = Some (snd (copy_layer_params l o))).
    assert (Hinv : Inv (0 + num_layers self) after).
    { eapply (for_range_in_place_inv Inv); [| |exact Hrun].
      - intros k s1 s2 Hk (Htodo & Hdone) Hbody. unfold copy_layer in Hbody.
        destruct (layers s1 !! k) as [l|] eqn:Hl; [|discriminate].
        destruct (layers origin !! k) as [o|] eqn:Ho; [|discriminate].
        destruct (copy_layer_params l o) as [r l'] eqn:Hcopy.
        injection Hbody as -> <-. unfold Inv, with_layers. cbn [layers].
        rewrite (Htodo k) in Hl by lia.
        split.
        + intros j Hj. rewrite list_lookup_insert_ne by lia.
          apply Htodo. lia.
        + intros j Hj. destruct (Nat.eq_dec j k) as [->|Hne].
          * exists l, o. rewrite Hcopy. cbn [snd].
            repeat (split; [first [assumption | reflexivity]|]).
            apply list_lookup_insert_eq.
            rewrite <- (Htodo k) in Hl by lia.
            eapply lookup_lt_Some. eassumption.
          * destruct (Hdone j ltac:(lia)) as (l1 & o1 & ? & ? & ? & ?).
            exists l1, o1. rewrite list_lookup_insert_ne by lia. auto.
      - split; [reflexivity|]. intros j Hj. lia. }
    destruct Hinv as (_ & Hdone). apply Hdone. lia.
  - intros Hshort Hcopies.
    destruct (fst (for_range_in_place (copy_layer origin)
                     (seq 0 (num_layers self)) start)) as [e|[]] eqn:Hr;
      [|exfalso].
    { pose proof (copy_layers_raise_IndexError origin Hcopies
                    (seq 0 (num_layers self)) start) as [Hok|Hidx];
        congruence. }
    destruct (for_range_in_place (copy_layer origin)
                (seq 0 (num_layers self)) start) as [r after] eqn:Hrun.
    cbn [fst] in Hr. subst r.
    assert (Hinv : (fun k (_ : FFNetwork Layer) =>
                      k <= length (layers origin))
                     (0 + num_layers self) after).
    { eapply (for_range_in_place_inv
                (fun k (_ : FFNetwork Layer) => k <= length (layers origin)));
        [| |exact Hrun].
      - intros k s1 s2 Hk Hle Hbody. unfold copy_layer in Hbody.
        destruct (layers s1 !! k) as [l|]; [|discriminate].
        destruct (layers origin !! k) as [o|] eqn:Ho; [|discriminate].
        apply lookup_lt_Some in Ho. lia.
      - cbn. lia. }
    cbn in Hinv. lia.
Qed.

Lemma X23_witness :
  exists after,
    FFNetwork_copy_ffnetwork_params example_dense_network
      example_temporal_network = (inr tt, after) /\
    input_masks after = input_masks example_temporal_network /\
    exists l o,
      layers example_dense_network !! 1 = Some l /\
      layers example_temporal_network !! 1 = Some o /\
      layers after !! 1 = Some (snd (copy_layer_params l o)).
Proof.
  pose proof (X23_copy_ffnetwork_params example_dense_network
                example_temporal_network) as Hcopy.
  cbv zeta in Hcopy.
  destruct (FFNetwork_copy_ffnetwork_params example_dense_network
              example_temporal_network) as [r after] eqn:E.
  assert (Hr : r = inr tt).
  { change r with (fst (r, after)). rewrite <- E. vm_compute. reflexivity. }
  subst r. cbn [fst snd] in Hcopy.
  destruct Hcopy as (Hmasks & _ & _ & _ & _ & Hdone & _).
  exists after. split; [reflexivity|]. split; [exact Hmasks|].
  destruct (Hdone eq_refl 1 ltac:(vm_compute; lia))
    as (l & o & Hl & Ho & _ & Hafter).
  exists l, o. auto.
Defined.

(** * The claims that rest on the lemmas above *)

(** ** C7 *)

(** C7, as amended.  The constructor writes to the caller's objects in place;
    it makes no copy of the dictionary.  An [input_dims] list of fewer than
    three entries is padded with 1s where it is: the list passed as argument,
    or the list stored under the dictionary's [input_dims] when the argument
    is [None]; a longer list and a value that is not a list are left as they
    are, and so is the dictionary's [input_dims] entry when an argument is
    given (the argument being an object of its own, not the dictionary's
    list).  Whether the constructor returns or raises, every entry of the
    dictionary other than [input_dims] and the eight optional fields is
    unchanged.  After a successful construction of [n] layers the dictionary
    holds, under [activation_funcs], [weights_initializers],
    [biases_initializers], [num_inh] and [pos_constraints], a list of [n]
    entries: the list that was there, or [n] copies of the value that was
    there or of the default; and under [reg_initializers], [time_expand] and
    [log_activations] the entry that was there, or the defaults [[None] * n],
    [[0] * n] and [False]. *)
Theorem C7_constructor_writes_in_place
    {Layer : Type} `{LayerFactory Layer} scope input_dims p :
  let result :=
    FFNetwork_init (Layer:=Layer) (Some scope) input_dims (Some p) in
  let padded v :=
    match v with
    | VList l => VList (l ++ replicate (3 - length l) (VInt 1))
    | v => v
    end in
  fst (snd result) = padded input_dims /\
  exists q,
    snd (snd result) = Some q /\
    (forall key, ~ In key ("input_dims" :: option_keys) ->
       q !! key = p !! key) /\
    (input_dims <> VNone -> q !! "input_dims" = p !! "input_dims") /\
    (input_dims = VNone -> q !! "input_dims" = padded <$> p !! "input_dims") /\
    (forall net,
       fst result = inr net ->
       let n := num_layers net in
       (forall key, In key checked_keys ->
          exists l, q !! key = Some (VList l) /\ length l = n) /\
       q !! "activation_funcs"
       = Some (broadcast_value n (VStr "relu") (p !! "activation_funcs")) /\
       q !! "weights_initializers"
       = Some (broadcast_value n (VStr "trunc_normal")
                 (p !! "weights_initializers")) /\
       q !! "biases_initializers"
       = Some (broadcast_value n (VStr "zeros")
                 (p !! "biases_initializers")) /\
       q !! "reg_initializers"
       = Some (default (VList (replicate n VNone))
                 (p !! "reg_initializers")) /\
       q !! "num_inh" = Some (broadcast_value n (VInt 0) (p !! "num_inh")) /\
       q !! "pos_constraints"
       = Some (broadcast_value n (VBool false) (p !! "pos_constraints")) /\
       q !! "time_expand"
       = Some (default (VList (replicate n (VInt 0))) (p !! "time_expand")) /\
       q !! "log_activations"
       = Some (default (VBool false) (p !! "log_activations"))).
Proof.
  cbv zeta.
  pose proof (init_body_frame (Layer:=Layer) scope input_dims p)
    as (Hd & Hp & Hi & Hn).
  assert (Hpad : forall v,
             padded_object v
             = match v with
               | VList l => VList (l ++ replicate (3 - length l) (VInt 1))
               | v => v
               end).
  { intros v. destruct v; try reflexivity. cbn. now rewrite pad_in_place_eq. }
  assert (Hlists : forall net,
             fst (FFNetwork_init (Layer:=Layer) (Some scope) input_dims
                    (Some p)) = inr net ->
             forall key, In key checked_keys ->
               exists l,
                 arg_params (snd (FFNetwork_init_body (Layer:=Layer) scope
                                    (mkCaller input_dims p))) !! key
                 = Some (VList l) /\ length l = num_layers net).
  { intros net E key Hkey. apply fst_inr_pair in E.
    apply FFNetwork_init_inr in E
      as (sc & p0 & c1 & c' & dims & _ & _ & E & Hout & _).
    apply init_rest_inr in E
      as (n & types & d & spread & _ & _ & _ & _ & <- & _ & _ & _ & _ & Hl & _).
    unfold FFNetwork_init in Hout.
    destruct (FFNetwork_init_body scope (mkCaller input_dims p)) as [r c2].
    cbn [snd] in *. injection Hout as _ ->.
    apply Hl. now apply list_elem_of_In. }
  assert (Hentries : forall net,
             fst (FFNetwork_init (Layer:=Layer) (Some scope) input_dims
                    (Some p)) = inr net ->
             exists p1,
               (forall k, k <> "input_dims" -> p1 !! k = p !! k) /\
               arg_params (snd (FFNetwork_init_body (Layer:=Layer) scope
                                  (mkCaller input_dims p)))
               = normalised (num_layers net) p1).
  { intros net E.
    destruct (FFNetwork_init_success scope input_dims p net E)
      as (p1 & dims & sizes & types & d & spread & Hframe & _ & _ & _ & _ & _
          & _ & _ & Hrun).
    exists p1. split; [exact Hframe|].
    unfold FFNetwork_init in Hrun.
    destruct (FFNetwork_init_body scope (mkCaller input_dims p)) as [r c2].
    cbn [snd]. now injection Hrun as _ _ ->. }
  unfold FFNetwork_init in *.
  destruct (FFNetwork_init_body scope (mkCaller input_dims p)) as [r c'].
  cbn [fst snd] in *. split; [now rewrite Hd, Hpad|].
  exists (arg_params c'). split; [reflexivity|].
  split; [exact Hp|]. split; [exact Hi|]. split.
  - intros Hnone. rewrite (Hn Hnone).
    destruct (p !! "input_dims") as [e|]; [|reflexivity].
    cbn. now rewrite Hpad.
  - intros net E. split; [exact (Hlists net E)|].
    destruct (Hentries net E) as (p1 & Hframe & ->).
    rewrite <- !Hframe by discriminate.
    apply normalised_entries.
Qed.

Lemma C7_witness :
  fst (snd (FFNetwork_init (Layer:=LayerCall) (Some "net") (ints [5]%Z)
              (Some example_single_params)))
  = VList ([VInt 5] ++ replicate 2 (VInt 1)) /\
  exists q l,
    snd (snd (FFNetwork_init (Layer:=LayerCall) (Some "net") (ints [5]%Z)
                (Some example_single_params))) = Some q /\
    q !! "layer_sizes" = example_single_params !! "layer_sizes" /\
    q !! "num_inh" = Some (VList l) /\ length l = 1 /\
    q !! "time_expand" = Some (ints [0]%Z) /\
    q !! "log_activations" = Some (VBool false) /\
    exists q',
      snd (snd (FFNetwork_init (Layer:=LayerCall) (Some "net") VNone
                  (Some example_entry_params))) = Some q' /\
      q' !! "input_dims" = Some (ints [5; 1; 1]%Z).
Proof.
  destruct (C7_constructor_writes_in_place (Layer:=LayerCall) "net"
              (ints [5]%Z) example_single_params)
    as (Hdims & q & Hq & Hframe & _ & _ & Hafter).
  split; [exact Hdims|].
  destruct (Hafter example_single_network ltac:(vm_compute; reflexivity))
    as (Hlists & _ & _ & _ & _ & _ & _ & Hte & Hlog).
  destruct (Hlists "num_inh" ltac:(simpl; tauto)) as (l & Hl & Hlen).
  exists q, l. split; [exact Hq|].
  split; [apply Hframe; simpl; intuition discriminate|].
  repeat (split; [assumption|]).
  destruct (C7_constructor_writes_in_place (Layer:=LayerCall) "net"
              VNone example_entry_params)
    as (_ & q' & Hq' & _ & _ & Hentry & _).
  exists q'. split; [exact Hq'|].
  rewrite (Hentry eq_refl). reflexivity.
Defined.

(** ** C3 *)

(** C3, as amended.  In a constructed network, take a layer of a kind that
    reads [conv_filter_widths], its width [w] from that list, and the input
    dimensions [(c, x, h, lags...)] with which it was constructed.  With a
    width that is not [None], a ['conv'] or ['biconv'] layer was given the
    filter shape [(c * product of lags, w, w)] when [h > 1] and
    [(c * product of lags, w, 1)] otherwise, the extents and the product
    being in the range of [int64]; a ['convsep'] or ['convLNL'] layer was
    given [(c, w, w)] when [h > 1] and [(c, w, 1)] otherwise, without the
    lags; a ['conv_xy'] layer was given [(c, w, w)] whatever [h].  With the
    width [None], each of them was given its input dimensions as the filter
    shape. *)
Theorem C3_conv_filter_shapes
    {Layer : Type} `{LayerFactory Layer} scope v p (net : FFNetwork Layer)
    i kind :
  fst (FFNetwork_init (Some scope) v (Some p)) = inr net ->
  i < num_layers net ->
  py_getitem (layer_types net) i = inr (VStr kind) ->
  In kind ["conv"; "biconv"; "convsep"; "convLNL"; "conv_xy"] ->
  exists call layer widths width,
    layers net !! i = Some layer /\
    new_layer call = inr layer /\
    snd (call_scope call) = i /\
    p !! "conv_filter_widths" = Some widths /\
    py_getitem widths i = inr width /\
    forall c x h lags,
      kwarg "input_dims" (call_kwargs call)
      = Some (ints (c :: x :: h :: lags)) ->
      (width = VNone ->
       kwarg "filter_dims" (call_kwargs call)
       = Some (ints (c :: x :: h :: lags))) /\
      (width <> VNone ->
       (kind = "conv" \/ kind = "biconv" ->
        Forall int64 (c :: lags) ->
        int64 (c * list_prod lags) ->
        kwarg "filter_dims" (call_kwargs call)
        = Some (VList [VInt (c * list_prod lags); width;
                       if (1 <? h)%Z then width else VInt 1])) /\
       (kind = "convsep" \/ kind = "convLNL" ->
        kwarg "filter_dims" (call_kwargs call)
        = Some (VList [VInt c; width;
                       if (1 <? h)%Z then width else VInt 1])) /\
       (kind = "conv_xy" ->
        kwarg "filter_dims" (call_kwargs call)
        = Some (VList [VInt c; width; width]))).
Proof.
  intros E Hi Hkind Hconv.
  destruct (FFNetwork_init_calls scope v p net E)
    as (dims & declared & d & _ & _ & _ & _ & Hl & _ & _ & Hcalls).
  destruct (Hcalls i Hi)
    as (kind' & call & layer & Hkind' & _ & Hlayer & Hnew & Hscope & _
        & Hfilter).
  rewrite Hkind in Hkind'. injection Hkind' as <-.
  assert (Hbranch : exists derive, conv_branch kind derive).
  { unfold conv_branch. cbn in Hconv.
    destruct Hconv as [<-|[<-|[<-|[<-|[<-|[]]]]]]; eauto 10. }
  destruct Hbranch as (derive & Hbranch).
  destruct (Hfilter derive Hbranch)
    as (widths & width & size_in & filter & Hws & Hw & Hin & Hderive & Hfd).
  exists call, layer, widths, width. rewrite Hl.
  repeat (split; [assumption|]).
  intros c x h lags Hinput.
  rewrite Hin in Hinput. injection Hinput as ->.
  destruct (conv_filter_size_ints c x h lags width)
    as (Hgiven & Hn1 & Hn2 & Hn3).
  cbv zeta in *.
  assert (Hone : forall derive',
             conv_branch kind derive' ->
             kwarg "filter_dims" (call_kwargs call)
             = match derive' (ints (c :: x :: h :: lags)) width with
               | inr f => Some f
               | inl _ => None
               end).
  { intros derive' Hb.
    destruct (Hfilter derive' Hb)
      as (ws' & width' & size' & filter' & Hws' & Hw' & Hin' & Hd' & Hfd').
    rewrite Hws in Hws'. injection Hws' as <-.
    rewrite Hw in Hw'. injection Hw' as <-.
    rewrite Hin in Hin'. injection Hin' as <-.
    now rewrite Hd'. }
  split.
  - intros ->. rewrite (Hone derive Hbranch).
    destruct Hbranch as [[_ ->]|[[_ ->]|[_ ->]]];
      now rewrite ?Hn1, ?Hn2, ?Hn3.
  - intros Hgiven'. destruct (Hgiven Hgiven') as (H1 & H2 & H3).
    split; [|split].
    + intros Hk _ _.
      rewrite (Hone conv_filter_size_lagged) by (left; auto). now rewrite H1.
    + intros Hk.
      rewrite (Hone conv_filter_size_plain) by (right; left; auto).
      now rewrite H2.
    + intros Hk.
      rewrite (Hone conv_filter_size_xy) by (right; right; auto).
      now rewrite H3.
Qed.

Lemma C3_witness :
  exists net call layer,
    fst (FFNetwork_init (Layer:=LayerCall) (Some "net") (ints [2; 5; 5]%Z)
           (Some (example_filter_params "conv" 2))) = inr net /\
    layers net !! 0 = Some layer /\
    new_layer call = inr layer /\
    kwarg "input_dims" (call_kwargs call) = Some (ints [2; 5; 5; 2]%Z) /\
    kwarg "filter_dims" (call_kwargs call)
    = Some (ints [2 * list_prod [2]; 3; 3]%Z).
Proof.
  destruct (fst (FFNetwork_init (Layer:=LayerCall) (Some "net")
                   (ints [2; 5; 5]%Z)
                   (Some (example_filter_params "conv" 2))))
    as [e|net] eqn:E; [vm_compute in E; discriminate|].
  destruct (C3_conv_filter_shapes (Layer:=LayerCall) "net" (ints [2; 5; 5]%Z)
              (example_filter_params "conv" 2) net 0 "conv" E)
    as (call & layer & widths & width & Hlayer & Hnew & _ & Hws & Hw & Hshape).
  - vm_compute in E. injection E as <-. simpl. lia.
  - vm_compute in E. injection E as <-. reflexivity.
  - simpl. auto.
  - exists net, call, layer.
    split; [reflexivity|]. split; [exact Hlayer|]. split; [exact Hnew|].
    vm_compute in E. injection E as <-.
    cbn in Hlayer. injection Hlayer as <-.
    cbn in Hnew. injection Hnew as ->.
    vm_compute in Hws. injection Hws as <-.
    cbn in Hw. injection Hw as <-.
    split; [reflexivity|].
    destruct (Hshape 2%Z 5%Z 5%Z [2%Z] eq_refl) as (_ & Hgiven).
    destruct (Hgiven ltac:(discriminate)) as (Hlagged & _).
    apply Hlagged.
    + now left.
    + repeat constructor; unfold int64; lia.
    + unfold int64. cbn. lia.
Defined.
